(** * BDA (breakdown analysis) core: validation, normalisation, audit-aware
      persistence.

    Shallow embedding of the core functions of [app.py]:
    [all_filled], [_parse_date], [_parse_time], [_safe_json_loads],
    [normalizar_dados_bda], [validar_payload], [ensure_schema],
    [_montar_db_payload], [inserir_bda], [atualizar_bda].

    Python values are an inductive type [pyval]; a dict is an association list
    in insertion order (the order is observable: [all_filled] reports errors in
    the order of [values.items()]); exceptions are an explicit result type;
    the clock, the storage engine's refusals and the library calls the core
    only consumes (float, pandas' permissive date parser, [str.lower], the
    image store) are parameters. *)

From Stdlib Require Import String Ascii List ZArith Lia Bool.
From Stdlib Require Import DecimalString.
From Stdlib Require DecimalN DecimalPos DecimalFacts.
Import ListNotations.
Local Open Scope string_scope.
Local Open Scope Z_scope.

Set Warnings "-register-all".

(** ** Exceptions *)

Inductive exn : Type :=
| TypeError
| ValueError
| AttributeError
| OverflowError
| JSONDecodeError
| RecursionError
| OperationalError
| InterfaceError.

Inductive result (A : Type) : Type :=
| Ok (a : A)
| Raise (e : exn).

Arguments Ok {A} a.
Arguments Raise {A} e.

Definition bind {A B : Type} (c : result A) (k : A -> result B) : result B :=
  match c with
  | Ok a => k a
  | Raise e => Raise e
  end.

Notation "x <- c ;; k" := (bind c (fun x => k))
  (at level 61, c at next level, right associativity).
Notation "' p <- c ;; k" := (bind c (fun x => let p := x in k))
  (at level 61, p pattern, c at next level, right associativity).

(** [try: c except Exception: d] *)
Definition try_except {A : Type} (c : result A) (d : A) : A :=
  match c with
  | Ok a => a
  | Raise _ => d
  end.

Definition is_ok {A : Type} (c : result A) : bool :=
  match c with Ok _ => true | Raise _ => false end.

(** ** Text

    A Python [str] is kept as its UTF-8 bytes. *)

Definition byte_of (c : ascii) : N := N_of_ascii c.

(** One-byte whitespace of [str.isspace]: U+0009..U+000D, U+001C..U+0020. *)
Definition is_space1 (c : ascii) : bool :=
  let n := byte_of c in
  ((9 <=? n) && (n <=? 13) || (28 <=? n) && (n <=? 32))%N.

(** Two-byte whitespace: U+0085 (C2 85) and U+00A0 (C2 A0). *)
Definition is_space2 (c1 c2 : ascii) : bool :=
  let a := byte_of c1 in
  let b := byte_of c2 in
  ((a =? 194) && ((b =? 133) || (b =? 160)))%N.

(** Three-byte whitespace: U+1680, U+2000..U+200A, U+2028, U+2029, U+202F,
    U+205F, U+3000. *)
Definition is_space3 (c1 c2 c3 : ascii) : bool :=
  let a := byte_of c1 in
  let b := byte_of c2 in
  let c := byte_of c3 in
  ((a =? 225) && (b =? 154) && (c =? 128)
   || (a =? 226) && (b =? 128)
      && ((128 <=? c) && (c <=? 138) || (c =? 168) || (c =? 169) || (c =? 175))
   || (a =? 226) && (b =? 129) && (c =? 159)
   || (a =? 227) && (b =? 128) && (c =? 128))%N.

Fixpoint lstrip_l (s : list ascii) : list ascii :=
  match s with
  | [] => []
  | c1 :: r1 =>
      if is_space1 c1 then lstrip_l r1
      else
        match r1 with
        | [] => s
        | c2 :: r2 =>
            if is_space2 c1 c2 then lstrip_l r2
            else
              match r2 with
              | [] => s
              | c3 :: r3 => if is_space3 c1 c2 c3 then lstrip_l r3 else s
              end
        end
  end.

(** The same scan from the right end, on the reversed bytes. *)
Fixpoint rstrip_rev (s : list ascii) : list ascii :=
  match s with
  | [] => []
  | c1 :: r1 =>
      if is_space1 c1 then rstrip_rev r1
      else
        match r1 with
        | [] => s
        | c2 :: r2 =>
            if is_space2 c2 c1 then rstrip_rev r2
            else
              match r2 with
              | [] => s
              | c3 :: r3 => if is_space3 c3 c2 c1 then rstrip_rev r3 else s
              end
        end
  end.

(** [s.strip()] *)
Definition strip (s : string) : string :=
  string_of_list_ascii
    (rev (rstrip_rev (rev (lstrip_l (list_ascii_of_string s))))).

Definition str_empty (s : string) : bool :=
  match s with EmptyString => true | String _ _ => false end.

(** [not s.strip()] *)
Definition blank (s : string) : bool := str_empty (strip s).

(** [s.split(sep)] for a one-character separator. *)
Fixpoint split_on (sep : ascii) (s : string) (cur : string) : list string :=
  match s with
  | EmptyString => [cur]
  | String c r =>
      if Ascii.eqb c sep then cur :: split_on sep r ""
      else split_on sep r (cur ++ String c "")
  end.

Definition split (sep : ascii) (s : string) : list string := split_on sep s "".

Fixpoint prefixb (p s : string) : bool :=
  match p, s with
  | EmptyString, _ => true
  | String a p', String b s' => Ascii.eqb a b && prefixb p' s'
  | String _ _, EmptyString => false
  end.

(** The rest of [s] after its first character, when that character is [c]. *)
Definition after (c : ascii) (s : string) : option string :=
  match s with
  | String a r => if Ascii.eqb a c then Some r else None
  | EmptyString => None
  end.

(** [needle in hay] *)
Fixpoint contains (needle hay : string) : bool :=
  prefixb needle hay
  || match hay with
     | EmptyString => false
     | String _ hay' => contains needle hay'
     end.

(** Decimal rendering of integers, [str(n)]. *)
Definition str_of_N (n : N) : string := NilZero.string_of_uint (N.to_uint n).

Definition str_of_Z (z : Z) : string :=
  if z <? 0 then "-" ++ str_of_N (Z.to_N (- z)) else str_of_N (Z.to_N z).

(** [%0{w}d] for a non-negative value. *)
Fixpoint zeros (k : nat) : string :=
  match k with O => "" | S k' => "0" ++ zeros k' end.

Definition pad (w : nat) (z : Z) : string :=
  let s := str_of_N (Z.to_N z) in
  zeros (w - String.length s) ++ s.

(** *** [int(s)] on text: optional sign, decimal digits, single underscores
    between digits, surrounding whitespace. *)

Definition digit_of (c : ascii) : option Z :=
  let n := byte_of c in
  if ((48 <=? n) && (n <=? 57))%N then Some (Z.of_N n - 48) else None.

Fixpoint digits_value (s : string) (acc : Z) (after_digit : bool) : option Z :=
  match s with
  | EmptyString => if after_digit then Some acc else None
  | String c r =>
      match digit_of c with
      | Some d => digits_value r (acc * 10 + d) true
      | None =>
          if Ascii.eqb c "_" && after_digit then
            match r with
            | String c' _ =>
                match digit_of c' with
                | Some _ => digits_value r acc false
                | None => None
                end
            | EmptyString => None
            end
          else None
      end
  end.

Definition int_of_str (s : string) : result Z :=
  let body (t : string) (sign : Z) :=
    match digits_value t 0 false with
    | Some v => Ok (sign * v)
    | None => Raise ValueError
    end in
  let t := strip s in
  match after "-" t, after "+" t with
  | Some r, _ => body r (-1)
  | None, Some r => body r 1
  | None, None => body t 1
  end.

(** ** Dates and times ([datetime.date], [datetime.time], [datetime.datetime]) *)

Record pydate : Type := mkdate { year : Z; month : Z; day : Z }.

Record pytime : Type :=
  mktime { hour : Z; minute : Z; second : Z; microsecond : Z }.

Definition pydate_eqb (a b : pydate) : bool :=
  (year a =? year b) && (month a =? month b) && (day a =? day b).

Definition pytime_eqb (a b : pytime) : bool :=
  (hour a =? hour b) && (minute a =? minute b) && (second a =? second b)
  && (microsecond a =? microsecond b).

(** [str(d)], i.e. [d.isoformat()] *)
Definition str_of_date (d : pydate) : string :=
  pad 4 (year d) ++ "-" ++ pad 2 (month d) ++ "-" ++ pad 2 (day d).

(** [t.isoformat(timespec="seconds")] *)
Definition str_of_time_seconds (t : pytime) : string :=
  pad 2 (hour t) ++ ":" ++ pad 2 (minute t) ++ ":" ++ pad 2 (second t).

(** [str(t)]: the fraction is printed only when it is not zero. *)
Definition str_of_time (t : pytime) : string :=
  if microsecond t =? 0 then str_of_time_seconds t
  else str_of_time_seconds t ++ "." ++ pad 6 (microsecond t).

(** [str(dt)], i.e. [dt.isoformat(sep=" ")] *)
Definition str_of_datetime (d : pydate) (t : pytime) : string :=
  str_of_date d ++ " " ++ str_of_time t.

(** [datetime.time(hour=hh, minute=mm, second=ss)] *)
Definition dt_time (hh mm ss : Z) : result pytime :=
  if (0 <=? hh) && (hh <? 24) && (0 <=? mm) && (mm <? 60)
     && (0 <=? ss) && (ss <? 60)
  then Ok (mktime hh mm ss 0)
  else Raise ValueError.

Definition is_leap (y : Z) : bool :=
  (y mod 4 =? 0) && (negb (y mod 100 =? 0) || (y mod 400 =? 0)).

Definition days_in_month (y m : Z) : Z :=
  if m =? 2 then (if is_leap y then 29 else 28)
  else if (m =? 4) || (m =? 6) || (m =? 9) || (m =? 11) then 30
  else 31.

Definition next_day (d : pydate) : pydate :=
  if day d <? days_in_month (year d) (month d)
  then mkdate (year d) (month d) (day d + 1)
  else if month d <? 12 then mkdate (year d) (month d + 1) 1
  else mkdate (year d + 1) 1 1.

(** [d + timedelta(days=n)]; [date.max] is 9999-12-31. *)
Definition date_add_days (d : pydate) (n : nat) : result pydate :=
  let r := Nat.iter n next_day d in
  if year r <=? 9999 then Ok r else Raise OverflowError.

(** The clock read by [date.today()] and [datetime.now()]. *)
Record clock : Type :=
  mkclock { today : pydate; now_date : pydate; now_time : pytime }.

(** ** Floats

    Python's [float] is kept abstract: the core converts to it, tests it and
    prints it, and never computes with it. *)

Class PyFloat : Type := {
  float : Type;
  (** [0.0] *)
  float_zero : float;
  (** [bool(x)] *)
  float_bool : float -> bool;
  (** [np.isnan(x)] *)
  float_isnan : float -> bool;
  (** [float(n)] for an int *)
  float_of_Z : Z -> result float;
  (** [float(s)] for a str *)
  float_of_str : string -> result float;
  (** [int(x)] *)
  float_to_Z : float -> result Z;
  (** [str(x)] *)
  float_str : float -> string;
  (** the text [json.dumps] writes for [x] *)
  float_json : float -> string
}.

(** ** Python values *)

Section Values.

Context {PF : PyFloat}.

Inductive pyval : Type :=
| VNone
| VBool (b : bool)
| VInt (z : Z)
| VFloat (f : float)
| VStr (s : string)
| VDate (d : pydate)
| VTime (t : pytime)
| VDatetime (d : pydate) (t : pytime)
| VList (l : list pyval)
| VDict (kvs : list (string * pyval))
| VUpload (name : string).

Definition dict : Type := list (string * pyval).

(** [bool(v)] *)
Definition truthy (v : pyval) : bool :=
  match v with
  | VNone => false
  | VBool b => b
  | VInt z => negb (z =? 0)
  | VFloat f => float_bool f
  | VStr s => negb (str_empty s)
  | VDate _ | VTime _ | VDatetime _ _ => true
  | VList l => match l with [] => false | _ :: _ => true end
  | VDict kvs => match kvs with [] => false | _ :: _ => true end
  | VUpload _ => true
  end.

(** [a or b] *)
Definition py_or (a b : pyval) : pyval := if truthy a then a else b.

Definition is_none (v : pyval) : bool :=
  match v with VNone => true | _ => false end.

(** [d.get(k, dflt)] *)
Fixpoint dict_get_default (d : dict) (k : string) (dflt : pyval) : pyval :=
  match d with
  | [] => dflt
  | (k', v) :: r => if String.eqb k' k then v else dict_get_default r k dflt
  end.

(** [d.get(k)] *)
Definition dict_get (d : dict) (k : string) : pyval :=
  dict_get_default d k VNone.

(** [d[k] = v]: an existing key keeps its position, a new key goes last. *)
Fixpoint dict_set (d : dict) (k : string) (v : pyval) : dict :=
  match d with
  | [] => [(k, v)]
  | (k', v') :: r =>
      if String.eqb k' k then (k', v) :: r else (k', v') :: dict_set r k v
  end.

(** [v.get(k, dflt)] on an arbitrary value: only a dict has [get]. *)
Definition py_get_default (v : pyval) (k : string) (dflt : pyval)
  : result pyval :=
  match v with
  | VDict kvs => Ok (dict_get_default kvs k dflt)
  | _ => Raise AttributeError
  end.

Definition py_get (v : pyval) (k : string) : result pyval :=
  py_get_default v k VNone.

(** [int(v)] *)
Definition py_int (v : pyval) : result Z :=
  match v with
  | VInt z => Ok z
  | VBool b => Ok (if b then 1 else 0)
  | VFloat f => float_to_Z f
  | VStr s => int_of_str s
  | _ => Raise TypeError
  end.

(** [float(v)] *)
Definition py_float (v : pyval) : result float :=
  match v with
  | VFloat f => Ok f
  | VInt z => float_of_Z z
  | VBool b => float_of_Z (if b then 1 else 0)
  | VStr s => float_of_str s
  | _ => Raise TypeError
  end.

End Values.

(** ** Library calls the core consumes *)

Class PyLibs {PF : PyFloat} : Type := {
  (** [pd.to_datetime(s, errors="coerce").date()]: the value it returns or
      the exception it raises *)
  pd_to_datetime_date : string -> result pyval;
  (** [s.lower()] *)
  str_lower : string -> string;
  (** [str(v)] of a container or of an uploaded file *)
  py_repr : pyval -> string;
  (** [salvar_imagem(upload)] for an upload named [n]: the path of the file
      it wrote under [uploads/], or the exception of the write *)
  salvar_imagem : string -> result string;
  (** the engine's [CURRENT_TIMESTAMP], the default of the column
      [created_at], at the moment of a reading of the clock: UTC, as
      [YYYY-MM-DD HH:MM:SS] *)
  current_timestamp : clock -> string
}.

(** ** [str(v)] *)

Section Str.

Context {PF : PyFloat} {PL : PyLibs}.

Definition py_str (v : pyval) : string :=
  match v with
  | VNone => "None"
  | VBool b => if b then "True" else "False"
  | VInt z => str_of_Z z
  | VFloat f => float_str f
  | VStr s => s
  | VDate d => str_of_date d
  | VTime t => str_of_time t
  | VDatetime d t => str_of_datetime d t
  | VList _ | VDict _ | VUpload _ => py_repr v
  end.

End Str.

(** ** JSON ([json.dumps(v, ensure_ascii=False)] and [json.loads]) *)

Definition hex_digit (n : N) : ascii :=
  ascii_of_N (if (n <? 10)%N then 48 + n else 87 + n).

Definition chr (n : N) : string := String (ascii_of_N n) "".

(** [ESCAPE_DCT]: the quote (34), the backslash (92) and the control
    characters; a backslash is followed by the quote, a backslash, [n], [r],
    [t], [b], [f] or [u00XX]. *)
Definition json_escape_char (c : ascii) : string :=
  let n := byte_of c in
  if (n =? 34)%N then chr 92 ++ chr 34
  else if (n =? 92)%N then chr 92 ++ chr 92
  else if (n =? 10)%N then chr 92 ++ "n"
  else if (n =? 13)%N then chr 92 ++ "r"
  else if (n =? 9)%N then chr 92 ++ "t"
  else if (n =? 8)%N then chr 92 ++ "b"
  else if (n =? 12)%N then chr 92 ++ "f"
  else if (n <? 32)%N then
    chr 92 ++ "u00"
    ++ String (hex_digit (n / 16)) (String (hex_digit (n mod 16)) "")
  else String c "".

Fixpoint json_escape (s : string) : string :=
  match s with
  | EmptyString => ""
  | String c r => json_escape_char c ++ json_escape r
  end.

Definition json_quote (s : string) : string :=
  String (ascii_of_N 34) (json_escape s) ++ String (ascii_of_N 34) "".

Fixpoint join (sep : string) (l : list string) : string :=
  match l with
  | [] => ""
  | [x] => x
  | x :: r => x ++ sep ++ join sep r
  end.

Definition skip_json_ws_char (c : ascii) : bool :=
  let n := byte_of c in
  ((n =? 32) || (n =? 9) || (n =? 10) || (n =? 13))%N.

Fixpoint skip_ws (s : string) : string :=
  match s with
  | String c r => if skip_json_ws_char c then skip_ws r else s
  | EmptyString => s
  end.

Definition is_digit (c : ascii) : bool :=
  match digit_of c with Some _ => true | None => false end.

(** The longest run of decimal digits at the head of [s], and the rest. *)
Fixpoint span_digits (s : string) : string * string :=
  match s with
  | String c r =>
      if is_digit c then let '(d, t) := span_digits r in (String c d, t)
      else ("", s)
  | EmptyString => ("", "")
  end.

Definition hex_value (c : ascii) : option N :=
  let n := byte_of c in
  if ((48 <=? n) && (n <=? 57))%N then Some (n - 48)%N
  else if ((97 <=? n) && (n <=? 102))%N then Some (n - 87)%N
  else if ((65 <=? n) && (n <=? 70))%N then Some (n - 55)%N
  else None.

(** Four hexadecimal digits at the head of [s]. *)
Definition hex4 (s : string) : option (N * string) :=
  match s with
  | String a (String b (String c (String d r))) =>
      match hex_value a, hex_value b, hex_value c, hex_value d with
      | Some x, Some y, Some z, Some w =>
          Some (((x * 16 + y) * 16 + z) * 16 + w, r)%N
      | _, _, _, _ => None
      end
  | _ => None
  end.

(** UTF-8 bytes of a code point. *)
Definition utf8 (cp : N) : string :=
  let b (n : N) := ascii_of_N n in
  (if cp <? 128 then String (b cp) ""
   else if cp <? 2048 then
     String (b (192 + cp / 64)) (String (b (128 + cp mod 64)) "")
   else if cp <? 65536 then
     String (b (224 + cp / 4096))
       (String (b (128 + (cp / 64) mod 64)) (String (b (128 + cp mod 64)) ""))
   else
     String (b (240 + cp / 262144))
       (String (b (128 + (cp / 4096) mod 64))
          (String (b (128 + (cp / 64) mod 64))
             (String (b (128 + cp mod 64)) ""))))%N.

(** [scanstring], strict: the text after the opening quote up to the closing
    one, escapes decoded. *)
Fixpoint scanstring (fuel : nat) (s : string) : result (string * string) :=
  match fuel with
  | O => Raise JSONDecodeError
  | S f =>
      match s with
      | EmptyString => Raise JSONDecodeError
      | String c r =>
          let n := byte_of c in
          if (n =? 34)%N then Ok ("", r)
          else if (n <? 32)%N then Raise JSONDecodeError
          else if (n =? 92)%N then
            match r with
            | EmptyString => Raise JSONDecodeError
            | String e r' =>
                let lit (x : N) :=
                  '(t, rest) <- scanstring f r' ;;
                  Ok (String (ascii_of_N x) t, rest) in
                let m := byte_of e in
                if (m =? 34)%N then lit 34%N
                else if (m =? 92)%N then lit 92%N
                else if (m =? 47)%N then lit 47%N
                else if (m =? 98)%N then lit 8%N
                else if (m =? 102)%N then lit 12%N
                else if (m =? 110)%N then lit 10%N
                else if (m =? 114)%N then lit 13%N
                else if (m =? 116)%N then lit 9%N
                else if (m =? 117)%N then
                  match hex4 r' with
                  | None => Raise JSONDecodeError
                  | Some (u, r2) =>
                      let single :=
                        '(t, rest) <- scanstring f r2 ;;
                        Ok (utf8 u ++ t, rest) in
                      if ((55296 <=? u) && (u <=? 56319))%N then
                        match after "u" (match after (ascii_of_N 92) r2 with
                                         | Some r3 => r3
                                         | None => ""
                                         end) with
                        | Some r3 =>
                            match hex4 r3 with
                            | Some (u2, r4) =>
                                if ((56320 <=? u2) && (u2 <=? 57343))%N then
                                  '(t, rest) <- scanstring f r4 ;;
                                  Ok (utf8 (65536 + (u - 55296) * 1024
                                            + (u2 - 56320))%N ++ t, rest)
                                else single
                            | None => single
                            end
                        | None => single
                        end
                      else single
                  end
                else Raise JSONDecodeError
            end
          else
            '(t, rest) <- scanstring f r ;;
            Ok (String c t, rest)
      end
  end.

Section Json.

Context {PF : PyFloat}.

(** [JSONEncoder.encode]: dates, times and uploads are not serialisable. *)
Fixpoint json_dumps (v : pyval) : result string :=
  match v with
  | VNone => Ok "null"
  | VBool b => Ok (if b then "true" else "false")
  | VInt z => Ok (str_of_Z z)
  | VFloat f => Ok (float_json f)
  | VStr s => Ok (json_quote s)
  | VList l =>
      items <- (fix each (l : list pyval) : result (list string) :=
                  match l with
                  | [] => Ok []
                  | x :: r =>
                      sx <- json_dumps x ;; sr <- each r ;; Ok (sx :: sr)
                  end) l ;;
      Ok ("[" ++ join ", " items ++ "]")
  | VDict kvs =>
      items <- (fix each (l : list (string * pyval)) : result (list string) :=
                  match l with
                  | [] => Ok []
                  | (k, x) :: r =>
                      sx <- json_dumps x ;; sr <- each r ;;
                      Ok ((json_quote k ++ ": " ++ sx) :: sr)
                  end) kvs ;;
      Ok ("{" ++ join ", " items ++ "}")
  | VDate _ | VTime _ | VDatetime _ _ | VUpload _ => Raise TypeError
  end.

(** [_match_number]: integer part, optional fraction, optional exponent; an
    exponent without digits is left unread. *)
Definition scan_number (s : string) : result (pyval * string) :=
  let '(neg, s1) :=
    match after "-" s with
    | Some r => ("-", r)
    | None => ("", s)
    end in
  match s1 with
  | String c r =>
      if is_digit c then
        let '(ipart, s2) :=
          if Ascii.eqb c "0" then ("0", r) else span_digits s1 in
        let '(frac, s3) :=
          match after "." s2 with
          | Some r' =>
              let '(ds, t) := span_digits r' in
              if str_empty ds then ("", s2) else ("." ++ ds, t)
          | None => ("", s2)
          end in
        let '(ex, s4) :=
          match s3 with
          | String e r' =>
              if Ascii.eqb e "e" || Ascii.eqb e "E" then
                let '(sg, r2) :=
                  match after "-" r', after "+" r' with
                  | Some t, _ => ("-", t)
                  | None, Some t => ("+", t)
                  | None, None => ("", r')
                  end in
                let '(ds, t) := span_digits r2 in
                if str_empty ds then ("", s3)
                else (String e sg ++ ds, t)
              else ("", s3)
          | EmptyString => ("", s3)
          end in
        if str_empty frac && str_empty ex then
          z <- int_of_str (neg ++ ipart) ;; Ok (VInt z, s4)
        else
          f <- float_of_str (neg ++ ipart ++ frac ++ ex) ;; Ok (VFloat f, s4)
      else Raise JSONDecodeError
  | EmptyString => Raise JSONDecodeError
  end.

Definition literal (word : string) (v : result pyval) (s : string)
  : result (pyval * string) :=
  if prefixb word s then
    x <- v ;; Ok (x, substring (String.length word) (String.length s) s)
  else Raise JSONDecodeError.

(** [scan_once], [JSONArray] and [JSONObject]. An object keeps the first
    position of a repeated key and its last value. *)
Fixpoint scan_once (fuel : nat) (s : string) {struct fuel}
  : result (pyval * string) :=
  match fuel with
  | O => Raise RecursionError
  | S f =>
      match s with
      | EmptyString => Raise JSONDecodeError
      | String c r =>
          let n := byte_of c in
          if (n =? 34)%N then
            '(t, rest) <- scanstring (String.length r) r ;; Ok (VStr t, rest)
          else if Ascii.eqb c "{" then
            match after "}" (skip_ws r) with
            | Some r' => Ok (VDict [], r')
            | None =>
                '(kvs, rest) <- scan_object f (skip_ws r) [] ;;
                Ok (VDict kvs, rest)
            end
          else if Ascii.eqb c "[" then
            match after "]" (skip_ws r) with
            | Some r' => Ok (VList [], r')
            | None =>
                '(vs, rest) <- scan_array f (skip_ws r) ;;
                Ok (VList vs, rest)
            end
          else if Ascii.eqb c "n" then literal "null" (Ok VNone) s
          else if Ascii.eqb c "t" then literal "true" (Ok (VBool true)) s
          else if Ascii.eqb c "f" then literal "false" (Ok (VBool false)) s
          else if Ascii.eqb c "N" then
            literal "NaN" (x <- float_of_str "nan" ;; Ok (VFloat x)) s
          else if Ascii.eqb c "I" then
            literal "Infinity" (x <- float_of_str "inf" ;; Ok (VFloat x)) s
          else if prefixb "-Infinity" s then
            literal "-Infinity" (x <- float_of_str "-inf" ;; Ok (VFloat x)) s
          else scan_number s
      end
  end
with scan_array (fuel : nat) (s : string) {struct fuel}
  : result (list pyval * string) :=
  match fuel with
  | O => Raise RecursionError
  | S f =>
      '(v, r) <- scan_once f s ;;
      match after "]" (skip_ws r), after "," (skip_ws r) with
      | Some r', _ => Ok ([v], r')
      | None, Some r' =>
          '(vs, rest) <- scan_array f (skip_ws r') ;; Ok (v :: vs, rest)
      | None, None => Raise JSONDecodeError
      end
  end
with scan_object (fuel : nat) (s : string) (acc : dict) {struct fuel}
  : result (dict * string) :=
  match fuel with
  | O => Raise RecursionError
  | S f =>
      match s with
      | String q r =>
          if (byte_of q =? 34)%N then
            '(k, r1) <- scanstring (String.length r) r ;;
            match after ":" (skip_ws r1) with
            | Some r2 =>
                '(v, r3) <- scan_once f (skip_ws r2) ;;
                let acc' := dict_set acc k v in
                match after "}" (skip_ws r3), after "," (skip_ws r3) with
                | Some r4, _ => Ok (acc', r4)
                | None, Some r4 => scan_object f (skip_ws r4) acc'
                | None, None => Raise JSONDecodeError
                end
            | None => Raise JSONDecodeError
            end
          else Raise JSONDecodeError
      | EmptyString => Raise JSONDecodeError
      end
  end.

(** [JSONDecoder.decode]: one value between optional whitespace. *)
Definition json_decode (s : string) : result pyval :=
  '(v, rest) <- scan_once (2 * String.length s + 2) (skip_ws s) ;;
  match skip_ws rest with
  | EmptyString => Ok v
  | String _ _ => Raise JSONDecodeError
  end.

(** [json.loads(text)]: text only, and no leading byte-order mark. *)
Definition json_loads (text : pyval) : result pyval :=
  match text with
  | VStr s =>
      if prefixb (utf8 65279) s then Raise JSONDecodeError else json_decode s
  | _ => Raise TypeError
  end.

End Json.

(** ** Normalizer *)

Section Normalizer.

Context {PF : PyFloat} {PL : PyLibs}.

(** [isinstance(val, float) and np.isnan(val)] *)
Definition is_nan_float (val : pyval) : bool :=
  match val with VFloat f => float_isnan f | _ => false end.

Definition _parse_date (val : pyval) : pyval :=
  if is_none val || is_nan_float val then VNone
  else
    match val with
    | VDate d => VDate d
    | VDatetime d _ => VDate d
    | VStr s0 =>
        let s := strip s0 in
        if str_empty s then VNone
        else try_except (pd_to_datetime_date s) VNone
    | _ => VNone
    end.

Definition _parse_time (clk : clock) (val : pyval) : pytime :=
  if is_none val || is_nan_float val then now_time clk
  else
  match val with
  | VTime t => t
  | VDatetime _ t => t
  | VStr s0 =>
      let s := strip s0 in
      if str_empty s then now_time clk
      else
        try_except
          (let parts := split ":" s in
           hh <- int_of_str (nth 0 parts "") ;;
           mm <- (if (1 <? length parts)%nat
                  then int_of_str (nth 1 parts "") else Ok 0) ;;
           ss <- (if (2 <? length parts)%nat
                  then int_of_str (nth 2 parts "") else Ok 0) ;;
           dt_time hh mm ss)
          (now_time clk)
  | _ => now_time clk
  end.

Definition _safe_json_loads (text : pyval) (default : pyval) : pyval :=
  match text with
  | VNone => default
  | VList _ | VDict _ => text
  | VStr s =>
      if blank s then default else try_except (json_loads text) default
  | _ => try_except (json_loads text) default
  end.

Definition text_fields : list string :=
  [ "equipamento"; "secao"; "numero_ordem"; "numero_bda"; "turno";
    "time_bda"; "dono_bda"; "categoria_evento"; "componentes";
    "principio_funcionamento"; "aconteceu_onde"; "aconteceu_antes";
    "descricao_reparo"; "modo_falha"; "plano_sap"; "descricao_plano";
    "ultimo_executante"; "status_plano"; "existe_plano"; "caminho_imagem";
    "criado_por"; "atualizado_por"; "atualizado_em" ].

(** [for k in ks: if d.get(k) is None: d[k] = ""] *)
Fixpoint fill_text (ks : list string) (d : dict) : dict :=
  match ks with
  | [] => d
  | k :: r =>
      fill_text r (if is_none (dict_get d k) then dict_set d k (VStr "") else d)
  end.

(** [v == s] for a text constant [s] *)
Definition eq_str (v : pyval) (s : string) : bool :=
  match v with VStr t => String.eqb t s | _ => false end.

(** [v = n] in SQL for a stored value [v] and an integer [n] *)
Definition eq_int (v : pyval) (n : Z) : bool :=
  match v with VInt z => z =? n | _ => false end.

(** One assignment of the form [d[k] = F(d.get(k))]. *)
Definition assign (d : dict) (k : string) (F : pyval -> pyval) : dict :=
  dict_set d k (F (dict_get d k)).

Definition normalizar_dados_bda (clk : clock) (dados : dict) : dict :=
  match dados with
  | [] => []
  | _ :: _ =>
      let d := dados in
      let d := assign d "data_quebra"
                 (fun v => py_or (_parse_date v) (VDate (today clk))) in
      let d := assign d "hora_quebra" (fun v => VTime (_parse_time clk v)) in
      let d := assign d "ultima_realizacao" _parse_date in
      let d := assign d "tempo_reparo_h"
                 (fun v =>
                    VFloat
                      (try_except (py_float (py_or v (VFloat float_zero)))
                         float_zero)) in
      let d := assign d "periodicidade_dias"
                 (fun v => VInt (try_except (py_int (py_or v (VInt 0))) 0)) in
      let d := assign d "cinco_porques_grid"
                 (fun v => _safe_json_loads v (VList [])) in
      let d := assign d "acoes_lista"
                 (fun v => _safe_json_loads v (VList [])) in
      let d := assign d "causas_linhas"
                 (fun v => _safe_json_loads v (VList [])) in
      let d := fill_text text_fields d in
      if eq_str (dict_get d "existe_plano") "Sim"
         || eq_str (dict_get d "existe_plano") "Não"
      then d
      else dict_set d "existe_plano"
             (VStr (if truthy (dict_get d "plano_sap") then "Sim" else "Não"))
  end.

End Normalizer.

(** ** Validator *)

Section Validator.

Context {PF : PyFloat} {PL : PyLibs}.

(** [labels.get(k, k)] *)
Fixpoint label_of (labels : list (string * string)) (k : string) : string :=
  match labels with
  | [] => k
  | (k', l) :: r => if String.eqb k' k then l else label_of r k
  end.

Definition all_filled (values : dict) (labels : list (string * string))
  : list string :=
  flat_map
    (fun kv : string * pyval =>
       let '(k, v) := kv in
       if is_none v then ["Preencha o campo: " ++ label_of labels k]
       else
         match v with
         | VStr t =>
             if blank t then ["Preencha o campo: " ++ label_of labels k]
             else []
         | _ => []
         end)
    values.

(** [str(payload.get(k)) if payload.get(k) else None] *)
Definition str_if (payload : dict) (k : string) : pyval :=
  if truthy (dict_get payload k) then VStr (py_str (dict_get payload k))
  else VNone.

Definition obrig_evento_vals (payload : dict) : dict :=
  [ ("equipamento", dict_get payload "equipamento");
    ("secao", dict_get payload "secao");
    ("data_quebra", str_if payload "data_quebra");
    ("hora_quebra", str_if payload "hora_quebra");
    ("tempo_reparo_h", VStr (py_str (dict_get payload "tempo_reparo_h")));
    ("numero_ordem", dict_get payload "numero_ordem");
    ("numero_bda", dict_get payload "numero_bda");
    ("turno", if truthy (dict_get payload "turno")
              then dict_get payload "turno" else VNone);
    ("time_bda", dict_get payload "time_bda");
    ("dono_bda", dict_get payload "dono_bda");
    ("categoria_evento", dict_get payload "categoria_evento");
    ("componentes", dict_get payload "componentes");
    ("principio_funcionamento", dict_get payload "principio_funcionamento");
    ("aconteceu_onde", dict_get payload "aconteceu_onde");
    ("aconteceu_antes", dict_get payload "aconteceu_antes");
    ("descricao_reparo", dict_get payload "descricao_reparo");
    ("modo_falha", dict_get payload "modo_falha") ].

Definition labels : list (string * string) :=
  [ ("equipamento", "Equipamento");
    ("secao", "Seção/Local");
    ("data_quebra", "Data da quebra");
    ("hora_quebra", "Hora da quebra");
    ("tempo_reparo_h", "Tempo de reparo (h)");
    ("numero_ordem", "Nº Ordem");
    ("numero_bda", "Nº BDA");
    ("turno", "Turno");
    ("time_bda", "Time da BDA");
    ("dono_bda", "Dono da BDA");
    ("categoria_evento", "Categoria");
    ("componentes", "Componentes");
    ("principio_funcionamento", "Princípio de funcionamento");
    ("aconteceu_onde", "O que aconteceu e onde");
    ("aconteceu_antes", "O que aconteceu antes");
    ("descricao_reparo", "Descrição do reparo");
    ("modo_falha", "Modo da falha") ].

Definition plan_vals (payload : dict) : dict :=
  [ ("plano_sap", dict_get payload "plano_sap");
    ("descricao_plano", dict_get payload "descricao_plano");
    ("ultimo_executante", dict_get payload "ultimo_executante");
    ("periodicidade_dias",
      VStr (py_str (dict_get payload "periodicidade_dias")));
    ("ultima_realizacao", str_if payload "ultima_realizacao");
    ("status_plano", dict_get payload "status_plano") ].

Definition plan_labels : list (string * string) :=
  [ ("plano_sap", "Plano SAP");
    ("descricao_plano", "Descrição do plano");
    ("ultimo_executante", "Último executante");
    ("periodicidade_dias", "Periodicidade (dias)");
    ("ultima_realizacao", "Última realização");
    ("status_plano", "Status do plano") ].

(** A loop whose body may raise. *)
Fixpoint for_each {S A : Type} (l : list A) (body : S -> A -> result S)
  (s : S) : result S :=
  match l with
  | [] => Ok s
  | x :: r => s' <- body s x ;; for_each r body s'
  end.

(** [f"pq{j}"] *)
Definition pq (j : Z) : string := "pq" ++ str_of_Z j.

(** State of the inner loop: [seq_ok], [filled_count], [last_idx]. *)
Record row_scan : Type :=
  mkscan { seq_ok : bool; filled_count : Z; last_idx : Z }.

(** Body of [for j in range(1, 6)]. *)
Definition scan_pos (row : pyval) (st : row_scan) (j : Z) : result row_scan :=
  val <- py_get (py_or row (VDict [])) (pq j) ;;
  prev <- (if 1 <? j then py_get (py_or row (VDict [])) (pq (j - 1))
           else Ok VNone) ;;
  let st :=
    if truthy val && (1 <? j) && negb (truthy prev)
    then mkscan false (filled_count st) (last_idx st)
    else st in
  Ok (if truthy val then mkscan (seq_ok st) (filled_count st + 1) j else st).

Definition scan_row (row : pyval) : result row_scan :=
  for_each [1; 2; 3; 4; 5] (scan_pos row) (mkscan true 0 0).

(** [l[i] = x] for an index known to be in range. *)
Fixpoint list_set {A : Type} (l : list A) (i : nat) (x : A) : list A :=
  match l, i with
  | [], _ => []
  | _ :: r, O => x :: r
  | y :: r, S i' => y :: list_set r i' x
  end.

(** [v[k] = x]: only a dict takes a text key. *)
Definition py_setitem (v : pyval) (k : string) (x : pyval) : result pyval :=
  match v with
  | VDict kvs => Ok (VDict (dict_set kvs k x))
  | _ => Raise TypeError
  end.

(** State of the loop over the rows: [erros], [linhas_validas],
    [causas_linhas] (mutated in place by the source). *)
Record whys_state : Type :=
  mkwhys { w_erros : list string; linhas_validas : Z;
           w_causas : list pyval }.

Definition msg_seq (i : nat) : string :=
  "Linha " ++ str_of_N (N.of_nat i)
  ++ ": preencha os porquês em sequência (não pule etapas).".

Definition msg_causa (i : nat) : string :=
  "Linha " ++ str_of_N (N.of_nat i)
  ++ ": preencha a Causa vinculada ao último Por quê preenchido.".

Definition msg_whys : string :=
  "Preencha pelo menos uma linha com no mínimo 4 Por quês.".

Definition msg_acoes : string :=
  "Inclua pelo menos uma ação (descrição e responsável).".

(** Body of [for i, row in enumerate(whys_grid, start=1)]; [irow] is
    [(i, row)]. *)
Definition check_row (st : whys_state) (irow : nat * pyval)
  : result whys_state :=
  let '(i, row) := irow in
  sc <- scan_row row ;;
  let erros :=
    if seq_ok sc then w_erros st else (w_erros st ++ [msg_seq i])%list in
  let validas :=
    if 4 <=? filled_count sc then linhas_validas st + 1
    else linhas_validas st in
  let in_range := (i - 1 <? length (w_causas st))%nat in
  let causa_info :=
    if in_range then nth (i - 1) (w_causas st) VNone else VDict [] in
  missing <- (if 0 <? filled_count sc then
                c <- py_get (py_or causa_info (VDict [])) "causa" ;;
                Ok (negb (truthy c))
              else Ok false) ;;
  if missing then Ok (mkwhys (erros ++ [msg_causa i])%list validas (w_causas st))
  else if in_range then
    c' <- py_setitem (nth (i - 1) (w_causas st) VNone) "ultimo_por_que"
            (VInt (last_idx sc)) ;;
    Ok (mkwhys erros validas (list_set (w_causas st) (i - 1) c'))
  else Ok (mkwhys erros validas (w_causas st)).

(** [enumerate(l, start=1)] *)
Definition enumerate1 {A : Type} (l : list A) : list (nat * A) :=
  combine (seq 1 (length l)) l.

(** [a.get("descricao") and a.get("responsavel")] as a condition *)
Definition acao_valida (a : pyval) : result bool :=
  d <- py_get a "descricao" ;;
  if truthy d then r <- py_get a "responsavel" ;; Ok (truthy r)
  else Ok false.

(** [[a for a in l if cond(a)]] *)
Fixpoint filter_m {A : Type} (cond : A -> result bool) (l : list A)
  : result (list A) :=
  match l with
  | [] => Ok []
  | x :: r =>
      b <- cond x ;; r' <- filter_m cond r ;;
      Ok (if b then x :: r' else r')
  end.

(** [any(cond(a) for a in l)]: stops at the first hit. *)
Fixpoint any_m {A : Type} (cond : A -> result bool) (l : list A)
  : result bool :=
  match l with
  | [] => Ok false
  | x :: r => b <- cond x ;; if b then Ok true else any_m cond r
  end.

(** [v.lower()]: only text has [lower]. *)
Definition py_lower (v : pyval) : result string :=
  match v with
  | VStr s => Ok (str_lower s)
  | _ => Raise AttributeError
  end.

Definition auto_desc : string :=
  "Implementar de padrão/criar plano de manutenção para o conjunto afetado".

(** [auto_desc.lower() in a.get("descricao", "").lower()] *)
Definition tem_auto (a : pyval) : result bool :=
  d <- py_get_default a "descricao" (VStr "") ;;
  l <- py_lower d ;;
  Ok (contains (str_lower auto_desc) l).

Definition acao_auto (prazo : pydate) : pyval :=
  VDict [ ("descricao", VStr auto_desc);
          ("categoria", VStr "Implementação de padrão");
          ("responsavel", VStr "Definir");
          ("prazo", VStr (str_of_date prazo)) ].

(** [validar_payload]: the list of errors, and [causas_linhas] and
    [acoes_lista] as the call leaves them. *)
Definition validar_payload (clk : clock) (payload : dict)
  (whys_grid causas_linhas acoes_lista : list pyval)
  : result (list string * list pyval * list pyval) :=
  let erros := all_filled (obrig_evento_vals payload) labels in
  let existe_plano := dict_get payload "existe_plano" in
  let erros :=
    if eq_str existe_plano "Sim"
    then (erros ++ all_filled (plan_vals payload) plan_labels)%list
    else erros in
  st <- for_each (enumerate1 whys_grid) check_row
          (mkwhys erros 0 causas_linhas) ;;
  let erros :=
    if linhas_validas st <? 1 then (w_erros st ++ [msg_whys])%list
    else w_erros st in
  acoes_validas <- filter_m acao_valida acoes_lista ;;
  '(acoes_lista, acoes_validas) <-
    (if eq_str existe_plano "Não" then
       ja_tem_auto <- any_m tem_auto acoes_lista ;;
       acoes_lista <-
         (if ja_tem_auto then Ok acoes_lista
          else
            prazo <- date_add_days (today clk) 30 ;;
            Ok (acoes_lista ++ [acao_auto prazo])%list) ;;
       acoes_validas <- filter_m acao_valida acoes_lista ;;
       Ok (acoes_lista, acoes_validas)
     else Ok (acoes_lista, acoes_validas)) ;;
  let erros :=
    if (length acoes_validas <? 1)%nat then (erros ++ [msg_acoes])%list
    else erros in
  Ok (erros, w_causas st, acoes_lista).

End Validator.

(** ** Schema store *)

Section Storage.

Context {PF : PyFloat} {PL : PyLibs}.

(** The table [bda]: its columns in declaration order, its rows (a row maps
    a column to the stored value; a column the row does not mention reads as
    NULL, which is how a column added by [ALTER TABLE] reads in an older row)
    and the counter behind [AUTOINCREMENT]. Stored values are the bound ones;
    column affinity is not modelled. *)
Record table : Type :=
  mktable { tbl_columns : list string; tbl_rows : list dict; tbl_seq : Z }.

(** The columns of [CREATE TABLE IF NOT EXISTS bda (...)]. *)
Definition base_columns : list string :=
  [ "id"; "equipamento"; "secao"; "data_quebra"; "hora_quebra";
    "tempo_reparo_h"; "numero_ordem"; "numero_bda"; "turno"; "centro_custo";
    "aconteceu_onde"; "aconteceu_antes"; "descricao_reparo"; "modo_falha";
    "acoes_corretivas"; "responsavel_corretiva"; "quando_corretiva";
    "plano_sap"; "descricao_plano"; "responsavel_plano"; "periodicidade_dias";
    "ultima_realizacao"; "caminho_imagem"; "criticidade"; "categoria";
    "classificacao"; "causa_raiz"; "cinco_porques"; "componentes";
    "custo_pecas"; "custo_mo"; "created_at"; "time_bda"; "dono_bda";
    "categoria_evento"; "cinco_porques_grid"; "acoes_lista";
    "ultimo_executante"; "status_plano"; "existe_plano";
    "principio_funcionamento"; "causas_linhas" ].

(** [new_cols], in the order of [new_cols.items()]. *)
Definition new_cols : list (string * string) :=
  [ ("time_bda", "TEXT"); ("dono_bda", "TEXT"); ("categoria_evento", "TEXT");
    ("cinco_porques_grid", "TEXT"); ("acoes_lista", "TEXT");
    ("ultimo_executante", "TEXT"); ("status_plano", "TEXT");
    ("existe_plano", "TEXT"); ("principio_funcionamento", "TEXT");
    ("causas_linhas", "TEXT"); ("criado_por", "TEXT");
    ("atualizado_por", "TEXT"); ("atualizado_em", "TIMESTAMP") ].

Definition mem (x : string) (l : list string) : bool :=
  existsb (String.eqb x) l.

(** [ALTER TABLE bda ADD COLUMN col typ]; [refuses col] says that the storage
    engine fails this statement. *)
Definition add_column (refuses : string -> bool) (t : table) (col : string)
  : result table :=
  if refuses col then Raise OperationalError
  else Ok (mktable (tbl_columns t ++ [col])%list (tbl_rows t) (tbl_seq t)).

(** The migration loop. It returns the table as the loop leaves it, the
    columns whose [ALTER TABLE] was issued, and the exception that ended the
    loop, if any: the source has no handler around [cur.execute]. *)
Fixpoint migrate (refuses : string -> bool) (existing : list string)
  (cols : list (string * string)) (t : table) (tried : list string)
  : table * list string * option exn :=
  match cols with
  | [] => (t, tried, None)
  | (col, typ) :: r =>
      if negb (mem col existing) then
        match add_column refuses t col with
        | Ok t' => migrate refuses existing r t' (tried ++ [col])%list
        | Raise e => (t, (tried ++ [col])%list, Some e)
        end
      else migrate refuses existing r t tried
  end.

(** [ensure_schema()] on a database where the table may not exist yet. *)
Definition ensure_schema (refuses : string -> bool) (db : option table)
  : table * list string * option exn :=
  let t :=
    match db with
    | Some t => t
    | None => mktable base_columns [] 0
    end in
  let existing := tbl_columns t in
  migrate refuses existing new_cols t [].

(** ** Persistence / audit writer *)

Definition DB_COLUMNS : list string :=
  [ "equipamento"; "secao"; "data_quebra"; "hora_quebra"; "tempo_reparo_h";
    "numero_ordem"; "numero_bda"; "turno"; "centro_custo"; "aconteceu_onde";
    "aconteceu_antes"; "descricao_reparo"; "modo_falha"; "acoes_corretivas";
    "responsavel_corretiva"; "quando_corretiva"; "plano_sap";
    "descricao_plano"; "responsavel_plano"; "periodicidade_dias";
    "ultima_realizacao"; "caminho_imagem"; "criticidade"; "categoria";
    "classificacao"; "causa_raiz"; "cinco_porques"; "componentes";
    "custo_pecas"; "custo_mo"; "time_bda"; "dono_bda"; "categoria_evento";
    "cinco_porques_grid"; "acoes_lista"; "ultimo_executante"; "status_plano";
    "existe_plano"; "principio_funcionamento"; "causas_linhas"; "criado_por";
    "atualizado_por"; "atualizado_em" ].

(** [json.dumps(payload.get(k1) or payload.get(k2) or [], ensure_ascii=False)] *)
Definition nested_of (payload : dict) (k1 k2 : string) : pyval :=
  py_or (py_or (dict_get payload k1) (dict_get payload k2)) (VList []).

(** [datetime.now().isoformat(sep=" ", timespec="seconds")] *)
Definition now_ts (clk : clock) : string :=
  str_of_date (now_date clk) ++ " " ++ str_of_time_seconds (now_time clk).

Definition _montar_db_payload (clk : clock) (payload : dict)
  (caminho_imagem : pyval) (user_tag : string) (is_update : bool)
  : result dict :=
  tempo <- py_float (py_or (dict_get payload "tempo_reparo_h")
                       (VFloat float_zero)) ;;
  periodicidade <- py_int (py_or (dict_get payload "periodicidade_dias")
                             (VInt 0)) ;;
  whys <- json_dumps (nested_of payload "_whys_grid" "cinco_porques_grid") ;;
  acoes <- json_dumps (nested_of payload "_acoes_lista" "acoes_lista") ;;
  causas <- json_dumps (nested_of payload "_causas_linhas" "causas_linhas") ;;
  let db_payload : dict :=
    [ ("equipamento", dict_get payload "equipamento");
      ("secao", dict_get payload "secao");
      ("data_quebra", str_if payload "data_quebra");
      ("hora_quebra", str_if payload "hora_quebra");
      ("tempo_reparo_h", VFloat tempo);
      ("numero_ordem", dict_get payload "numero_ordem");
      ("numero_bda", dict_get payload "numero_bda");
      ("turno", dict_get payload "turno");
      ("centro_custo", VNone);
      ("aconteceu_onde", dict_get payload "aconteceu_onde");
      ("aconteceu_antes", dict_get payload "aconteceu_antes");
      ("descricao_reparo", dict_get payload "descricao_reparo");
      ("modo_falha", dict_get payload "modo_falha");
      ("acoes_corretivas", VNone);
      ("responsavel_corretiva", VNone);
      ("quando_corretiva", VNone);
      ("plano_sap", dict_get payload "plano_sap");
      ("descricao_plano", dict_get payload "descricao_plano");
      ("responsavel_plano", VNone);
      ("periodicidade_dias", VInt periodicidade);
      ("ultima_realizacao", str_if payload "ultima_realizacao");
      ("caminho_imagem", caminho_imagem);
      ("criticidade", VNone);
      ("categoria", VNone);
      ("classificacao", VNone);
      ("causa_raiz", VNone);
      ("cinco_porques", VNone);
      ("componentes", dict_get payload "componentes");
      ("custo_pecas", VNone);
      ("custo_mo", VNone);
      ("time_bda", dict_get payload "time_bda");
      ("dono_bda", dict_get payload "dono_bda");
      ("categoria_evento", dict_get payload "categoria_evento");
      ("cinco_porques_grid", VStr whys);
      ("acoes_lista", VStr acoes);
      ("ultimo_executante", dict_get payload "ultimo_executante");
      ("status_plano", dict_get payload "status_plano");
      ("existe_plano", dict_get payload "existe_plano");
      ("principio_funcionamento", dict_get payload "principio_funcionamento");
      ("causas_linhas", VStr causas);
      ("criado_por", if is_update then VNone else VStr user_tag);
      ("atualizado_por", if is_update then VStr user_tag else VNone);
      ("atualizado_em", if is_update then VStr (now_ts clk) else VNone) ] in
  Ok (map (fun k => (k, dict_get db_payload k)) DB_COLUMNS).

(** Binding a Python value as an SQL parameter: NULL, INTEGER (64-bit), REAL
    (a NaN is stored as NULL) and TEXT as they are, a bool as its integer, a
    date or datetime through the default adapters; nothing else can be
    bound. *)
Definition sql_adapt (v : pyval) : result pyval :=
  match v with
  | VNone => Ok VNone
  | VBool b => Ok (VInt (if b then 1 else 0))
  | VInt z =>
      if (- 2 ^ 63 <=? z) && (z <? 2 ^ 63) then Ok (VInt z)
      else Raise OverflowError
  | VFloat f => Ok (if float_isnan f then VNone else VFloat f)
  | VStr s => Ok (VStr s)
  | VDate d => Ok (VStr (str_of_date d))
  | VDatetime d t => Ok (VStr (str_of_datetime d t))
  | VTime _ | VList _ | VDict _ | VUpload _ => Raise InterfaceError
  end.

(** The bound values of a statement's named parameters; every named column
    must exist in the table. *)
Fixpoint bind_params (t : table) (params : dict) : result dict :=
  match params with
  | [] => Ok []
  | (k, v) :: r =>
      if mem k (tbl_columns t) then
        v' <- sql_adapt v ;; r' <- bind_params t r ;; Ok ((k, v') :: r')
      else Raise OperationalError
  end.

(** [d1.update(d2)] *)
Definition dict_update (d1 d2 : dict) : dict :=
  fold_left (fun d (kv : string * pyval) => dict_set d (fst kv) (snd kv)) d2 d1.

Definition row_id (r : dict) : pyval := dict_get r "id".

(** [INSERT INTO bda (cols) VALUES (:cols)]: a fresh [id], [created_at] from
    the column default [CURRENT_TIMESTAMP] (the engine's clock, not
    [datetime.now()]), the other unnamed columns NULL. *)
Definition sql_insert (clk : clock) (t : table) (params : dict)
  : result table :=
  bound <- bind_params t params ;;
  let id := tbl_seq t + 1 in
  let row := dict_update
               [("id", VInt id); ("created_at", VStr (current_timestamp clk))]
               bound in
  Ok (mktable (tbl_columns t) (tbl_rows t ++ [row])%list id).

(** [UPDATE bda SET k = :k, ... WHERE id = :id] *)
Definition sql_update (t : table) (params : dict) (id : Z) : result table :=
  bound <- bind_params t params ;;
  Ok (mktable (tbl_columns t)
        (map (fun r => if eq_int (row_id r) id then dict_update r bound else r)
           (tbl_rows t))
        (tbl_seq t)).

(** [SELECT * FROM bda WHERE id = ?], first row, as a dict. *)
Definition select_by_id (t : table) (id : Z) : option dict :=
  match filter (fun r => eq_int (row_id r) id) (tbl_rows t) with
  | [] => None
  | r :: _ => Some (map (fun c => (c, dict_get r c)) (tbl_columns t))
  end.

(** [salvar_imagem(upload)] *)
Definition salvar_imagem_py (upload : pyval) : result pyval :=
  match upload with
  | VNone => Ok VNone
  | VUpload n => p <- salvar_imagem n ;; Ok (VStr p)
  | _ => Raise AttributeError
  end.

Definition inserir_bda (clk : clock) (t : table) (payload : dict)
  (user_tag : string) : result table :=
  let imagem_upload := dict_get payload "_imagem_upload" in
  img_path <- (if negb (is_none imagem_upload)
               then salvar_imagem_py imagem_upload else Ok VNone) ;;
  db_payload <- _montar_db_payload clk payload img_path user_tag false ;;
  sql_insert clk t db_payload.

Definition atualizar_bda (clk : clock) (t : table) (bda_id : Z)
  (payload : dict) (user_tag : string) (caminho_imagem_atual : pyval)
  : result table :=
  let imagem_upload := dict_get payload "_imagem_upload" in
  img_path <- (if is_none imagem_upload then Ok caminho_imagem_atual
               else salvar_imagem_py imagem_upload) ;;
  db_payload <- _montar_db_payload clk payload img_path user_tag true ;;
  sql_update t db_payload bda_id.

End Storage.

(** ** A reference instance of the parameters

    Used where a statement is evaluated on a concrete input: floats as finite
    decimals [m / 10^scale] (plus nan and the infinities), the date parser
    reading ISO [YYYY-MM-DD], [lower] on ASCII letters, the engine's clock
    three hours ahead of the local one. *)

Inductive dfloat : Type :=
| DNan
| DInf (neg : bool)
| DFin (m : Z) (scale : nat).

Definition dfloat_of_str (s : string) : result dfloat :=
  let t := strip s in
  if String.eqb t "nan" then Ok DNan
  else if String.eqb t "inf" || String.eqb t "+inf" then Ok (DInf false)
  else if String.eqb t "-inf" then Ok (DInf true)
  else
    let '(neg, u) :=
      match after "-" t, after "+" t with
      | Some r, _ => (true, r)
      | None, Some r => (false, r)
      | None, None => (false, t)
      end in
    let '(ip, r1) := span_digits u in
    let '(fp, r2) :=
      match after "." r1 with
      | Some r => span_digits r
      | None => ("", r1)
      end in
    let ex : option Z :=
      match after "e" r2, after "E" r2 with
      | None, None => if str_empty r2 then Some 0 else None
      | Some r, _ | None, Some r =>
          match int_of_str r with
          | Ok z => if blank r || negb (String.eqb (strip r) r) then None
                    else Some z
          | Raise _ => None
          end
      end in
    match ex, digits_value (ip ++ fp) 0 false with
    | Some e, Some v =>
        let m := if neg then - v else v in
        let k := Z.of_nat (String.length fp) - e in
        Ok (if k <? 0 then DFin (m * 10 ^ (- k)) 0 else DFin m (Z.to_nat k))
    | _, _ => Raise ValueError
    end.

Definition dfloat_to_Z (x : dfloat) : result Z :=
  match x with
  | DNan => Raise ValueError
  | DInf _ => Raise OverflowError
  | DFin m k => Ok (Z.quot m (10 ^ Z.of_nat k))
  end.

Definition dfloat_str (x : dfloat) : string :=
  match x with
  | DNan => "nan"
  | DInf neg => if neg then "-inf" else "inf"
  | DFin m k =>
      let q := Z.quot (Z.abs m) (10 ^ Z.of_nat k) in
      let r := Z.rem (Z.abs m) (10 ^ Z.of_nat k) in
      (if m <? 0 then "-" else "") ++ str_of_Z q ++ "."
      ++ (if (k =? 0)%nat then "0" else pad k r)
  end.

#[export] Instance ref_float : PyFloat := {
  float := dfloat;
  float_zero := DFin 0 0;
  float_bool := fun x => match x with DFin 0 _ => false | _ => true end;
  float_isnan := fun x => match x with DNan => true | _ => false end;
  float_of_Z := fun z => Ok (DFin z 0);
  float_of_str := dfloat_of_str;
  float_to_Z := dfloat_to_Z;
  float_str := dfloat_str;
  float_json := fun x =>
    match x with
    | DNan => "NaN"
    | DInf neg => if neg then "-Infinity" else "Infinity"
    | _ => dfloat_str x
    end
}.

(** ISO [YYYY-MM-DD], month 1..12 and day within the month. *)
Definition iso_date (s : string) : result pyval :=
  match split "-" s with
  | [y; m; d] =>
      if (String.length y =? 4)%nat && (String.length m =? 2)%nat
         && (String.length d =? 2)%nat
      then
        match digits_value y 0 false, digits_value m 0 false,
              digits_value d 0 false with
        | Some yy, Some mm, Some dd =>
            if (1 <=? yy) && (1 <=? mm) && (mm <=? 12) && (1 <=? dd)
               && (dd <=? days_in_month yy mm)
            then Ok (VDate (mkdate yy mm dd))
            else Raise ValueError
        | _, _, _ => Raise ValueError
        end
      else Raise ValueError
  | _ => Raise ValueError
  end.

Definition ascii_lower (c : ascii) : ascii :=
  let n := byte_of c in
  if ((65 <=? n) && (n <=? 90))%N then ascii_of_N (n + 32) else c.

Fixpoint lower_ascii (s : string) : string :=
  match s with
  | EmptyString => ""
  | String c r => String (ascii_lower c) (lower_ascii r)
  end.

(** The engine's clock on a machine whose local time is three hours behind
    UTC. *)
Definition utc_ts (clk : clock) : string :=
  let t := now_time clk in
  let h := hour t + 3 in
  let d := if h <? 24 then now_date clk else next_day (now_date clk) in
  str_of_date d ++ " "
  ++ str_of_time_seconds (mktime (h mod 24) (minute t) (second t) 0).

#[export] Instance ref_libs : @PyLibs ref_float := {
  pd_to_datetime_date := iso_date;
  str_lower := lower_ascii;
  py_repr := fun _ => "<object>";
  salvar_imagem := fun n => Ok ("uploads/bda_" ++ n);
  current_timestamp := utc_ts
}.

Definition clk0 : clock :=
  mkclock (mkdate 2024 1 15) (mkdate 2024 1 15) (mktime 8 30 0 0).

(** * Vocabulary of the statements

    Predicates and auxiliary functions the statements below are written
    with. *)

Section Vocabulary.

Context {PF : PyFloat} {PL : PyLibs}.

(** Keys of a dict. *)
Definition has_key (d : dict) (k : string) : bool :=
  existsb (fun kv : string * pyval => String.eqb (fst kv) k) d.

(** The typed fields, as the first eight assignments leave them. *)
Definition typed (clk : clock) (dados : dict) : dict :=
  assign
    (assign
       (assign
          (assign
             (assign
                (assign
                   (assign
                      (assign dados "data_quebra"
                         (fun v => py_or (_parse_date v) (VDate (today clk))))
                      "hora_quebra" (fun v => VTime (_parse_time clk v)))
                   "ultima_realizacao" _parse_date)
                "tempo_reparo_h"
                (fun v =>
                   VFloat
                     (try_except (py_float (py_or v (VFloat float_zero)))
                        float_zero)))
             "periodicidade_dias"
             (fun v => VInt (try_except (py_int (py_or v (VInt 0))) 0)))
          "cinco_porques_grid" (fun v => _safe_json_loads v (VList [])))
       "acoes_lista" (fun v => _safe_json_loads v (VList [])))
    "causas_linhas" (fun v => _safe_json_loads v (VList [])).

(** [existe_plano] as the last statement leaves it. *)
Definition with_existe_plano (d : dict) : dict :=
  if eq_str (dict_get d "existe_plano") "Sim"
     || eq_str (dict_get d "existe_plano") "Não"
  then d
  else dict_set d "existe_plano"
         (VStr (if truthy (dict_get d "plano_sap") then "Sim" else "Não")).

Definition is_date (v : pyval) : Prop := exists d, v = VDate d.

Definition date_or_none (v : pyval) : Prop := v = VNone \/ is_date v.

Definition is_container (v : pyval) : Prop :=
  (exists l, v = VList l) \/ (exists kvs, v = VDict kvs).

(** A float that is truthy, or is [0.0] itself. *)
Definition nonzero_or_zero (f : float) : Prop :=
  float_bool f = true \/ f = float_zero.

Definition is_dict (v : pyval) : bool :=
  match v with VDict _ => true | _ => false end.

(** A why-chain row the loop can read: a dict, or a falsy value (which
    [row or {}] replaces by the empty dict). *)
Definition row_ok (row : pyval) : bool := negb (truthy row) || is_dict row.

(** The dict [row or {}] of a readable row. *)
Definition row_dict (row : pyval) : dict :=
  match row with VDict kvs => kvs | _ => [] end.

(** Position [j] of a row is filled. *)
Definition filled_at (kvs : dict) (j : Z) : bool :=
  truthy (dict_get kvs (pq j)).

(** The number of filled positions of a row. *)
Definition filled (kvs : dict) : Z :=
  Z.of_nat (length (filter (filled_at kvs) [1; 2; 3; 4; 5])).

(** The inner loop on a dict, without the exceptions it cannot raise
    there. *)
Definition scan_pos_dict (kvs : dict) (st : row_scan) (j : Z) : row_scan :=
  let val := dict_get kvs (pq j) in
  let prev := if 1 <? j then dict_get kvs (pq (j - 1)) else VNone in
  let st :=
    if truthy val && (1 <? j) && negb (truthy prev)
    then mkscan false (filled_count st) (last_idx st)
    else st in
  if truthy val then mkscan (seq_ok st) (filled_count st + 1) j else st.

Definition scan_dict (kvs : dict) : row_scan :=
  fold_left (scan_pos_dict kvs) [1; 2; 3; 4; 5] (mkscan true 0 0).

(** An error about one row. *)
Definition linha_msg (e : string) : bool := prefixb "Linha " e.

(** [enumerate(l, start=i)] *)
Definition enumerate_from {A : Type} (i : nat) (l : list A)
  : list (nat * A) :=
  combine (seq i (length l)) l.

(** The rows that are deep enough. *)
Definition deep_rows (whys : list pyval) : Z :=
  Z.of_nat (length (filter (fun row => 4 <=? filled (row_dict row)) whys)).

(** An action counts: description and responsible are both filled. *)
Definition valida (a : pyval) : bool :=
  truthy (dict_get (row_dict a) "descricao")
  && truthy (dict_get (row_dict a) "responsavel").

(** An action the injection test can read: a dict whose description, when
    it has one, is text. *)
Definition acao_ok (a : pyval) : bool :=
  match a with
  | VDict kvs =>
      match dict_get_default kvs "descricao" (VStr "") with
      | VStr _ => true
      | _ => false
      end
  | _ => false
  end.

(** The description of a readable action holds the canned phrase. *)
Definition tem_auto_b (a : pyval) : bool :=
  match dict_get_default (row_dict a) "descricao" (VStr "") with
  | VStr s => contains (str_lower auto_desc) (str_lower s)
  | _ => false
  end.

(** The action list as validation leaves it. *)
Definition injected (payload : dict) (acoes : list pyval) (prazo : pydate)
  : list pyval :=
  if eq_str (dict_get payload "existe_plano") "Não"
     && negb (existsb tem_auto_b acoes)
  then (acoes ++ [acao_auto prazo])%list
  else acoes.

(** The errors of the field checks: the mandatory event fields, then the
    plan fields when the plan exists. *)
Definition erros_campos (payload : dict) : list string :=
  if eq_str (dict_get payload "existe_plano") "Sim"
  then (all_filled (obrig_evento_vals payload) labels
        ++ all_filled (plan_vals payload) plan_labels)%list
  else all_filled (obrig_evento_vals payload) labels.

(** The injection step, given the actions that counted before it. *)
Definition fase_acoes (clk : clock) (payload : dict)
  (acoes_lista acoes_validas : list pyval)
  : result (list pyval * list pyval) :=
  if eq_str (dict_get payload "existe_plano") "Não" then
    ja_tem_auto <- any_m tem_auto acoes_lista ;;
    acoes_lista <-
      (if ja_tem_auto then Ok acoes_lista
       else
         prazo <- date_add_days (today clk) 30 ;;
         Ok (acoes_lista ++ [acao_auto prazo])%list) ;;
    acoes_validas <- filter_m acao_valida acoes_lista ;;
    Ok (acoes_lista, acoes_validas)
  else Ok (acoes_lista, acoes_validas).

(** The injection happens: no plan, and no action carries the phrase. *)
Definition injects (payload : dict) (acoes : list pyval) : bool :=
  eq_str (dict_get payload "existe_plano") "Não"
  && negb (existsb tem_auto_b acoes).

(** An error of a field check. *)
Definition campo_msg (e : string) : bool := prefixb "Preencha o campo: " e.

(** What one entry of [values] contributes to [all_filled]. *)
Definition campo_erro (lbls : list (string * string)) (k : string)
  (v : pyval) : list string :=
  if is_none v then ["Preencha o campo: " ++ label_of lbls k]
  else
    match v with
    | VStr t =>
        if blank t then ["Preencha o campo: " ++ label_of lbls k] else []
    | _ => []
    end.

(** Every row has exactly [n] filled positions. *)
Definition all_filled_to (n : Z) (whys : list pyval) : bool :=
  forallb (fun row => is_dict row && (filled (row_dict row) =? n)) whys.

(** Some row has at least four filled positions. *)
Definition some_deep (whys : list pyval) : bool :=
  existsb (fun row => 4 <=? filled (row_dict row)) whys.

(** The registry columns the table lacks, in registry order. *)
Definition missing (existing : list string) (cols : list (string * string))
  : list string :=
  filter (fun c => negb (mem c existing)) (map fst cols).

(** The missing columns added before the first one the engine refuses. *)
Fixpoint added_before (refuses : string -> bool) (ms : list string)
  : list string :=
  match ms with
  | [] => []
  | c :: r => if refuses c then [] else c :: added_before refuses r
  end.

(** The missing columns whose statement is issued: up to and including the
    first one the engine refuses. *)
Fixpoint attempted (refuses : string -> bool) (ms : list string)
  : list string :=
  match ms with
  | [] => []
  | c :: r => if refuses c then [c] else c :: attempted refuses r
  end.

(** The table [ensure_schema] starts from. *)
Definition table_before (db : option table) : table :=
  match db with
  | Some t => t
  | None => mktable base_columns [] 0
  end.

(** The row [_montar_db_payload] returns, once its five conversions have
    succeeded. *)
Definition linha_db (clk : clock) (payload : dict) (caminho_imagem : pyval)
  (user_tag : string) (is_update : bool) (tempo : float) (periodicidade : Z)
  (whys acoes causas : string) : dict :=
  [ ("equipamento", dict_get payload "equipamento");
    ("secao", dict_get payload "secao");
    ("data_quebra", str_if payload "data_quebra");
    ("hora_quebra", str_if payload "hora_quebra");
    ("tempo_reparo_h", VFloat tempo);
    ("numero_ordem", dict_get payload "numero_ordem");
    ("numero_bda", dict_get payload "numero_bda");
    ("turno", dict_get payload "turno");
    ("centro_custo", VNone);
    ("aconteceu_onde", dict_get payload "aconteceu_onde");
    ("aconteceu_antes", dict_get payload "aconteceu_antes");
    ("descricao_reparo", dict_get payload "descricao_reparo");
    ("modo_falha", dict_get payload "modo_falha");
    ("acoes_corretivas", VNone);
    ("responsavel_corretiva", VNone);
    ("quando_corretiva", VNone);
    ("plano_sap", dict_get payload "plano_sap");
    ("descricao_plano", dict_get payload "descricao_plano");
    ("responsavel_plano", VNone);
    ("periodicidade_dias", VInt periodicidade);
    ("ultima_realizacao", str_if payload "ultima_realizacao");
    ("caminho_imagem", caminho_imagem);
    ("criticidade", VNone);
    ("categoria", VNone);
    ("classificacao", VNone);
    ("causa_raiz", VNone);
    ("cinco_porques", VNone);
    ("componentes", dict_get payload "componentes");
    ("custo_pecas", VNone);
    ("custo_mo", VNone);
    ("time_bda", dict_get payload "time_bda");
    ("dono_bda", dict_get payload "dono_bda");
    ("categoria_evento", dict_get payload "categoria_evento");
    ("cinco_porques_grid", VStr whys);
    ("acoes_lista", VStr acoes);
    ("ultimo_executante", dict_get payload "ultimo_executante");
    ("status_plano", dict_get payload "status_plano");
    ("existe_plano", dict_get payload "existe_plano");
    ("principio_funcionamento", dict_get payload "principio_funcionamento");
    ("causas_linhas", VStr causas);
    ("criado_por", if is_update then VNone else VStr user_tag);
    ("atualizado_por", if is_update then VStr user_tag else VNone);
    ("atualizado_em", if is_update then VStr (now_ts clk) else VNone) ].

(** The five conversions of [_montar_db_payload] that can raise. *)
Record conversions (payload : dict) (tempo : float) (per : Z)
  (ws acs cs : string) : Prop := {
  conv_tempo :
    py_float (py_or (dict_get payload "tempo_reparo_h") (VFloat float_zero))
    = Ok tempo;
  conv_periodicidade :
    py_int (py_or (dict_get payload "periodicidade_dias") (VInt 0)) = Ok per;
  conv_whys :
    json_dumps (nested_of payload "_whys_grid" "cinco_porques_grid") = Ok ws;
  conv_acoes :
    json_dumps (nested_of payload "_acoes_lista" "acoes_lista") = Ok acs;
  conv_causas :
    json_dumps (nested_of payload "_causas_linhas" "causas_linhas") = Ok cs
}.

(** [b] holds the bound values of the parameters [p], key by key. *)
Definition bound_of (p b : dict) : Prop :=
  Forall2
    (fun kv kv' : string * pyval =>
       fst kv' = fst kv /\ sql_adapt (snd kv) = Ok (snd kv'))
    p b.

(** Reading a row back: one entry per column of the table. *)
Definition read_row (t_columns : list string) (r : dict) : dict :=
  map (fun c => (c, dict_get r c)) t_columns.

(** The first row with a given id. *)
Definition find_row (rows : list dict) (id : Z) : option dict :=
  match filter (fun r => eq_int (row_id r) id) rows with
  | [] => None
  | r :: _ => Some r
  end.

(** The image reference an update stores. *)
Definition imagem_do_update (payload : dict) (caminho_imagem_atual : pyval)
  : result pyval :=
  if is_none (dict_get payload "_imagem_upload") then Ok caminho_imagem_atual
  else salvar_imagem_py (dict_get payload "_imagem_upload").

(** Values [json.dumps] can write: no date, time or upload inside. *)
Fixpoint serializable (v : pyval) : bool :=
  match v with
  | VNone | VBool _ | VInt _ | VFloat _ | VStr _ => true
  | VList l =>
      (fix each (l : list pyval) : bool :=
         match l with
         | [] => true
         | x :: r => serializable x && each r
         end) l
  | VDict kvs =>
      (fix each (l : list (string * pyval)) : bool :=
         match l with
         | [] => true
         | (_, x) :: r => serializable x && each r
         end) kvs
  | VDate _ | VTime _ | VDatetime _ _ | VUpload _ => false
  end.

(** The items of a list and of a dict, as [json_dumps] writes them. *)
Fixpoint dumps_items (l : list pyval) : result (list string) :=
  match l with
  | [] => Ok []
  | x :: r => sx <- json_dumps x ;; sr <- dumps_items r ;; Ok (sx :: sr)
  end.

Fixpoint dumps_pairs (l : list (string * pyval)) : result (list string) :=
  match l with
  | [] => Ok []
  | (k, x) :: r =>
      sx <- json_dumps x ;; sr <- dumps_pairs r ;;
      Ok ((json_quote k ++ ": " ++ sx) :: sr)
  end.

Fixpoint all_serializable (l : list pyval) : bool :=
  match l with
  | [] => true
  | x :: r => serializable x && all_serializable r
  end.

Fixpoint all_values_serializable (l : list (string * pyval)) : bool :=
  match l with
  | [] => true
  | (_, x) :: r => serializable x && all_values_serializable r
  end.

(** The fields [_montar_db_payload] copies from the payload as they are. *)
Definition copied_fields : list string :=
  [ "equipamento"; "secao"; "numero_ordem"; "numero_bda"; "turno";
    "aconteceu_onde"; "aconteceu_antes"; "descricao_reparo"; "modo_falha";
    "plano_sap"; "descricao_plano"; "componentes"; "time_bda"; "dono_bda";
    "categoria_evento"; "ultimo_executante"; "status_plano"; "existe_plano";
    "principio_funcionamento" ].

Definition text_or_null (v : pyval) : bool :=
  match v with VNone | VStr _ => true | _ => false end.

Definition float_or_null (v : pyval) : bool :=
  match v with VNone | VFloat _ => true | _ => false end.

Definition int64_or_null (v : pyval) : bool :=
  match v with
  | VNone => true
  | VInt z => (- 2 ^ 63 <=? z) && (z <? 2 ^ 63)
  | _ => false
  end.

(** A payload shaped as the form returns it: text (or nothing) in the copied
    fields, a float duration, an integer periodicity, nested lists that
    [json.dumps] can write. *)
Definition writable (payload : dict) : bool :=
  forallb (fun k => text_or_null (dict_get payload k)) copied_fields
  && float_or_null (dict_get payload "tempo_reparo_h")
  && int64_or_null (dict_get payload "periodicidade_dias")
  && serializable (nested_of payload "_whys_grid" "cinco_porques_grid")
  && serializable (nested_of payload "_acoes_lista" "acoes_lista")
  && serializable (nested_of payload "_causas_linhas" "causas_linhas").

(** The table has every column the writer names. *)
Definition migrated (t : table) : bool :=
  forallb (fun c => mem c (tbl_columns t)) DB_COLUMNS.

(** An update whose image step yields text (or nothing). *)
Definition image_ready (payload : dict) (caminho_imagem_atual : pyval)
  : bool :=
  match imagem_do_update payload caminho_imagem_atual with
  | Ok v => text_or_null v
  | Raise _ => false
  end.

(** The columns of the first schema that the form no longer fills. *)
Definition legacy_columns : list string :=
  [ "centro_custo"; "acoes_corretivas"; "responsavel_corretiva";
    "quando_corretiva"; "responsavel_plano"; "criticidade"; "categoria";
    "classificacao"; "causa_raiz"; "cinco_porques"; "custo_pecas";
    "custo_mo" ].

(** The messages [all_filled] can produce for a list of keys. *)
Definition campo_msgs (lbls : list (string * string)) (keys : list string)
  : list string :=
  map (fun k => "Preencha o campo: " ++ label_of lbls k) keys.

(** The messages of the six plan fields. *)
Definition plan_msgs : list string :=
  campo_msgs plan_labels (map fst plan_labels).

(** The four plan fields the writer copies. *)
Definition plan_text_fields : list string :=
  [ "plano_sap"; "descricao_plano"; "ultimo_executante"; "status_plano" ].

(** The image reference an insert stores. *)
Definition imagem_do_insert (payload : dict) : result pyval :=
  if negb (is_none (dict_get payload "_imagem_upload"))
  then salvar_imagem_py (dict_get payload "_imagem_upload")
  else Ok VNone.

(** The id [AUTOINCREMENT] hands out next is not in use. *)
Definition fresh_id (t : table) : bool :=
  forallb (fun r => negb (eq_int (row_id r) (tbl_seq t + 1))) (tbl_rows t).

(** An insert whose image step yields text (or nothing). *)
Definition upload_ready (payload : dict) : bool :=
  match imagem_do_insert payload with
  | Ok v => text_or_null v
  | Raise _ => false
  end.

Definition below (n : nat) : list Z := map Z.of_nat (seq 0 n).

(** A time of day on a whole second. *)
Definition whole_seconds (t : pytime) : bool :=
  (0 <=? hour t) && (hour t <? 24) && (0 <=? minute t) && (minute t <? 60)
  && (0 <=? second t) && (second t <? 60) && (microsecond t =? 0).

Definition time_reads_back (clk : clock) (t : pytime) : bool :=
  pytime_eqb (_parse_time clk (VStr (str_of_time t))) t.

Definition typed_keys : list string :=
  [ "data_quebra"; "hora_quebra"; "ultima_realizacao"; "tempo_reparo_h";
    "periodicidade_dias"; "cinco_porques_grid"; "acoes_lista";
    "causas_linhas" ].

(** The text fields of the event and of the plan. *)
Definition record_text_fields : list string :=
  [ "equipamento"; "secao"; "numero_ordem"; "numero_bda"; "turno";
    "aconteceu_onde"; "aconteceu_antes"; "descricao_reparo"; "modo_falha";
    "plano_sap"; "descricao_plano"; "componentes"; "time_bda"; "dono_bda";
    "categoria_evento"; "ultimo_executante"; "status_plano";
    "principio_funcionamento" ].

(** The scalar fields of the event and of the plan. *)
Definition record_fields : list string :=
  (record_text_fields
   ++ [ "existe_plano"; "data_quebra"; "hora_quebra"; "ultima_realizacao";
        "tempo_reparo_h"; "periodicidade_dias" ])%list.

Definition is_text (v : pyval) : bool :=
  match v with VStr _ => true | _ => false end.

(** The date parser reads [str(d)] back as [d]. *)
Definition date_reads_back (d : pydate) : Prop :=
  _parse_date (VStr (str_of_date d)) = VDate d.

(** The JSON text of [v] reads back as [v]. *)
Definition json_reads_back (v : pyval) : Prop :=
  forall s, json_dumps v = Ok s -> _safe_json_loads (VStr s) (VList []) = v.

(** A record in canonical typed form whose values the storage formats keep:
    text in the text fields, a settled plan flag, a break date and a
    last-performed date the parser reads back, a break time on a whole
    second, a duration that is a number and not a zero other than [0.0],
    an integer periodicity, nested lists that JSON reproduces. *)
Record canonical (payload : dict) : Prop := {
  can_text :
    forallb (fun k => is_text (dict_get payload k)) record_text_fields
    = true;
  can_existe_plano :
    eq_str (dict_get payload "existe_plano") "Sim"
    || eq_str (dict_get payload "existe_plano") "Não" = true;
  can_data_quebra :
    exists d, dict_get payload "data_quebra" = VDate d /\ date_reads_back d;
  can_hora_quebra :
    exists t, dict_get payload "hora_quebra" = VTime t
              /\ whole_seconds t = true;
  can_ultima_realizacao :
    dict_get payload "ultima_realizacao" = VNone
    \/ exists d, dict_get payload "ultima_realizacao" = VDate d
                 /\ date_reads_back d;
  can_tempo_reparo_h :
    exists f, dict_get payload "tempo_reparo_h" = VFloat f
              /\ float_isnan f = false /\ nonzero_or_zero f;
  can_periodicidade_dias :
    exists z, dict_get payload "periodicidade_dias" = VInt z;
  can_whys :
    json_reads_back (nested_of payload "_whys_grid" "cinco_porques_grid");
  can_acoes :
    json_reads_back (nested_of payload "_acoes_lista" "acoes_lista");
  can_causas :
    json_reads_back (nested_of payload "_causas_linhas" "causas_linhas")
}.

(** The columns of [DB_COLUMNS] that the registry does not add: they come
    from [CREATE TABLE]. *)
Definition first_schema_ready (t : table) : bool :=
  forallb (fun c => mem c (tbl_columns t) || mem c (map fst new_cols))
    DB_COLUMNS.

Definition short_time_reads_back (clk : clock) (h m : Z) : bool :=
  pytime_eqb (_parse_time clk (VStr (pad 2 h ++ ":" ++ pad 2 m)))
    (mktime h m 0 0)
  && pytime_eqb (_parse_time clk (VStr (pad 2 h))) (mktime h 0 0 0).

(** The test of [all_filled]: [None], or text that is blank. *)
Definition campo_vazio (v : pyval) : bool :=
  is_none v || match v with VStr t => blank t | _ => false end.

(** The message of a field. *)
Definition msg_campo (lbls : list (string * string)) (k : string) : string :=
  "Preencha o campo: " ++ label_of lbls k.

(** No two of [keys] share a label. *)
Definition labels_distinct (lbls : list (string * string))
  (keys : list string) : bool :=
  forallb
    (fun k1 =>
       forallb
         (fun k2 =>
            implb (String.eqb (label_of lbls k1) (label_of lbls k2))
              (String.eqb k1 k2))
         keys)
    keys.

(** The mandatory event fields, in the order of the check. *)
Definition evento_keys : list string := map fst labels.

(** The plan fields, in the order of the check. *)
Definition plano_keys : list string := map fst plan_labels.

(** The value the check of an event field looks at: the payload's own for
    thirteen fields, its text (or [None] when it is falsy) for the break date
    and the break time, [None] when it is falsy for the shift, and the text
    of [str] for the repair duration. *)
Definition valor_evento (payload : dict) (k : string) : pyval :=
  dict_get (obrig_evento_vals payload) k.

Definition valor_plano (payload : dict) (k : string) : pyval :=
  dict_get (plan_vals payload) k.

(** A filled position right after an empty one. *)
Definition gap (kvs : dict) : bool :=
  existsb (fun j => filled_at kvs j && negb (filled_at kvs (j - 1)))
    [2; 3; 4; 5].

(** The last filled position, 0 when there is none. *)
Definition last_filled (kvs : dict) : Z :=
  fold_left (fun acc j => if filled_at kvs j then j else acc)
    [1; 2; 3; 4; 5] 0.

(** A row with a filled position and no cause. *)
Definition sem_causa (kvs : dict) (info : pyval) : bool :=
  (0 <? filled kvs) && negb (truthy (dict_get (row_dict info) "causa")).

(** The messages of row [i], given its cause entry. *)
Definition row_msgs (i : nat) (row info : pyval) : list string :=
  ((if gap (row_dict row) then [msg_seq i] else [])
   ++ (if sem_causa (row_dict row) info then [msg_causa i] else []))%list.

(** The cause entry of a row as validation leaves it. *)
Definition causa_after (row c : pyval) : pyval :=
  if sem_causa (row_dict row) c then c
  else VDict (dict_set (row_dict c) "ultimo_por_que"
                (VInt (last_filled (row_dict row)))).

(** The first cause entry, the empty dict when there is none. *)
Definition first_info (rest : list pyval) : pyval :=
  match rest with c :: _ => c | [] => VDict [] end.

Fixpoint linhas_msgs (i : nat) (whys rest : list pyval) : list string :=
  match whys with
  | [] => []
  | row :: ws =>
      (row_msgs i row (first_info rest)
       ++ linhas_msgs (S i) ws (tl rest))%list
  end.

Fixpoint causas_after (whys rest : list pyval) : list pyval :=
  match whys, rest with
  | row :: ws, c :: cs => causa_after row c :: causas_after ws cs
  | _, _ => rest
  end.

(** The position of the loop in the list of causes: [done] are the
    entries of the rows before row [i]; when entries are left, row [i]'s is
    the first of them. *)
Definition at_row (i : nat) (done rest : list pyval) : Prop :=
  (length done <= i - 1)%nat /\ (rest <> [] -> length done = (i - 1)%nat).

(** No value is [None] or blank text. *)
Definition campos_ok (values : dict) : bool :=
  forallb (fun kv : string * pyval => negb (campo_vazio (snd kv))) values.

(** No row has a gap, and every row with a filled position has a cause. *)
Fixpoint linhas_ok (whys rest : list pyval) : bool :=
  match whys with
  | [] => true
  | row :: ws =>
      negb (gap (row_dict row))
      && negb (sem_causa (row_dict row) (first_info rest))
      && linhas_ok ws (tl rest)
  end.

(** The record passes every check. *)
Definition aceita (payload : dict) (whys causas acoes : list pyval)
  (prazo : pydate) : bool :=
  campos_ok (obrig_evento_vals payload)
  && (if eq_str (dict_get payload "existe_plano") "Sim"
      then campos_ok (plan_vals payload) else true)
  && linhas_ok whys causas
  && (1 <=? deep_rows whys)
  && existsb valida (injected payload acoes prazo).

(** A byte that is no whitespace and starts no multi-byte character. *)
Definition plain (c : ascii) : bool :=
  (byte_of c <? 128)%N && negb (is_space1 c).

Fixpoint all_plain (s : string) : bool :=
  match s with
  | EmptyString => true
  | String c r => plain c && all_plain r
  end.

Fixpoint uint_value (d : Decimal.uint) (acc : Z) : Z :=
  match d with
  | Decimal.Nil => acc
  | Decimal.D0 l => uint_value l (10 * acc)
  | Decimal.D1 l => uint_value l (10 * acc + 1)
  | Decimal.D2 l => uint_value l (10 * acc + 2)
  | Decimal.D3 l => uint_value l (10 * acc + 3)
  | Decimal.D4 l => uint_value l (10 * acc + 4)
  | Decimal.D5 l => uint_value l (10 * acc + 5)
  | Decimal.D6 l => uint_value l (10 * acc + 6)
  | Decimal.D7 l => uint_value l (10 * acc + 7)
  | Decimal.D8 l => uint_value l (10 * acc + 8)
  | Decimal.D9 l => uint_value l (10 * acc + 9)
  end.

Fixpoint all_digits (s : string) : bool :=
  match s with
  | EmptyString => true
  | String c r => is_digit c && all_digits r
  end.

(** The rest of a text after a number: it starts with no digit, no point
    and no exponent mark. *)
Definition after_number (r : string) : bool :=
  match r with
  | EmptyString => true
  | String c _ =>
      negb (is_digit c) && negb (Ascii.eqb c ".") && negb (Ascii.eqb c "e")
      && negb (Ascii.eqb c "E")
  end.

Definition quote : string := String (ascii_of_N 34) "".

(** No key occurs twice. *)
Fixpoint distinct (l : list string) : bool :=
  match l with
  | [] => true
  | x :: r => negb (mem x r) && distinct r
  end.

(** [None], booleans, ints, text, and lists and dicts of such values; the
    keys of a dict are distinct (as in a Python dict). *)
Fixpoint json_plain (v : pyval) : bool :=
  match v with
  | VNone | VBool _ | VInt _ | VStr _ => true
  | VList l =>
      (fix each (l : list pyval) : bool :=
         match l with
         | [] => true
         | x :: r => json_plain x && each r
         end) l
  | VDict kvs =>
      (fix each (l : list (string * pyval)) : bool :=
         match l with
         | [] => true
         | (_, x) :: r => json_plain x && each r
         end) kvs
      && distinct (map fst kvs)
  | VFloat _ | VDate _ | VTime _ | VDatetime _ _ | VUpload _ => false
  end.

Fixpoint all_json_plain (l : list pyval) : bool :=
  match l with
  | [] => true
  | x :: r => json_plain x && all_json_plain r
  end.

Fixpoint all_values_json_plain (l : list (string * pyval)) : bool :=
  match l with
  | [] => true
  | (_, x) :: r => json_plain x && all_values_json_plain r
  end.

(** Fuel the decoder needs for a value. *)
Fixpoint cost (v : pyval) : nat :=
  match v with
  | VList l =>
      S ((fix each (l : list pyval) : nat :=
            match l with
            | [] => O
            | x :: r => S (cost x + each r)
            end) l)
  | VDict kvs =>
      S ((fix each (l : list (string * pyval)) : nat :=
            match l with
            | [] => O
            | (_, x) :: r => S (cost x + each r)
            end) kvs)
  | _ => 1%nat
  end.

Fixpoint cost_items (l : list pyval) : nat :=
  match l with
  | [] => O
  | x :: r => S (cost x + cost_items r)
  end.

Fixpoint cost_pairs (l : list (string * pyval)) : nat :=
  match l with
  | [] => O
  | (_, x) :: r => S (cost x + cost_pairs r)
  end.

(** A character that can start the text of a value: no JSON whitespace and
    no closing bracket. *)
Definition opens (c : ascii) : bool :=
  plain c && negb (Ascii.eqb c "]") && negb (Ascii.eqb c "}").

(** The decoder reads the text of [v], followed by [rest], back as [v] and
    leaves [rest]. *)
Definition reads_back (v : pyval) : Prop :=
  json_plain v = true ->
  forall s fuel rest,
    json_dumps v = Ok s -> (cost v <= fuel)%nat ->
    after_number rest = true ->
    scan_once fuel (s ++ rest) = Ok (v, rest).

Definition cost_bounded (v : pyval) : Prop :=
  json_plain v = true ->
  forall s, json_dumps v = Ok s ->
            (1 <= String.length s)%nat
            /\ (cost v <= 2 * String.length s)%nat.

Definition two_digits (s : string) : bool :=
  match s with
  | String a (String b EmptyString) => is_digit a && is_digit b
  | _ => false
  end.

End Vocabulary.

(** ** Worked records

    Evaluated with the reference instance of the parameters. *)

(** The five why-chain rows of a record: the first goes four levels deep. *)
Definition whys0 : list pyval :=
  [ VDict [ ("pq1", VStr "Rolamento travou"); ("pq2", VStr "Sem graxa");
            ("pq3", VStr "Bico entupido"); ("pq4", VStr "Sem inspeção");
            ("pq5", VStr "") ];
    VDict [ ("pq1", VStr ""); ("pq2", VStr ""); ("pq3", VStr "");
            ("pq4", VStr ""); ("pq5", VStr "") ];
    VDict [ ("pq1", VStr ""); ("pq2", VStr ""); ("pq3", VStr "");
            ("pq4", VStr ""); ("pq5", VStr "") ];
    VDict [ ("pq1", VStr ""); ("pq2", VStr ""); ("pq3", VStr "");
            ("pq4", VStr ""); ("pq5", VStr "") ];
    VDict [ ("pq1", VStr ""); ("pq2", VStr ""); ("pq3", VStr "");
            ("pq4", VStr ""); ("pq5", VStr "") ] ].

(** Five rows with exactly three filled positions each. *)
Definition whys3 : list pyval :=
  repeat
    (VDict [ ("pq1", VStr "Parou"); ("pq2", VStr "Sobrecarga");
             ("pq3", VStr "Desalinhado"); ("pq4", VStr "");
             ("pq5", VStr "") ])
    5.

Definition causas0 : list pyval :=
  [ VDict [ ("linha", VInt 1); ("causa", VStr "Falta de inspeção");
            ("ultimo_por_que", VInt 4) ];
    VDict [ ("linha", VInt 2); ("causa", VStr ""); ("ultimo_por_que", VInt 0) ];
    VDict [ ("linha", VInt 3); ("causa", VStr ""); ("ultimo_por_que", VInt 0) ];
    VDict [ ("linha", VInt 4); ("causa", VStr ""); ("ultimo_por_que", VInt 0) ];
    VDict [ ("linha", VInt 5); ("causa", VStr ""); ("ultimo_por_que", VInt 0) ] ].

Definition causas3 : list pyval :=
  repeat
    (VDict [ ("linha", VInt 1); ("causa", VStr "Desalinhamento");
             ("ultimo_por_que", VInt 3) ])
    5.

Definition acoes0 : list pyval :=
  [ VDict [ ("descricao", VStr "Trocar rolamento");
            ("categoria", VStr "Corretiva"); ("responsavel", VStr "Rui");
            ("prazo", VStr "2024-02-01") ] ].

(** A record as the form returns it, with no plan and nothing uploaded. *)
Definition registro : dict :=
  [ ("equipamento", VStr "Prensa 3"); ("secao", VStr "Linha 2");
    ("data_quebra", VDate (mkdate 2024 1 10));
    ("hora_quebra", VTime (mktime 14 5 0 0));
    ("tempo_reparo_h", VFloat (DFin 15 1));
    ("numero_ordem", VStr "40012"); ("numero_bda", VStr "BDA-7");
    ("turno", VStr "2"); ("aconteceu_onde", VStr "Eixo principal");
    ("aconteceu_antes", VStr "Ruído");
    ("descricao_reparo", VStr "Troca do rolamento");
    ("modo_falha", VStr "Rolamento travado");
    ("componentes", VStr "Rolamento 6204");
    ("principio_funcionamento", VStr "Eixo apoiado em rolamentos");
    ("time_bda", VStr "Manutenção"); ("dono_bda", VStr "Rui");
    ("categoria_evento", VStr "Mecânica"); ("existe_plano", VStr "Não");
    ("plano_sap", VStr ""); ("descricao_plano", VStr "");
    ("ultimo_executante", VStr ""); ("periodicidade_dias", VInt 0);
    ("ultima_realizacao", VNone); ("status_plano", VStr "");
    ("cinco_porques_grid", VList whys0); ("causas_linhas", VList causas0);
    ("acoes_lista", VList acoes0); ("caminho_imagem", VStr "");
    ("_whys_grid", VList whys0); ("_causas_linhas", VList causas0);
    ("_acoes_lista", VList acoes0); ("_imagem_upload", VNone) ].

(** The table of a new database after [ensure_schema()]. *)
Definition tabela0 : table :=
  fst (fst (ensure_schema (fun _ => false) None)).

(** A later reading of the clock. *)
Definition clk1 : clock :=
  mkclock (mkdate 2024 1 16) (mkdate 2024 1 16) (mktime 9 0 0 0).

(** A reading of the clock between two whole seconds. *)
Definition clk_us : clock :=
  mkclock (mkdate 2024 1 15) (mkdate 2024 1 15) (mktime 8 30 0 250000).

(** The same record with the plan fields filled in although the plan flag
    says there is none. *)
Definition registro_sem_plano : dict :=
  dict_set
    (dict_set
       (dict_set
          (dict_set registro "plano_sap" (VStr "PM-77"))
          "descricao_plano" (VStr "Lubrificar mancais"))
       "periodicidade_dias" (VInt 90))
    "status_plano" (VStr "Atrasado").

(** The same record carrying the reference of an image stored earlier. *)
Definition registro_com_imagem : dict :=
  dict_set registro "caminho_imagem" (VStr "uploads/bda_1f0c.png").

(** The same record as the normalizer returns it when the raw break time
    is missing: the break time is the reading of the clock. *)
Definition registro_agora : dict :=
  normalizar_dados_bda clk_us (dict_set registro "hora_quebra" VNone).

(** A table of the first schema, with one row written by that version. *)
Definition tabela_legada : table :=
  mktable
    [ "id"; "equipamento"; "secao"; "data_quebra"; "hora_quebra";
      "tempo_reparo_h"; "numero_ordem"; "numero_bda"; "turno";
      "centro_custo"; "aconteceu_onde"; "aconteceu_antes";
      "descricao_reparo"; "modo_falha"; "acoes_corretivas";
      "responsavel_corretiva"; "quando_corretiva"; "plano_sap";
      "descricao_plano"; "responsavel_plano"; "periodicidade_dias";
      "ultima_realizacao"; "caminho_imagem"; "criticidade"; "categoria";
      "classificacao"; "causa_raiz"; "cinco_porques"; "componentes";
      "custo_pecas"; "custo_mo"; "created_at" ]
    [ [ ("id", VInt 1); ("equipamento", VStr "Prensa 3");
        ("centro_custo", VStr "CC-100"); ("criticidade", VStr "A");
        ("causa_raiz", VStr "Falta de graxa");
        ("custo_pecas", VFloat (DFin 1205 1));
        ("created_at", VStr "2022-05-02 10:00:00") ] ]
    1.

(** That table after a migration nothing refuses. *)
Definition tabela_migrada : table :=
  fst (fst (ensure_schema (fun _ => false) (Some tabela_legada))).

(** One action whose description carries the canned phrase in capitals,
    inside a longer text. *)
Definition acoes_caixa : list pyval :=
  [ VDict [ ("descricao",
             VStr "URGENTE - IMPLEMENTAR DE PADRãO/CRIAR PLANO DE MANUTENçãO PARA O CONJUNTO AFETADO (prensa 3)");
            ("categoria", VStr "Corretiva"); ("responsavel", VStr "Rui");
            ("prazo", VNone) ] ].

(** The record with the plan flag "Não" and plan values that are not what
    the form returns: a number as plan reference, text as periodicity. *)
Definition registro_livre : dict :=
  dict_set (dict_set registro_sem_plano "plano_sap" (VInt 77))
    "periodicidade_dias" (VStr "noventa").

(** The worked record with an uploaded file. *)
Definition registro_com_upload : dict :=
  dict_set registro "_imagem_upload" (VUpload "foto.png").

(** * Properties *)

(** ** Dictionaries *)

Section DictFacts.

Context {PF : PyFloat}.

Lemma dict_get_default_set (d : dict) (k k' : string) (v x : pyval) :
  dict_get_default (dict_set d k v) k' x
  = if String.eqb k k' then v else dict_get_default d k' x.
Proof.
  induction d as [|[k0 v0] r IH]; simpl.
  - destruct (String.eqb k k'); reflexivity.
  - destruct (String.eqb k0 k) eqn:E0; simpl.
    + apply String.eqb_eq in E0. subst k0.
      destruct (String.eqb k k'); reflexivity.
    + destruct (String.eqb k0 k') eqn:E1.
      * apply String.eqb_eq in E1. subst k0.
        rewrite String.eqb_sym, E0. reflexivity.
      * exact IH.
Qed.

Lemma dict_get_set (d : dict) (k k' : string) (v : pyval) :
  dict_get (dict_set d k v) k' = if String.eqb k k' then v else dict_get d k'.
Proof. apply dict_get_default_set. Qed.

Lemma has_key_set (d : dict) (k k' : string) (v : pyval) :
  has_key (dict_set d k v) k' = String.eqb k k' || has_key d k'.
Proof.
  induction d as [|[k0 v0] r IH]; simpl.
  - rewrite orb_false_r. reflexivity.
  - destruct (String.eqb k0 k) eqn:E0; simpl.
    + apply String.eqb_eq in E0. subst k0.
      destruct (String.eqb k k'); reflexivity.
    + rewrite IH. destruct (String.eqb k0 k'), (String.eqb k k'); reflexivity.
Qed.

(** Writing the value a key already holds changes nothing. *)
Lemma dict_set_same (d : dict) (k : string) (v : pyval) :
  has_key d k = true -> dict_get d k = v -> dict_set d k v = d.
Proof.
  unfold dict_get.
  induction d as [|[k0 v0] r IH]; simpl; intros Hk Hg.
  - discriminate.
  - destruct (String.eqb k0 k) eqn:E0.
    + subst v0. reflexivity.
    + simpl in Hk. rewrite IH; auto.
Qed.

Lemma dict_set_nonempty (d : dict) (k : string) (v : pyval) :
  dict_set d k v <> [].
Proof.
  destruct d as [|[k0 v0] r]; simpl.
  - discriminate.
  - destruct (String.eqb k0 k); discriminate.
Qed.

End DictFacts.

(** ** Normalizer *)

Section NormalizerFacts.

Context {PF : PyFloat} {PL : PyLibs}.

Lemma fill_text_get (ks : list string) (d : dict) (k : string) :
  dict_get (fill_text ks d) k
  = if mem k ks && is_none (dict_get d k) then VStr "" else dict_get d k.
Proof.
  revert d. induction ks as [|k0 r IH]; intros d; simpl.
  - reflexivity.
  - rewrite IH. clear IH.
    destruct (String.eqb k k0) eqn:E.
    + apply String.eqb_eq in E. subst k0. simpl.
      destruct (is_none (dict_get d k)) eqn:N.
      * rewrite dict_get_set, String.eqb_refl. simpl.
        rewrite andb_false_r. reflexivity.
      * rewrite N. rewrite andb_false_r. reflexivity.
    + simpl.
      destruct (is_none (dict_get d k0)).
      * rewrite dict_get_set. rewrite String.eqb_sym, E. reflexivity.
      * reflexivity.
Qed.

Lemma fill_text_has_key (ks : list string) (d : dict) (k : string) :
  has_key d k = true -> has_key (fill_text ks d) k = true.
Proof.
  revert d. induction ks as [|k0 r IH]; intros d H; simpl; auto.
  apply IH. destruct (is_none (dict_get d k0)); auto.
  rewrite has_key_set, H. apply orb_true_r.
Qed.

(** Evaluate comparisons between key literals. *)
Ltac eval_keys :=
  repeat match goal with
    | |- context [String.eqb ?a ?b] =>
        let r := eval vm_compute in (String.eqb a b) in
        match r with
        | true => change (String.eqb a b) with true
        | false => change (String.eqb a b) with false
        end
    | |- context [mem ?a ?l] =>
        let r := eval vm_compute in (mem a l) in
        match r with
        | true => change (mem a l) with true
        | false => change (mem a l) with false
        end
    end.

Ltac get_through :=
  repeat (rewrite ?dict_get_set, ?fill_text_get; eval_keys; cbv iota;
          rewrite ?andb_false_l, ?andb_true_l).


Lemma assign_get (d : dict) (k : string) (F : pyval -> pyval) (k' : string) :
  dict_get (assign d k F) k'
  = if String.eqb k k' then F (dict_get d k) else dict_get d k'.
Proof. unfold assign. apply dict_get_set. Qed.

Lemma assign_has_key (d : dict) (k : string) (F : pyval -> pyval)
  (k' : string) :
  has_key (assign d k F) k' = String.eqb k k' || has_key d k'.
Proof. unfold assign. apply has_key_set. Qed.

Lemma normalizar_stages (clk : clock) {dados : dict} :
  dados <> [] ->
  normalizar_dados_bda clk dados
  = with_existe_plano (fill_text text_fields (typed clk dados)).
Proof.
  destruct dados as [|p r]; [congruence|]. intros _.
  unfold normalizar_dados_bda, with_existe_plano, typed. cbv zeta.
  reflexivity.
Qed.

Ltac get_typed :=
  unfold typed; repeat (rewrite assign_get; eval_keys; cbv iota).

Lemma with_existe_plano_get (d : dict) (k : string) :
  String.eqb "existe_plano" k = false ->
  dict_get (with_existe_plano d) k = dict_get d k.
Proof.
  intros E. unfold with_existe_plano.
  match goal with |- dict_get (if ?c then _ else _) _ = _ => destruct c end.
  - reflexivity.
  - rewrite dict_get_set, E. reflexivity.
Qed.

Lemma normalizar_data_quebra (clk : clock) {dados : dict} :
  dados <> [] ->
  dict_get (normalizar_dados_bda clk dados) "data_quebra"
  = py_or (_parse_date (dict_get dados "data_quebra")) (VDate (today clk)).
Proof.
  intros Hne. rewrite (normalizar_stages clk Hne).
  rewrite with_existe_plano_get by reflexivity.
  rewrite fill_text_get. eval_keys. cbv iota. rewrite andb_false_l.
  get_typed. reflexivity.
Qed.

Lemma normalizar_hora_quebra (clk : clock) {dados : dict} :
  dados <> [] ->
  dict_get (normalizar_dados_bda clk dados) "hora_quebra"
  = VTime (_parse_time clk (dict_get dados "hora_quebra")).
Proof.
  intros Hne. rewrite (normalizar_stages clk Hne).
  rewrite with_existe_plano_get by reflexivity.
  rewrite fill_text_get. eval_keys. cbv iota. rewrite andb_false_l.
  get_typed. reflexivity.
Qed.

Lemma normalizar_tempo_reparo_h (clk : clock) {dados : dict} :
  dados <> [] ->
  dict_get (normalizar_dados_bda clk dados) "tempo_reparo_h"
  = VFloat
      (try_except
         (py_float (py_or (dict_get dados "tempo_reparo_h")
                      (VFloat float_zero)))
         float_zero).
Proof.
  intros Hne. rewrite (normalizar_stages clk Hne).
  rewrite with_existe_plano_get by reflexivity.
  rewrite fill_text_get. eval_keys. cbv iota. rewrite andb_false_l.
  get_typed. reflexivity.
Qed.

Lemma normalizar_periodicidade_dias (clk : clock) {dados : dict} :
  dados <> [] ->
  dict_get (normalizar_dados_bda clk dados) "periodicidade_dias"
  = VInt (try_except
            (py_int (py_or (dict_get dados "periodicidade_dias") (VInt 0)))
            0).
Proof.
  intros Hne. rewrite (normalizar_stages clk Hne).
  rewrite with_existe_plano_get by reflexivity.
  rewrite fill_text_get. eval_keys. cbv iota. rewrite andb_false_l.
  get_typed. reflexivity.
Qed.

Lemma normalizar_nonempty (clk : clock) (dados : dict) :
  dados <> [] -> normalizar_dados_bda clk dados <> [].
Proof.
  intros Hne. rewrite (normalizar_stages clk Hne).
  intros E.
  assert (H : has_key (with_existe_plano (fill_text text_fields
                                            (typed clk dados)))
                "data_quebra" = true).
  { unfold with_existe_plano.
    match goal with |- has_key (if ?c then _ else _) _ = _ => destruct c end.
    - apply fill_text_has_key. unfold typed.
      repeat (rewrite assign_has_key; eval_keys; cbv iota;
              rewrite ?orb_false_l, ?orb_true_l); reflexivity.
    - rewrite has_key_set. apply orb_true_iff. right.
      apply fill_text_has_key. unfold typed.
      repeat (rewrite assign_has_key; eval_keys; cbv iota;
              rewrite ?orb_false_l, ?orb_true_l); reflexivity. }
  rewrite E in H. discriminate.
Qed.



(** *** Normalising twice *)

Lemma assign_same (d : dict) (k : string) (F : pyval -> pyval) :
  has_key d k = true -> F (dict_get d k) = dict_get d k -> assign d k F = d.
Proof. intros Hk HF. unfold assign. apply dict_set_same; auto. Qed.

Lemma fill_text_same (ks : list string) (d : dict) :
  (forall k, In k ks -> is_none (dict_get d k) = false) ->
  fill_text ks d = d.
Proof.
  induction ks as [|k0 r IH]; intros H; simpl; auto.
  rewrite (H k0) by (left; reflexivity).
  apply IH. intros k Hk. apply H. right. exact Hk.
Qed.

Lemma with_existe_plano_settled (d : dict) :
  eq_str (dict_get (with_existe_plano d) "existe_plano") "Sim"
  || eq_str (dict_get (with_existe_plano d) "existe_plano") "Não" = true.
Proof.
  unfold with_existe_plano.
  destruct (eq_str (dict_get d "existe_plano") "Sim"
            || eq_str (dict_get d "existe_plano") "Não") eqn:E.
  - exact E.
  - rewrite dict_get_set. simpl.
    destruct (truthy (dict_get d "plano_sap")); reflexivity.
Qed.

Lemma with_existe_plano_idem (d : dict) :
  with_existe_plano (with_existe_plano d) = with_existe_plano d.
Proof.
  unfold with_existe_plano at 1.
  rewrite with_existe_plano_settled. reflexivity.
Qed.

Lemma with_existe_plano_has_key (d : dict) (k : string) :
  has_key d k = true -> has_key (with_existe_plano d) k = true.
Proof.
  intros H. unfold with_existe_plano.
  match goal with |- has_key (if ?c then _ else _) _ = _ => destruct c end;
    auto.
  rewrite has_key_set, H. apply orb_true_r.
Qed.

Lemma with_existe_plano_not_none (d : dict) (k : string) :
  is_none (dict_get d k) = false ->
  is_none (dict_get (with_existe_plano d) k) = false.
Proof.
  intros H. unfold with_existe_plano.
  match goal with
  | |- is_none (dict_get (if ?c then _ else _) _) = _ => destruct c
  end; auto.
  rewrite dict_get_set. destruct (String.eqb "existe_plano" k); auto.
Qed.

Lemma fill_text_not_none (ks : list string) (d : dict) (k : string) :
  In k ks -> is_none (dict_get (fill_text ks d) k) = false.
Proof.
  intros Hk. rewrite fill_text_get.
  assert (Hm : mem k ks = true).
  { unfold mem. apply existsb_exists. exists k. split; auto.
    apply String.eqb_refl. }
  rewrite Hm. simpl.
  destruct (is_none (dict_get d k)) eqn:E; auto.
Qed.

Lemma _parse_date_date_or_none (v : pyval) :
  date_or_none v -> _parse_date v = v.
Proof. intros [E | [x E]]; subst v; reflexivity. Qed.

Lemma _safe_json_loads_container (v dflt : pyval) :
  is_container v -> _safe_json_loads v dflt = v.
Proof. intros [[l E] | [kvs E]]; subst v; reflexivity. Qed.

Lemma typed_has_key (clk : clock) (dados : dict) (k : string) :
  mem k [ "data_quebra"; "hora_quebra"; "ultima_realizacao"; "tempo_reparo_h";
          "periodicidade_dias"; "cinco_porques_grid"; "acoes_lista";
          "causas_linhas" ] = true ->
  has_key (typed clk dados) k = true.
Proof.
  intros H. unfold typed. repeat rewrite assign_has_key.
  unfold mem in H. simpl in H. rewrite orb_false_r in H.
  repeat rewrite (String.eqb_sym k) in H.
  repeat (apply orb_true_iff in H; destruct H as [H | H];
          [rewrite H; rewrite ?orb_true_r; reflexivity|]).
  rewrite H. rewrite ?orb_true_r. reflexivity.
Qed.

(** The value the normalizer leaves under a typed key. *)
Lemma normalizar_typed_get (clk : clock) (dados : dict) (k : string) :
  dados <> [] -> mem k text_fields = false ->
  dict_get (normalizar_dados_bda clk dados) k = dict_get (typed clk dados) k.
Proof.
  intros Hne Hk. rewrite (normalizar_stages clk Hne).
  rewrite with_existe_plano_get.
  - rewrite fill_text_get, Hk. reflexivity.
  - destruct (String.eqb "existe_plano" k) eqn:E; auto.
    apply String.eqb_eq in E. subst k. discriminate.
Qed.

Lemma normalizar_ultima_realizacao (clk : clock) (dados : dict) :
  dados <> [] ->
  dict_get (normalizar_dados_bda clk dados) "ultima_realizacao"
  = _parse_date (dict_get dados "ultima_realizacao").
Proof.
  intros Hne. rewrite normalizar_typed_get by (auto; reflexivity).
  get_typed. reflexivity.
Qed.

Lemma normalizar_cinco_porques_grid (clk : clock) (dados : dict) :
  dados <> [] ->
  dict_get (normalizar_dados_bda clk dados) "cinco_porques_grid"
  = _safe_json_loads (dict_get dados "cinco_porques_grid") (VList []).
Proof.
  intros Hne. rewrite normalizar_typed_get by (auto; reflexivity).
  get_typed. reflexivity.
Qed.

Lemma normalizar_acoes_lista (clk : clock) (dados : dict) :
  dados <> [] ->
  dict_get (normalizar_dados_bda clk dados) "acoes_lista"
  = _safe_json_loads (dict_get dados "acoes_lista") (VList []).
Proof.
  intros Hne. rewrite normalizar_typed_get by (auto; reflexivity).
  get_typed. reflexivity.
Qed.

Lemma normalizar_causas_linhas (clk : clock) (dados : dict) :
  dados <> [] ->
  dict_get (normalizar_dados_bda clk dados) "causas_linhas"
  = _safe_json_loads (dict_get dados "causas_linhas") (VList []).
Proof.
  intros Hne. rewrite normalizar_typed_get by (auto; reflexivity).
  get_typed. reflexivity.
Qed.

(** C10, as amended: normalising a normalised record changes nothing (also
    under a later clock) when, in the raw record, each of the three nested
    fields normalises to a list or a dict, each of the two date fields
    normalises to a date or to [None], and the repair duration does not
    normalise to a zero other than [0.0]. *)
Theorem normalizar_twice (clk clk' : clock) (dados : dict) :
  is_container (_safe_json_loads (dict_get dados "cinco_porques_grid")
                  (VList [])) ->
  is_container (_safe_json_loads (dict_get dados "acoes_lista") (VList [])) ->
  is_container (_safe_json_loads (dict_get dados "causas_linhas")
                  (VList [])) ->
  date_or_none (_parse_date (dict_get dados "data_quebra")) ->
  date_or_none (_parse_date (dict_get dados "ultima_realizacao")) ->
  nonzero_or_zero
    (try_except
       (py_float (py_or (dict_get dados "tempo_reparo_h")
                    (VFloat float_zero)))
       float_zero) ->
  normalizar_dados_bda clk' (normalizar_dados_bda clk dados)
  = normalizar_dados_bda clk dados.
Proof.
  intros Hw Ha Hc Hd Hu Hf.
  destruct dados as [|p r]; [reflexivity|].
  set (dados := p :: r) in *.
  assert (Hne : dados <> []) by discriminate.
  set (N := normalizar_dados_bda clk dados) in *.
  assert (HN : N <> []) by (apply normalizar_nonempty; exact Hne).
  rewrite (normalizar_stages clk' HN).
  assert (Hkey : forall k,
             mem k [ "data_quebra"; "hora_quebra"; "ultima_realizacao";
                     "tempo_reparo_h"; "periodicidade_dias";
                     "cinco_porques_grid"; "acoes_lista"; "causas_linhas" ]
             = true -> has_key N k = true).
  { intros k Hk. unfold N. rewrite (normalizar_stages clk Hne).
    apply with_existe_plano_has_key, fill_text_has_key, typed_has_key.
    exact Hk. }
  assert (Hget : forall k, mem k text_fields = false ->
                           dict_get N k = dict_get (typed clk dados) k).
  { intros k Hk. apply normalizar_typed_get; auto. }
  assert (Htyped : typed clk' N = N).
  { unfold typed at 1.
    rewrite (assign_same N "data_quebra").
    2: apply Hkey; reflexivity.
    2: { rewrite Hget by reflexivity. get_typed.
         destruct Hd as [E | [x E]]; rewrite E; reflexivity. }
    rewrite (assign_same N "hora_quebra").
    2: apply Hkey; reflexivity.
    2: { rewrite Hget by reflexivity. get_typed. reflexivity. }
    rewrite (assign_same N "ultima_realizacao").
    2: apply Hkey; reflexivity.
    2: { rewrite Hget by reflexivity. get_typed.
         apply _parse_date_date_or_none.
         destruct Hu as [E | [x E]]; rewrite E; [left | right; exists x];
           reflexivity. }
    rewrite (assign_same N "tempo_reparo_h").
    2: apply Hkey; reflexivity.
    2: { pose proof (normalizar_tempo_reparo_h clk Hne) as Ht.
         fold N in Ht. rewrite Ht. clear Ht.
         unfold py_or at 1. simpl truthy.
         match goal with
         | |- context [float_bool ?f] => set (f0 := f) in *
         end.
         destruct Hf as [E | E].
         - rewrite E. reflexivity.
         - destruct (float_bool f0); [reflexivity|].
           simpl. rewrite E. reflexivity. }
    rewrite (assign_same N "periodicidade_dias").
    2: apply Hkey; reflexivity.
    2: { pose proof (normalizar_periodicidade_dias clk Hne) as Ht.
         fold N in Ht. rewrite Ht. clear Ht.
         unfold py_or at 1. simpl truthy.
         match goal with
         | |- context [negb (?z =? 0)] => destruct (Z.eqb_spec z 0) as [E | E]
         end.
         - simpl. rewrite E. reflexivity.
         - reflexivity. }
    rewrite (assign_same N "cinco_porques_grid").
    2: apply Hkey; reflexivity.
    2: { rewrite Hget by reflexivity. get_typed.
         apply _safe_json_loads_container. exact Hw. }
    rewrite (assign_same N "acoes_lista").
    2: apply Hkey; reflexivity.
    2: { rewrite Hget by reflexivity. get_typed.
         apply _safe_json_loads_container. exact Ha. }
    apply assign_same.
    - apply Hkey; reflexivity.
    - rewrite Hget by reflexivity. get_typed.
      apply _safe_json_loads_container. exact Hc. }
  rewrite Htyped.
  assert (Hfill : fill_text text_fields N = N).
  { apply fill_text_same. intros k Hk. unfold N.
    rewrite (normalizar_stages clk Hne).
    apply with_existe_plano_not_none, fill_text_not_none. exact Hk. }
  rewrite Hfill. unfold N at 1. rewrite (normalizar_stages clk Hne).
  rewrite with_existe_plano_idem. unfold N.
  rewrite (normalizar_stages clk Hne). reflexivity.
Qed.

End NormalizerFacts.

(** ** Validator *)

Section ValidatorFacts.

Context {PF : PyFloat} {PL : PyLibs}.

#[local] Arguments date_add_days : simpl never.

Lemma bind_Ok {A B : Type} (a : A) (k : A -> result B) : bind (Ok a) k = k a.
Proof. reflexivity. Qed.

Lemma row_or_empty (row : pyval) :
  row_ok row = true -> py_or row (VDict []) = VDict (row_dict row).
Proof.
  unfold row_ok, py_or.
  destruct row as [| b | z | f | s | d | t | d t | l | kvs | n]; simpl;
    intros H; try discriminate; try reflexivity.
  - destruct b; [discriminate | reflexivity].
  - destruct (z =? 0); [reflexivity | discriminate].
  - destruct (float_bool f); [discriminate | reflexivity].
  - destruct s; [reflexivity | discriminate].
  - destruct l; [reflexivity | discriminate].
  - destruct kvs; reflexivity.
Qed.

Lemma scan_pos_on_dict (row : pyval) (st : row_scan) (j : Z) :
  row_ok row = true ->
  scan_pos row st j = Ok (scan_pos_dict (row_dict row) st j).
Proof.
  intros H. unfold scan_pos, scan_pos_dict.
  rewrite (row_or_empty _ H). simpl.
  destruct (1 <? j); reflexivity.
Qed.

Lemma scan_row_on_dict (row : pyval) :
  row_ok row = true -> scan_row row = Ok (scan_dict (row_dict row)).
Proof.
  intros H. unfold scan_row, scan_dict. simpl.
  repeat (rewrite (scan_pos_on_dict _ _ _ H); simpl bind).
  reflexivity.
Qed.

Lemma scan_pos_dict_count (kvs : dict) (st : row_scan) (j : Z) :
  filled_count (scan_pos_dict kvs st j)
  = filled_count st + (if filled_at kvs j then 1 else 0).
Proof.
  unfold scan_pos_dict, filled_at.
  destruct (truthy (dict_get kvs (pq j))); simpl.
  - match goal with |- context [if ?c then _ else _] => destruct c end;
      reflexivity.
  - lia.
Qed.

Lemma scan_fold_count (kvs : dict) (js : list Z) (st : row_scan) :
  filled_count (fold_left (scan_pos_dict kvs) js st)
  = filled_count st + Z.of_nat (length (filter (filled_at kvs) js)).
Proof.
  revert st. induction js as [|j r IH]; intros st; simpl.
  - lia.
  - rewrite IH, scan_pos_dict_count.
    destruct (filled_at kvs j); simpl length; lia.
Qed.

Lemma scan_dict_filled (kvs : dict) :
  filled_count (scan_dict kvs) = filled kvs.
Proof. unfold scan_dict, filled. rewrite scan_fold_count. reflexivity. Qed.

(** *** The loop over the rows *)

Lemma forallb_nth (P : pyval -> bool) (l : list pyval) (k : nat) (d : pyval) :
  forallb P l = true -> (k < length l)%nat -> P (nth k l d) = true.
Proof.
  revert k. induction l as [|x r IH]; intros k H Hk; simpl in *.
  - lia.
  - apply andb_true_iff in H. destruct H as [Hx Hr].
    destruct k; [exact Hx|]. apply IH; [exact Hr | lia].
Qed.

Lemma forallb_list_set (P : pyval -> bool) (l : list pyval) (k : nat)
  (x : pyval) :
  forallb P l = true -> P x = true -> forallb P (list_set l k x) = true.
Proof.
  revert k. induction l as [|y r IH]; intros k H Hx; simpl in *.
  - destruct k; reflexivity.
  - apply andb_true_iff in H. destruct H as [Hy Hr].
    destruct k; simpl.
    + rewrite Hx, Hr. reflexivity.
    + rewrite Hy, IH; auto.
Qed.

Lemma msg_seq_linha (i : nat) : linha_msg (msg_seq i) = true.
Proof. reflexivity. Qed.

Lemma msg_causa_linha (i : nat) : linha_msg (msg_causa i) = true.
Proof. reflexivity. Qed.

Lemma check_row_ok (st : whys_state) (i : nat) (row : pyval) :
  row_ok row = true ->
  forallb is_dict (w_causas st) = true ->
  exists st' extra,
    check_row st (i, row) = Ok st'
    /\ forallb is_dict (w_causas st') = true
    /\ linhas_validas st'
       = linhas_validas st + (if 4 <=? filled (row_dict row) then 1 else 0)
    /\ w_erros st' = (w_erros st ++ extra)%list
    /\ forallb linha_msg extra = true.
Proof.
  intros Hrow Hc. unfold check_row.
  rewrite (scan_row_on_dict _ Hrow). simpl bind.
  rewrite scan_dict_filled.
  set (sc := scan_dict (row_dict row)).
  set (e1 := if seq_ok sc then w_erros st
             else (w_erros st ++ [msg_seq i])%list).
  assert (He1 : exists x, e1 = (w_erros st ++ x)%list
                          /\ forallb linha_msg x = true).
  { unfold e1. destruct (seq_ok sc).
    - exists []. rewrite app_nil_r. auto.
    - exists [msg_seq i]. auto. }
  destruct He1 as [x1 [Ex1 Hx1]].
  set (validas := if 4 <=? filled (row_dict row)
                  then linhas_validas st + 1 else linhas_validas st).
  assert (Hv : validas = linhas_validas st
                         + (if 4 <=? filled (row_dict row) then 1 else 0)).
  { unfold validas. destruct (4 <=? filled (row_dict row)); lia. }
  set (info := if (i - 1 <? length (w_causas st))%nat
               then nth (i - 1) (w_causas st) VNone else VDict []).
  assert (Hinfo : is_dict info = true).
  { unfold info. destruct (Nat.ltb_spec (i - 1) (length (w_causas st))).
    - apply forallb_nth; auto.
    - reflexivity. }
  assert (Hor : exists kvs, py_or info (VDict []) = VDict kvs).
  { destruct info; try discriminate. unfold py_or.
    destruct (truthy (VDict kvs)); eexists; reflexivity. }
  destruct Hor as [kvs Hkvs].
  assert (Hmiss : exists b,
             (if 0 <? filled (row_dict row) then
                c <- py_get (py_or info (VDict [])) "causa" ;;
                Ok (negb (truthy c))
              else Ok false) = Ok b).
  { rewrite Hkvs. simpl. destruct (0 <? filled (row_dict row));
      eexists; reflexivity. }
  destruct Hmiss as [b Hb]. rewrite Hb. simpl bind.
  destruct b.
  - exists (mkwhys (e1 ++ [msg_causa i]) validas (w_causas st)).
    exists (x1 ++ [msg_causa i])%list. simpl.
    repeat split; auto.
    + rewrite Ex1, app_assoc. reflexivity.
    + rewrite forallb_app, Hx1. reflexivity.
  - destruct (Nat.ltb_spec (i - 1) (length (w_causas st))) as [Hin | Hout].
    + assert (Hd : is_dict (nth (i - 1) (w_causas st) VNone) = true)
        by (apply forallb_nth; auto).
      destruct (nth (i - 1) (w_causas st) VNone) eqn:En; try discriminate.
      simpl. eexists. exists x1. repeat split; simpl; auto.
      apply forallb_list_set; auto.
    + eexists. exists x1. repeat split; simpl; auto.
Qed.

Lemma rows_loop_ok (whys : list pyval) (i : nat) (st : whys_state) :
  forallb row_ok whys = true ->
  forallb is_dict (w_causas st) = true ->
  exists st' extra,
    for_each (enumerate_from i whys) check_row st = Ok st'
    /\ forallb is_dict (w_causas st') = true
    /\ linhas_validas st' = linhas_validas st + deep_rows whys
    /\ w_erros st' = (w_erros st ++ extra)%list
    /\ forallb linha_msg extra = true.
Proof.
  revert i st. induction whys as [|row r IH]; intros i st Hw Hc.
  - exists st, []. simpl. unfold deep_rows. simpl.
    rewrite app_nil_r. repeat split; auto. lia.
  - simpl in Hw. apply andb_true_iff in Hw. destruct Hw as [Hrow Hr].
    destruct (check_row_ok st i row Hrow Hc)
      as [st1 [x1 [E1 [Hc1 [Hv1 [He1 Hx1]]]]]].
    destruct (IH (S i) st1 Hr Hc1) as [st2 [x2 [E2 [Hc2 [Hv2 [He2 Hx2]]]]]].
    exists st2, (x1 ++ x2)%list.
    unfold enumerate_from in *.
    change (for_each (combine (seq i (length (row :: r))) (row :: r))
              check_row st)
      with (bind (check_row st (i, row))
              (fun s' => for_each (combine (seq (S i) (length r)) r)
                           check_row s')).
    rewrite E1. simpl bind.
    rewrite E2. repeat split; auto.
    + rewrite Hv2, Hv1. unfold deep_rows. simpl filter.
      destruct (4 <=? filled (row_dict row)); simpl length; lia.
    + rewrite He2, He1, app_assoc. reflexivity.
    + rewrite forallb_app, Hx1, Hx2. reflexivity.
Qed.

(** *** The actions *)

Lemma acao_ok_dict (a : pyval) : acao_ok a = true -> is_dict a = true.
Proof. destruct a; simpl; auto. Qed.

Lemma acao_valida_dict (a : pyval) :
  is_dict a = true -> acao_valida a = Ok (valida a).
Proof.
  destruct a; try discriminate. intros _.
  unfold acao_valida, valida, dict_get. simpl.
  destruct (truthy (dict_get_default kvs "descricao" VNone)); reflexivity.
Qed.

Lemma filter_m_dicts (l : list pyval) :
  forallb acao_ok l = true -> filter_m acao_valida l = Ok (filter valida l).
Proof.
  induction l as [|a r IH]; simpl; intros H; auto.
  apply andb_true_iff in H. destruct H as [Ha Hr].
  rewrite (acao_valida_dict _ (acao_ok_dict _ Ha)). simpl.
  rewrite (IH Hr). simpl. reflexivity.
Qed.

Lemma tem_auto_ok (a : pyval) :
  acao_ok a = true -> tem_auto a = Ok (tem_auto_b a).
Proof.
  destruct a; try discriminate. unfold acao_ok, tem_auto, tem_auto_b. simpl.
  destruct (dict_get_default kvs "descricao" (VStr "")); try discriminate.
  reflexivity.
Qed.

Lemma any_m_ok (l : list pyval) :
  forallb acao_ok l = true -> any_m tem_auto l = Ok (existsb tem_auto_b l).
Proof.
  induction l as [|a r IH]; simpl; intros H; auto.
  apply andb_true_iff in H. destruct H as [Ha Hr].
  rewrite (tem_auto_ok _ Ha). simpl.
  destruct (tem_auto_b a); simpl; auto.
Qed.

Lemma prefixb_refl (s : string) : prefixb s s = true.
Proof.
  induction s as [|c r IH]; simpl; auto.
  rewrite Ascii.eqb_refl. exact IH.
Qed.

Lemma contains_refl (s : string) : contains s s = true.
Proof. destruct s; simpl; auto. rewrite Ascii.eqb_refl, prefixb_refl. auto. Qed.

Lemma acao_auto_ok (prazo : pydate) : acao_ok (acao_auto prazo) = true.
Proof. reflexivity. Qed.

Lemma acao_auto_tem_auto (prazo : pydate) :
  tem_auto_b (acao_auto prazo) = true.
Proof. unfold tem_auto_b. simpl. apply contains_refl. Qed.

Lemma acao_auto_valida (prazo : pydate) : valida (acao_auto prazo) = true.
Proof. reflexivity. Qed.

Lemma injected_ok (payload : dict) (acoes : list pyval) (prazo : pydate) :
  forallb acao_ok acoes = true ->
  forallb acao_ok (injected payload acoes prazo) = true.
Proof.
  intros H. unfold injected.
  match goal with |- context [if ?c then _ else _] => destruct c end; auto.
  rewrite forallb_app, H. reflexivity.
Qed.

(** *** The whole validation on readable input *)

Lemma validar_payload_phases (clk : clock) (payload : dict)
  (whys causas acoes : list pyval) :
  validar_payload clk payload whys causas acoes
  = (st <- for_each (enumerate_from 1 whys) check_row
             (mkwhys (erros_campos payload) 0 causas) ;;
     acoes_validas <- filter_m acao_valida acoes ;;
     p <- fase_acoes clk payload acoes acoes_validas ;;
     Ok ((if (length (snd p) <? 1)%nat
          then ((if linhas_validas st <? 1
                 then (w_erros st ++ [msg_whys])%list else w_erros st)
                ++ [msg_acoes])%list
          else (if linhas_validas st <? 1
                then (w_erros st ++ [msg_whys])%list else w_erros st)),
         w_causas st, fst p)).
Proof.
  unfold validar_payload, erros_campos, fase_acoes, enumerate1,
    enumerate_from.
  cbv zeta.
  destruct (for_each (combine (seq 1 (length whys)) whys) check_row
              (mkwhys
                 (if eq_str (dict_get payload "existe_plano") "Sim"
                  then (all_filled (obrig_evento_vals payload) labels
                        ++ all_filled (plan_vals payload) plan_labels)%list
                  else all_filled (obrig_evento_vals payload) labels)
                 0 causas)) as [st|e]; [|reflexivity].
  rewrite !bind_Ok.
  destruct (filter_m acao_valida acoes) as [av|e]; [|reflexivity].
  rewrite !bind_Ok.
  match goal with
  | |- bind ?c _ = bind ?c _ => destruct c as [[al av'] | e]; reflexivity
  end.
Qed.

Lemma fase_acoes_ok (clk : clock) (payload : dict) (acoes : list pyval)
  (prazo : pydate) :
  forallb acao_ok acoes = true ->
  (injects payload acoes = true ->
   date_add_days (today clk) 30 = Ok prazo) ->
  fase_acoes clk payload acoes (filter valida acoes)
  = Ok (injected payload acoes prazo,
        filter valida (injected payload acoes prazo)).
Proof.
  intros Ha Hp. unfold fase_acoes, injected. unfold injects in Hp.
  revert Hp. generalize (date_add_days (today clk) 30) as r.
  intros r Hp.
  destruct (eq_str (dict_get payload "existe_plano") "Não");
    [|reflexivity].
  rewrite (any_m_ok _ Ha), bind_Ok.
  destruct (existsb tem_auto_b acoes).
  - rewrite bind_Ok, (filter_m_dicts _ Ha), bind_Ok. reflexivity.
  - rewrite (Hp eq_refl), !bind_Ok, filter_m_dicts, bind_Ok.
    + reflexivity.
    + rewrite forallb_app, Ha. reflexivity.
Qed.

Lemma errors_regroup (ev pv linhas : list string) (sim deep none : bool) :
  (if none
   then ((if deep
          then (((if sim then (ev ++ pv)%list else ev) ++ linhas)
                ++ [msg_whys])%list
          else ((if sim then (ev ++ pv)%list else ev) ++ linhas)%list)
         ++ [msg_acoes])%list
   else (if deep
         then (((if sim then (ev ++ pv)%list else ev) ++ linhas)
               ++ [msg_whys])%list
         else ((if sim then (ev ++ pv)%list else ev) ++ linhas)%list))
  = (ev ++ (if sim then pv else []) ++ linhas
     ++ (if deep then [msg_whys] else [])
     ++ (if none then [msg_acoes] else []))%list.
Proof.
  destruct sim, deep, none; repeat rewrite <- app_assoc;
    rewrite ?app_nil_r; reflexivity.
Qed.

(** The errors come out in four groups: the mandatory event fields, the plan
    fields (only when the plan exists), the per-row messages, and the two
    global messages. *)
Lemma validar_payload_result (clk : clock) (payload : dict)
  (whys causas acoes : list pyval) (prazo : pydate) :
  forallb row_ok whys = true ->
  forallb is_dict causas = true ->
  forallb acao_ok acoes = true ->
  (injects payload acoes = true ->
   date_add_days (today clk) 30 = Ok prazo) ->
  exists linhas causas',
    validar_payload clk payload whys causas acoes
    = Ok ((all_filled (obrig_evento_vals payload) labels
           ++ (if eq_str (dict_get payload "existe_plano") "Sim"
               then all_filled (plan_vals payload) plan_labels else [])
           ++ linhas
           ++ (if deep_rows whys <? 1 then [msg_whys] else [])
           ++ (if (length (filter valida (injected payload acoes prazo))
                   <? 1)%nat
               then [msg_acoes] else []))%list,
          causas', injected payload acoes prazo)
    /\ forallb linha_msg linhas = true
    /\ forallb is_dict causas' = true.
Proof.
  intros Hw Hc Ha Hp.
  destruct (rows_loop_ok whys 1 (mkwhys (erros_campos payload) 0 causas)
              Hw Hc)
    as [st [linhas [E [Hc' [Hv [He Hl]]]]]].
  exists linhas, (w_causas st).
  split; [|split; assumption].
  rewrite validar_payload_phases, E, bind_Ok.
  rewrite (filter_m_dicts _ Ha), bind_Ok.
  rewrite (fase_acoes_ok clk payload _ prazo Ha Hp), bind_Ok.
  cbv beta iota delta [fst snd].
  rewrite He, Hv. cbv beta iota delta [w_erros linhas_validas].
  rewrite Z.add_0_l. unfold erros_campos.
  rewrite errors_regroup. reflexivity.
Qed.

(** *** Telling the messages apart *)

Lemma all_filled_cons (k : string) (v : pyval) (r : dict)
  (lbls : list (string * string)) :
  all_filled ((k, v) :: r) lbls
  = (campo_erro lbls k v ++ all_filled r lbls)%list.
Proof. reflexivity. Qed.

Lemma campo_erro_campo (lbls : list (string * string)) (k : string)
  (v : pyval) :
  forallb campo_msg (campo_erro lbls k v) = true.
Proof.
  unfold campo_erro.
  destruct (is_none v); [reflexivity|].
  destruct v; try reflexivity.
  destruct (blank s); reflexivity.
Qed.

Lemma all_filled_campo (values : dict) (lbls : list (string * string)) :
  forallb campo_msg (all_filled values lbls) = true.
Proof.
  induction values as [|[k v] r IH]; [reflexivity|].
  rewrite all_filled_cons, forallb_app, IH, campo_erro_campo. reflexivity.
Qed.

Lemma count_occ_none (P : string -> bool) (l : list string) (m : string) :
  forallb P l = true -> P m = false -> count_occ string_dec l m = 0%nat.
Proof.
  intros Hl Hm. induction l as [|x r IH]; simpl; auto.
  simpl in Hl. apply andb_true_iff in Hl. destruct Hl as [Hx Hr].
  destruct (string_dec x m) as [E | E].
  - subst x. rewrite Hm in Hx. discriminate.
  - auto.
Qed.

Lemma not_in_by (P : string -> bool) (l : list string) (m : string) :
  forallb P l = true -> P m = false -> ~ In m l.
Proof.
  intros Hl Hm Hin. rewrite forallb_forall in Hl.
  rewrite (Hl _ Hin) in Hm. discriminate.
Qed.

(** How often the message about the depth of the analysis occurs. *)
Lemma count_msg_whys (ev pv linhas : list string) (sim deep none : bool) :
  forallb campo_msg ev = true ->
  forallb campo_msg pv = true ->
  forallb linha_msg linhas = true ->
  count_occ string_dec
    (ev ++ (if sim then pv else []) ++ linhas
     ++ (if deep then [msg_whys] else [])
     ++ (if none then [msg_acoes] else []))%list msg_whys
  = if deep then 1%nat else 0%nat.
Proof.
  intros Hev Hpv Hl.
  rewrite !count_occ_app.
  rewrite (count_occ_none campo_msg ev msg_whys Hev eq_refl).
  rewrite (count_occ_none linha_msg linhas msg_whys Hl eq_refl).
  assert (Hp : count_occ string_dec (if sim then pv else []) msg_whys = 0%nat).
  { destruct sim; [|reflexivity].
    apply (count_occ_none campo_msg pv msg_whys Hpv eq_refl). }
  rewrite Hp.
  assert (Hn : count_occ string_dec (if none then [msg_acoes] else [])
                 msg_whys = 0%nat).
  { destruct none; [|reflexivity]. simpl.
    destruct (string_dec msg_acoes msg_whys) as [E | E]; [|reflexivity].
    apply String.eqb_eq in E. vm_compute in E. discriminate E. }
  rewrite Hn.
  destruct deep; simpl; [|reflexivity].
  destruct (string_dec msg_whys msg_whys); [reflexivity | congruence].
Qed.

Lemma all_filled_to_row_ok (n : Z) (whys : list pyval) :
  all_filled_to n whys = true -> forallb row_ok whys = true.
Proof.
  unfold all_filled_to. induction whys as [|row r IH]; simpl; auto.
  intros H. apply andb_true_iff in H. destruct H as [Hrow Hr].
  apply andb_true_iff in Hrow. destruct Hrow as [Hd _].
  rewrite (IH Hr), andb_true_r. unfold row_ok. rewrite Hd.
  apply orb_true_r.
Qed.

Lemma all_three_not_deep (whys : list pyval) :
  all_filled_to 3 whys = true -> deep_rows whys = 0.
Proof.
  unfold all_filled_to, deep_rows.
  induction whys as [|row r IH]; simpl; auto.
  intros H. apply andb_true_iff in H. destruct H as [Hrow Hr].
  apply andb_true_iff in Hrow. destruct Hrow as [_ H3].
  apply Z.eqb_eq in H3. rewrite H3. simpl. auto.
Qed.

Lemma some_deep_rows (whys : list pyval) :
  some_deep whys = true -> 1 <= deep_rows whys.
Proof.
  unfold some_deep, deep_rows.
  induction whys as [|row r IH]; simpl; [discriminate|].
  destruct (4 <=? filled (row_dict row)); simpl.
  - intros _. lia.
  - exact IH.
Qed.

(** C8: on readable input (the rows are dicts or empty, the causes are
    dicts, the actions are dicts with a text description, and the due date
    of an injected action exists) validation returns, and the message that
    asks for one line with at least four whys occurs once when none of the
    rows has four filled positions and not at all when one of them has; in
    particular it occurs once when every row has exactly three. *)
Theorem whys_depth_error (clk : clock) (payload : dict)
  (whys causas acoes : list pyval) (prazo : pydate) :
  forallb row_ok whys = true ->
  forallb is_dict causas = true ->
  forallb acao_ok acoes = true ->
  (injects payload acoes = true ->
   date_add_days (today clk) 30 = Ok prazo) ->
  exists erros causas' acoes',
    validar_payload clk payload whys causas acoes
    = Ok (erros, causas', acoes')
    /\ (all_filled_to 3 whys = true ->
        count_occ string_dec erros msg_whys = 1%nat)
    /\ (deep_rows whys = 0 -> count_occ string_dec erros msg_whys = 1%nat)
    /\ (some_deep whys = true -> ~ In msg_whys erros).
Proof.
  intros Hw Hc Ha Hp.
  destruct (validar_payload_result clk payload whys causas acoes prazo
              Hw Hc Ha Hp) as [linhas [causas' [E [Hl Hc']]]].
  eexists. exists causas', (injected payload acoes prazo).
  split; [exact E|].
  pose proof (count_msg_whys
                (all_filled (obrig_evento_vals payload) labels)
                (all_filled (plan_vals payload) plan_labels) linhas
                (eq_str (dict_get payload "existe_plano") "Sim")
                (deep_rows whys <? 1)
                (length (filter valida (injected payload acoes prazo))
                 <? 1)%nat
                (all_filled_campo _ _) (all_filled_campo _ _) Hl) as Hcount.
  split; [|split].
  - intros H3. rewrite Hcount, (all_three_not_deep _ H3). reflexivity.
  - intros H0. rewrite Hcount, H0. reflexivity.
  - intros Hd. apply some_deep_rows in Hd.
    rewrite (count_occ_not_In string_dec), Hcount.
    destruct (Z.ltb_spec (deep_rows whys) 1); [lia | reflexivity].
Qed.

(** C3: with no plan and no action, validation on readable input appends
    exactly one action, the synthetic one (category "Implementação de
    padrão", responsible "Definir", due 30 days after the validation date);
    validating again with that list (also at a later date) leaves it as it
    is, because its description contains the canned phrase. The guard is
    the one of the source for every readable list of actions: the list is
    left as it is exactly when the lowered description of some action
    contains the lowered canned phrase, otherwise the synthetic action is
    appended at its end; and validating the resulting list again leaves it
    as it is. *)
Theorem injection_once (clk clk' : clock) (payload : dict)
  (whys causas : list pyval) (prazo : pydate) :
  dict_get payload "existe_plano" = VStr "Não" ->
  forallb row_ok whys = true ->
  forallb is_dict causas = true ->
  date_add_days (today clk) 30 = Ok prazo ->
  let auto :=
    VDict [ ("descricao", VStr auto_desc);
            ("categoria", VStr "Implementação de padrão");
            ("responsavel", VStr "Definir");
            ("prazo", VStr (str_of_date prazo)) ] in
  (exists erros causas',
     validar_payload clk payload whys causas [] = Ok (erros, causas', [auto])
     /\ exists erros2 causas2,
          validar_payload clk' payload whys causas' [auto]
          = Ok (erros2, causas2, [auto]))
  /\ forall acoes : list pyval,
       forallb acao_ok acoes = true ->
       let carries (a : pyval) :=
         match dict_get_default (row_dict a) "descricao" (VStr "") with
         | VStr s => contains (str_lower auto_desc) (str_lower s)
         | _ => false
         end in
       let acoes1 :=
         if existsb carries acoes then acoes else (acoes ++ [auto])%list in
       exists erros causas',
         validar_payload clk payload whys causas acoes
         = Ok (erros, causas', acoes1)
         /\ exists erros2 causas2,
              validar_payload clk' payload whys causas' acoes1
              = Ok (erros2, causas2, acoes1).
Proof.
  intros Hn Hw Hc Hp auto.
  assert (G : forall acoes : list pyval,
             forallb acao_ok acoes = true ->
             exists erros causas',
               validar_payload clk payload whys causas acoes
               = Ok (erros, causas',
                     if existsb tem_auto_b acoes then acoes
                     else (acoes ++ [auto])%list)
               /\ exists erros2 causas2,
                    validar_payload clk' payload whys causas'
                      (if existsb tem_auto_b acoes then acoes
                       else (acoes ++ [auto])%list)
                    = Ok (erros2, causas2,
                          if existsb tem_auto_b acoes then acoes
                          else (acoes ++ [auto])%list)).
  { intros acoes Ha.
    set (acoes1 := if existsb tem_auto_b acoes then acoes
                   else (acoes ++ [auto])%list).
    destruct (validar_payload_result clk payload whys causas acoes prazo
                Hw Hc Ha (fun _ => Hp)) as [l1 [c1 [E1 [_ Hc1]]]].
    assert (I1 : injected payload acoes prazo = acoes1).
    { unfold injected, acoes1. rewrite Hn.
      change (eq_str (VStr "Não") "Não") with true. rewrite andb_true_l.
      destruct (existsb tem_auto_b acoes); reflexivity. }
    rewrite I1 in E1.
    eexists. exists c1. split; [exact E1|].
    assert (Ha1 : forallb acao_ok acoes1 = true).
    { rewrite <- I1. apply injected_ok. exact Ha. }
    assert (T1 : existsb tem_auto_b acoes1 = true).
    { unfold acoes1. destruct (existsb tem_auto_b acoes) eqn:E; [exact E|].
      rewrite existsb_app. simpl existsb.
      change (tem_auto_b auto) with (tem_auto_b (acao_auto prazo)).
      rewrite acao_auto_tem_auto. rewrite orb_true_l, orb_true_r.
      reflexivity. }
    assert (Hno : injects payload acoes1 = true ->
                  date_add_days (today clk') 30 = Ok prazo).
    { unfold injects. rewrite T1, andb_false_r. discriminate. }
    destruct (validar_payload_result clk' payload whys c1 acoes1 prazo
                Hw Hc1 Ha1 Hno) as [l2 [c2 [E2 _]]].
    assert (I2 : injected payload acoes1 prazo = acoes1).
    { unfold injected. rewrite T1, andb_false_r. reflexivity. }
    rewrite I2 in E2.
    eexists. exists c2. exact E2. }
  split.
  - exact (G [] eq_refl).
  - intros acoes Ha carries acoes1. exact (G acoes Ha).
Qed.

End ValidatorFacts.

(** ** Schema store *)

Section SchemaFacts.

Context {PF : PyFloat}.

Lemma migrate_spec (refuses : string -> bool) (existing : list string)
  (cols : list (string * string)) (t : table) (tried : list string) :
  migrate refuses existing cols t tried
  = (mktable (tbl_columns t ++ added_before refuses (missing existing cols))
       (tbl_rows t) (tbl_seq t),
     (tried ++ attempted refuses (missing existing cols))%list,
     if existsb refuses (missing existing cols)
     then Some OperationalError else None).
Proof.
  revert t tried. induction cols as [|[col typ] r IH]; intros t tried.
  - simpl. rewrite !app_nil_r. destruct t; reflexivity.
  - unfold missing in *. simpl.
    destruct (mem col existing); simpl.
    + apply IH.
    + unfold add_column. destruct (refuses col); simpl.
      * rewrite app_nil_r. destruct t; reflexivity.
      * rewrite IH. simpl. rewrite <- !app_assoc. reflexivity.
Qed.

Lemma added_before_all (refuses : string -> bool) (ms : list string) :
  existsb refuses ms = false -> added_before refuses ms = ms.
Proof.
  induction ms as [|c r IH]; simpl; auto.
  destruct (refuses c); simpl; [discriminate|].
  intros H. rewrite IH; auto.
Qed.

Lemma attempted_all (refuses : string -> bool) (ms : list string) :
  existsb refuses ms = false -> attempted refuses ms = ms.
Proof.
  induction ms as [|c r IH]; simpl; auto.
  destruct (refuses c); simpl; [discriminate|].
  intros H. rewrite IH; auto.
Qed.

Lemma added_before_stop (refuses : string -> bool) (l1 l2 : list string)
  (c : string) :
  existsb refuses l1 = false -> refuses c = true ->
  added_before refuses (l1 ++ c :: l2) = l1
  /\ attempted refuses (l1 ++ c :: l2) = (l1 ++ [c])%list
  /\ existsb refuses (l1 ++ c :: l2) = true.
Proof.
  intros H1 Hc. induction l1 as [|x r IH]; simpl in *.
  - rewrite Hc. auto.
  - destruct (refuses x); [discriminate|]. simpl in *.
    destruct (IH H1) as [A [B C]]. rewrite A, B, C. auto.
Qed.

(** C4, as amended: the migration has no handler around its statements, so
    the first column the engine refuses ends [ensure_schema] with the
    engine's exception: the statement was issued for the missing columns up
    to that one and for none after it, the columns before it are added, and
    the rows, the id counter and every column the table had are kept. When
    nothing is refused every missing registry column is added. *)
Theorem ensure_schema_stops_at_first_failure (refuses : string -> bool)
  (db : option table) (l1 l2 : list string) (c : string) :
  let t0 := table_before db in
  (missing (tbl_columns t0) new_cols = (l1 ++ c :: l2)%list ->
   existsb refuses l1 = false -> refuses c = true ->
   ensure_schema refuses db
   = (mktable (tbl_columns t0 ++ l1) (tbl_rows t0) (tbl_seq t0),
      (l1 ++ [c])%list, Some OperationalError))
  /\ (existsb refuses (missing (tbl_columns t0) new_cols) = false ->
      ensure_schema refuses db
      = (mktable (tbl_columns t0 ++ missing (tbl_columns t0) new_cols)
           (tbl_rows t0) (tbl_seq t0),
         missing (tbl_columns t0) new_cols, None)).
Proof.
  intros t0.
  assert (E : ensure_schema refuses db
              = migrate refuses (tbl_columns t0) new_cols t0 []).
  { unfold ensure_schema, t0, table_before. destruct db; reflexivity. }
  rewrite E, migrate_spec. split.
  - intros Hm H1 Hc. rewrite Hm.
    destruct (added_before_stop refuses l1 l2 c H1 Hc) as [A [B C]].
    rewrite A, B, C. reflexivity.
  - intros H. rewrite H, added_before_all, attempted_all by exact H.
    reflexivity.
Qed.

End SchemaFacts.

(** ** Persistence / audit writer *)

Section PersistFacts.

Context {PF : PyFloat} {PL : PyLibs}.

Lemma linha_db_keys (clk : clock) (payload : dict) (img : pyval)
  (tag : string) (upd : bool) (tempo : float) (per : Z)
  (ws acs cs : string) :
  map fst (linha_db clk payload img tag upd tempo per ws acs cs) = DB_COLUMNS.
Proof. reflexivity. Qed.

Lemma montar_of_conversions (clk : clock) (payload : dict) (img : pyval)
  (tag : string) (upd : bool) (tempo : float) (per : Z)
  (ws acs cs : string) :
  conversions payload tempo per ws acs cs ->
  _montar_db_payload clk payload img tag upd
  = Ok (linha_db clk payload img tag upd tempo per ws acs cs).
Proof.
  intros [H1 H2 H3 H4 H5]. unfold _montar_db_payload.
  rewrite H1, bind_Ok, H2, bind_Ok, H3, bind_Ok, H4, bind_Ok, H5, bind_Ok.
  reflexivity.
Qed.

Lemma montar_inv (clk : clock) (payload : dict) (img : pyval)
  (tag : string) (upd : bool) (p : dict) :
  _montar_db_payload clk payload img tag upd = Ok p ->
  exists tempo per ws acs cs,
    conversions payload tempo per ws acs cs
    /\ p = linha_db clk payload img tag upd tempo per ws acs cs.
Proof.
  unfold _montar_db_payload.
  destruct (py_float _) as [tempo|] eqn:H1; [|discriminate].
  rewrite bind_Ok.
  destruct (py_int _) as [per|] eqn:H2; [|discriminate].
  rewrite bind_Ok.
  destruct (json_dumps (nested_of payload "_whys_grid" _)) as [ws|] eqn:H3;
    [|discriminate].
  rewrite bind_Ok.
  destruct (json_dumps (nested_of payload "_acoes_lista" _)) as [acs|] eqn:H4;
    [|discriminate].
  rewrite bind_Ok.
  destruct (json_dumps (nested_of payload "_causas_linhas" _)) as [cs|] eqn:H5;
    [|discriminate].
  rewrite bind_Ok. intros E. injection E as E. subst p.
  exists tempo, per, ws, acs, cs. split; [constructor; assumption|].
  reflexivity.
Qed.

(** *** Binding and writing *)

Lemma bind_params_inv (t : table) (p b : dict) :
  bind_params t p = Ok b ->
  bound_of p b
  /\ forallb (fun kv : string * pyval => mem (fst kv) (tbl_columns t)) p
     = true.
Proof.
  revert b. induction p as [|[k v] r IH]; simpl; intros b H.
  - injection H as H. subst b. split; [constructor | reflexivity].
  - destruct (mem k (tbl_columns t)); [|discriminate].
    destruct (sql_adapt v) as [v'|] eqn:Ev; [|discriminate].
    rewrite bind_Ok in H.
    destruct (bind_params t r) as [r'|] eqn:Er; [|discriminate].
    rewrite bind_Ok in H. injection H as H. subst b.
    destruct (IH r' eq_refl) as [HF Hm].
    split; [|exact Hm].
    constructor; [split; [reflexivity | exact Ev] | exact HF].
Qed.

Lemma bind_params_ok (t : table) (p : dict) :
  forallb (fun kv : string * pyval =>
             mem (fst kv) (tbl_columns t) && is_ok (sql_adapt (snd kv))) p
  = true ->
  exists b, bind_params t p = Ok b.
Proof.
  induction p as [|[k v] r IH]; simpl; intros H.
  - eexists. reflexivity.
  - apply andb_true_iff in H. destruct H as [Hkv Hr].
    apply andb_true_iff in Hkv. destruct Hkv as [Hk Hv].
    rewrite Hk. destruct (sql_adapt v) as [v'|]; [|discriminate].
    rewrite bind_Ok. destruct (IH Hr) as [r' Er]. rewrite Er, bind_Ok.
    eexists. reflexivity.
Qed.

Lemma bound_of_get (p b : dict) (k : string) :
  bound_of p b -> has_key p k = true ->
  has_key b k = true /\ sql_adapt (dict_get p k) = Ok (dict_get b k).
Proof.
  unfold dict_get.
  induction 1 as [|[k0 v0] [k1 v1] p' b' [Hk Hv] HF IH]; simpl;
    intros Hh; [discriminate|].
  simpl in Hk, Hv. subst k1.
  destruct (String.eqb k0 k); simpl.
  - split; [reflexivity | exact Hv].
  - apply IH. exact Hh.
Qed.

Lemma bound_of_keys (p b : dict) :
  bound_of p b -> map fst b = map fst p.
Proof.
  induction 1 as [|kv kv' p' b' [Hk _] HF IH]; simpl; [reflexivity|].
  rewrite Hk, IH. reflexivity.
Qed.

Lemma has_key_In (d : dict) (k : string) :
  has_key d k = true <-> In k (map fst d).
Proof.
  unfold has_key. rewrite existsb_exists. split.
  - intros [[k0 v0] [Hin He]]. simpl in He. apply String.eqb_eq in He.
    subst k0. apply in_map_iff. exists (k, v0). auto.
  - intros Hin. apply in_map_iff in Hin. destruct Hin as [[k0 v0] [E Hin]].
    simpl in E. subst k0. exists (k, v0). split; auto.
    simpl. apply String.eqb_refl.
Qed.

Lemma dict_update_get (r b : dict) (k : string) :
  NoDup (map fst b) ->
  dict_get (dict_update r b) k
  = if has_key b k then dict_get b k else dict_get r k.
Proof.
  unfold dict_update. revert r.
  induction b as [|[k0 v0] b' IH]; intros r Hnd; simpl.
  - reflexivity.
  - inversion Hnd as [|x l Hnot Hnd']. subst x l.
    rewrite (IH _ Hnd'). rewrite dict_get_set.
    change (has_key ((k0, v0) :: b') k)
      with (String.eqb k0 k || has_key b' k).
    change (dict_get ((k0, v0) :: b') k)
      with (if String.eqb k0 k then v0 else dict_get b' k).
    destruct (String.eqb k0 k) eqn:E; simpl.
    + apply String.eqb_eq in E. subst k0.
      destruct (has_key b' k) eqn:Hk; [|reflexivity].
      apply has_key_In in Hk. contradiction.
    + reflexivity.
Qed.

Lemma not_in_by_mem (k : string) (l : list string) :
  mem k l = false -> ~ In k l.
Proof.
  unfold mem. intros H Hin.
  assert (E : existsb (String.eqb k) l = true).
  { apply existsb_exists. exists k. split; auto. apply String.eqb_refl. }
  rewrite E in H. discriminate.
Qed.

Lemma db_columns_nodup : NoDup DB_COLUMNS.
Proof.
  assert (E : nodup string_dec DB_COLUMNS = DB_COLUMNS)
    by (vm_compute; reflexivity).
  rewrite <- E. apply NoDup_nodup.
Qed.

Lemma read_row_get (cols : list string) (r : dict) (k : string) :
  dict_get (read_row cols r) k = if mem k cols then dict_get r k else VNone.
Proof.
  unfold read_row, dict_get, mem.
  induction cols as [|c cs IH]; simpl; [reflexivity|].
  rewrite (String.eqb_sym k c).
  destruct (String.eqb c k) eqn:E; simpl.
  - apply String.eqb_eq in E. subst c. reflexivity.
  - exact IH.
Qed.

Lemma select_by_id_find (t : table) (id : Z) :
  select_by_id t id
  = match find_row (tbl_rows t) id with
    | None => None
    | Some r => Some (read_row (tbl_columns t) r)
    end.
Proof.
  unfold select_by_id, find_row.
  destruct (filter _ (tbl_rows t)); reflexivity.
Qed.

Lemma find_row_map (rows : list dict) (id : Z) (f : dict -> dict) (r : dict) :
  (forall x, row_id (f x) = row_id x) ->
  find_row rows id = Some r ->
  find_row (map (fun x => if eq_int (row_id x) id then f x else x) rows) id
  = Some (f r).
Proof.
  intros Hid. unfold find_row.
  induction rows as [|x xs IH]; simpl; [discriminate|].
  destruct (eq_int (row_id x) id) eqn:E; simpl.
  - rewrite Hid, E. intros H. injection H as H. subst x. reflexivity.
  - rewrite E. exact IH.
Qed.

(** *** What an update leaves in the row *)

Lemma bound_no_id (p b : dict) :
  bound_of p b -> map fst p = DB_COLUMNS -> has_key b "id" = false.
Proof.
  intros Hb Hp. destruct (has_key b "id") eqn:E; [|reflexivity].
  apply has_key_In in E. rewrite (bound_of_keys _ _ Hb), Hp in E.
  exfalso. revert E. apply not_in_by_mem. reflexivity.
Qed.

Lemma dict_update_row_id (r b p : dict) :
  bound_of p b -> map fst p = DB_COLUMNS ->
  row_id (dict_update r b) = row_id r.
Proof.
  intros Hb Hp. unfold row_id. rewrite dict_update_get.
  - rewrite (bound_no_id _ _ Hb Hp). reflexivity.
  - rewrite (bound_of_keys _ _ Hb), Hp. apply db_columns_nodup.
Qed.

(** A successful update: the row with the given id reads back, column by
    column of [DB_COLUMNS], as the bound value of the row
    [_montar_db_payload] built. *)
Lemma atualizar_bda_row (clk : clock) (t t' : table) (id : Z)
  (payload : dict) (tag : string) (img0 : pyval) (r0 : dict) :
  atualizar_bda clk t id payload tag img0 = Ok t' ->
  find_row (tbl_rows t) id = Some r0 ->
  exists img tempo per ws acs cs r,
    imagem_do_update payload img0 = Ok img
    /\ conversions payload tempo per ws acs cs
    /\ select_by_id t' id = Some r
    /\ forall k, In k DB_COLUMNS ->
         sql_adapt
           (dict_get (linha_db clk payload img tag true tempo per ws acs cs)
              k)
         = Ok (dict_get r k).
Proof.
  unfold atualizar_bda. intros H Hr0.
  fold (imagem_do_update payload img0) in H.
  destruct (imagem_do_update payload img0) as [img|] eqn:Ei; [|discriminate].
  rewrite bind_Ok in H.
  destruct (_montar_db_payload clk payload img tag true) as [p|] eqn:Em;
    [|discriminate].
  rewrite bind_Ok in H.
  destruct (montar_inv _ _ _ _ _ _ Em) as [tempo [per [ws [acs [cs [Hc Ep]]]]]].
  unfold sql_update in H.
  destruct (bind_params t p) as [b|] eqn:Eb; [|discriminate].
  rewrite bind_Ok in H. injection H as H. subst t'.
  destruct (bind_params_inv _ _ _ Eb) as [Hb Hcols].
  assert (Hkeys : map fst p = DB_COLUMNS) by (subst p; apply linha_db_keys).
  exists img, tempo, per, ws, acs, cs.
  exists (read_row (tbl_columns t) (dict_update r0 b)).
  split; [reflexivity|]. split; [exact Hc|]. split.
  - rewrite select_by_id_find. simpl tbl_rows. simpl tbl_columns.
    rewrite (find_row_map (tbl_rows t) id (fun x => dict_update x b) r0);
      auto.
    intros x. apply (dict_update_row_id x b p Hb Hkeys).
  - intros k Hk. rewrite read_row_get.
    assert (Hp : has_key p k = true)
      by (apply has_key_In; rewrite Hkeys; exact Hk).
    assert (Hm : mem k (tbl_columns t) = true).
    { rewrite forallb_forall in Hcols.
      apply has_key_In in Hp. apply in_map_iff in Hp.
      destruct Hp as [[k0 v0] [E Hin]]. simpl in E. subst k0.
      apply (Hcols _ Hin). }
    rewrite Hm, dict_update_get.
    + destruct (bound_of_get _ _ k Hb Hp) as [Hbk Hv].
      rewrite Hbk. rewrite <- Ep. exact Hv.
    + rewrite (bound_of_keys _ _ Hb), Hkeys. apply db_columns_nodup.
Qed.

(** *** When a write succeeds *)

Lemma json_dumps_list (l : list pyval) :
  json_dumps (VList l)
  = (items <- dumps_items l ;; Ok ("[" ++ join ", " items ++ "]")).
Proof. reflexivity. Qed.

Lemma json_dumps_dict (kvs : list (string * pyval)) :
  json_dumps (VDict kvs)
  = (items <- dumps_pairs kvs ;; Ok ("{" ++ join ", " items ++ "}")).
Proof. reflexivity. Qed.

Lemma serializable_list (l : list pyval) :
  serializable (VList l) = all_serializable l.
Proof. reflexivity. Qed.

Lemma serializable_dict (kvs : list (string * pyval)) :
  serializable (VDict kvs) = all_values_serializable kvs.
Proof. reflexivity. Qed.

Lemma json_dumps_ok :
  forall v, serializable v = true -> exists s, json_dumps v = Ok s.
Proof.
  fix IH 1. intros v.
  destruct v as [| b | z | f | s | d | t | d t | l | kvs | n];
    try (intros _; eexists; reflexivity); try (intros H; discriminate H).
  - rewrite serializable_list, json_dumps_list. intros H.
    assert (Hl : exists items, dumps_items l = Ok items).
    { induction l as [|x r IHl].
      - eexists. reflexivity.
      - simpl in H. apply andb_true_iff in H. destruct H as [Hx Hr].
        destruct (IH x Hx) as [sx Ex]. destruct (IHl Hr) as [sr Er].
        simpl. rewrite Ex, bind_Ok, Er, bind_Ok. eexists. reflexivity. }
    destruct Hl as [items El]. rewrite El, bind_Ok. eexists. reflexivity.
  - rewrite serializable_dict, json_dumps_dict. intros H.
    assert (Hl : exists items, dumps_pairs kvs = Ok items).
    { induction kvs as [|[k x] r IHl].
      - eexists. reflexivity.
      - simpl in H. apply andb_true_iff in H. destruct H as [Hx Hr].
        destruct (IH x Hx) as [sx Ex]. destruct (IHl Hr) as [sr Er].
        simpl. rewrite Ex, bind_Ok, Er, bind_Ok. eexists. reflexivity. }
    destruct Hl as [items El]. rewrite El, bind_Ok. eexists. reflexivity.
Qed.

Lemma float_or_null_conv (v : pyval) :
  float_or_null v = true ->
  exists f, py_float (py_or v (VFloat float_zero)) = Ok f.
Proof.
  destruct v; try discriminate; intros _; unfold py_or; simpl.
  - eexists. reflexivity.
  - destruct (float_bool f); eexists; reflexivity.
Qed.

Lemma int64_or_null_conv (v : pyval) :
  int64_or_null v = true ->
  exists z, py_int (py_or v (VInt 0)) = Ok z
            /\ (- 2 ^ 63 <=? z) && (z <? 2 ^ 63) = true.
Proof.
  destruct v; try discriminate; unfold py_or; simpl.
  - intros _. exists 0. split; reflexivity.
  - intros H. destruct (z =? 0); simpl.
    + exists 0. split; reflexivity.
    + exists z. split; [reflexivity | exact H].
Qed.

Lemma str_if_text (payload : dict) (k : string) :
  text_or_null (str_if payload k) = true.
Proof. unfold str_if. destruct (truthy (dict_get payload k)); reflexivity. Qed.

Lemma text_or_null_bindable (v : pyval) :
  text_or_null v = true -> is_ok (sql_adapt v) = true.
Proof. destruct v; try discriminate; reflexivity. Qed.

Lemma writable_inv (payload : dict) :
  writable payload = true ->
  forallb (fun k => text_or_null (dict_get payload k)) copied_fields = true
  /\ float_or_null (dict_get payload "tempo_reparo_h") = true
  /\ int64_or_null (dict_get payload "periodicidade_dias") = true
  /\ serializable (nested_of payload "_whys_grid" "cinco_porques_grid")
     = true
  /\ serializable (nested_of payload "_acoes_lista" "acoes_lista") = true
  /\ serializable (nested_of payload "_causas_linhas" "causas_linhas")
     = true.
Proof.
  unfold writable. rewrite !andb_true_iff. tauto.
Qed.

Lemma writable_conversions (payload : dict) :
  writable payload = true ->
  exists tempo per ws acs cs,
    conversions payload tempo per ws acs cs
    /\ (- 2 ^ 63 <=? per) && (per <? 2 ^ 63) = true.
Proof.
  intros H. destruct (writable_inv _ H) as [_ [H1 [H2 [H3 [H4 H5]]]]].
  destruct (float_or_null_conv _ H1) as [tempo Ht].
  destruct (int64_or_null_conv _ H2) as [per [Hp Hr]].
  destruct (json_dumps_ok _ H3) as [ws Hw].
  destruct (json_dumps_ok _ H4) as [acs Ha].
  destruct (json_dumps_ok _ H5) as [cs Hc].
  exists tempo, per, ws, acs, cs. split; [constructor; assumption | exact Hr].
Qed.

Lemma migrated_mem (t : table) (k : string) :
  migrated t = true -> In k DB_COLUMNS -> mem k (tbl_columns t) = true.
Proof.
  unfold migrated. rewrite forallb_forall. intros H Hk. apply H. exact Hk.
Qed.

Lemma copied_text (payload : dict) (k : string) :
  writable payload = true -> mem k copied_fields = true ->
  is_ok (sql_adapt (dict_get payload k)) = true.
Proof.
  intros H Hk. destruct (writable_inv _ H) as [Ht _].
  rewrite forallb_forall in Ht. apply text_or_null_bindable, Ht.
  unfold mem in Hk. apply existsb_exists in Hk. destruct Hk as [x [Hin E]].
  apply String.eqb_eq in E. subst x. exact Hin.
Qed.

(** The row of a writable payload can be bound on a migrated table. *)
Lemma linha_db_bindable (clk : clock) (t : table) (payload : dict)
  (img : pyval) (tag : string) (upd : bool) (tempo : float) (per : Z)
  (ws acs cs : string) :
  writable payload = true -> migrated t = true ->
  text_or_null img = true ->
  (- 2 ^ 63 <=? per) && (per <? 2 ^ 63) = true ->
  exists b,
    bind_params t (linha_db clk payload img tag upd tempo per ws acs cs)
    = Ok b.
Proof.
  intros Hw Hm Hi Hp. apply bind_params_ok.
  apply forallb_forall. intros [k v] Hin. simpl fst. simpl snd.
  apply andb_true_iff. split.
  - apply (migrated_mem _ _ Hm).
    rewrite <- (linha_db_keys clk payload img tag upd tempo per ws acs cs).
    apply in_map_iff. exists (k, v). auto.
  - unfold linha_db in Hin. simpl in Hin.
    repeat (destruct Hin as [Hin | Hin];
            [injection Hin as Ek Ev; subst k v;
             first [ apply (copied_text _ _ Hw); reflexivity
                   | apply text_or_null_bindable, str_if_text
                   | apply text_or_null_bindable; exact Hi
                   | reflexivity
                   | idtac ] |]);
      try contradiction.
    + unfold sql_adapt. rewrite Hp. reflexivity.
    + destruct upd; reflexivity.
    + destruct upd; reflexivity.
    + destruct upd; reflexivity.
Qed.

Lemma atualizar_bda_ok (clk : clock) (t : table) (id : Z) (payload : dict)
  (tag : string) (img0 : pyval) :
  writable payload = true -> migrated t = true ->
  image_ready payload img0 = true ->
  exists t', atualizar_bda clk t id payload tag img0 = Ok t'.
Proof.
  intros Hw Hm Hi. unfold atualizar_bda.
  fold (imagem_do_update payload img0). unfold image_ready in Hi.
  destruct (imagem_do_update payload img0) as [img|]; [|discriminate].
  rewrite bind_Ok.
  destruct (writable_conversions _ Hw)
    as [tempo [per [ws [acs [cs [Hc Hr]]]]]].
  rewrite (montar_of_conversions clk payload img tag true _ _ _ _ _ Hc).
  rewrite bind_Ok. unfold sql_update.
  destruct (linha_db_bindable clk t payload img tag true tempo per ws acs cs
              Hw Hm Hi Hr) as [b Eb].
  rewrite Eb, bind_Ok. eexists. reflexivity.
Qed.

Lemma select_find (t : table) (id : Z) (r : dict) :
  select_by_id t id = Some r -> exists r0, find_row (tbl_rows t) id = Some r0.
Proof.
  rewrite select_by_id_find.
  destruct (find_row (tbl_rows t) id) as [r0|]; [|discriminate].
  intros _. exists r0. reflexivity.
Qed.

Lemma adapt_none_inv (v : pyval) : sql_adapt VNone = Ok v -> v = VNone.
Proof. intros H. injection H as H. auto. Qed.

Lemma adapt_str_inv (s : string) (v : pyval) :
  sql_adapt (VStr s) = Ok v -> v = VStr s.
Proof. intros H. injection H as H. auto. Qed.

(** What every successful update leaves in the row it addresses: NULL in
    the legacy columns and in [criado_por], the caller in [atualizado_por],
    the clock in [atualizado_em]. *)
Lemma atualizar_bda_effect (clk : clock) (t t' : table) (id : Z)
  (payload : dict) (tag : string) (img0 : pyval) (r0 : dict) :
  atualizar_bda clk t id payload tag img0 = Ok t' ->
  select_by_id t id = Some r0 ->
  exists r,
    select_by_id t' id = Some r
    /\ (forall c, In c legacy_columns -> dict_get r c = VNone)
    /\ dict_get r "criado_por" = VNone
    /\ dict_get r "atualizado_por" = VStr tag
    /\ dict_get r "atualizado_em" = VStr (now_ts clk).
Proof.
  intros H Hs. destruct (select_find _ _ _ Hs) as [r1 Hf].
  destruct (atualizar_bda_row clk t t' id payload tag img0 r1 H Hf)
    as [img [tempo [per [ws [acs [cs [r [_ [_ [Hsel Hget]]]]]]]]]].
  exists r. split; [exact Hsel|].
  assert (Hin : forall k, mem k DB_COLUMNS = true -> In k DB_COLUMNS).
  { intros k Hk. unfold mem in Hk. apply existsb_exists in Hk.
    destruct Hk as [x [Hx E]]. apply String.eqb_eq in E. subst x. exact Hx. }
  split; [|split; [|split]].
  - intros c Hc. apply adapt_none_inv.
    assert (Hv : dict_get (linha_db clk payload img tag true tempo per ws
                             acs cs) c = VNone
                 /\ mem c DB_COLUMNS = true).
    { simpl in Hc.
      repeat (destruct Hc as [Hc | Hc];
              [subst c; split; reflexivity|]).
      contradiction. }
    destruct Hv as [Hv Hm]. rewrite <- Hv at 1. apply Hget, Hin, Hm.
  - apply adapt_none_inv. exact (Hget "criado_por" (Hin "criado_por" eq_refl)).
  - apply (adapt_str_inv tag).
    exact (Hget "atualizado_por" (Hin "atualizado_por" eq_refl)).
  - apply (adapt_str_inv (now_ts clk)).
    exact (Hget "atualizado_em" (Hin "atualizado_em" eq_refl)).
Qed.

(** C9: an update of a stored row with a payload shaped as the form returns
    it, on a migrated table, succeeds and leaves NULL in every legacy-only
    column of that row, whatever the row held before. *)
Theorem atualizar_bda_nulls_legacy (clk : clock) (t : table) (id : Z)
  (payload : dict) (tag : string) (img0 : pyval) (r0 : dict) :
  writable payload = true ->
  migrated t = true ->
  image_ready payload img0 = true ->
  select_by_id t id = Some r0 ->
  exists t' r,
    atualizar_bda clk t id payload tag img0 = Ok t'
    /\ select_by_id t' id = Some r
    /\ forall c, In c legacy_columns -> dict_get r c = VNone.
Proof.
  intros Hw Hm Hi Hs.
  destruct (atualizar_bda_ok clk t id payload tag img0 Hw Hm Hi) as [t' E].
  destruct (atualizar_bda_effect clk t t' id payload tag img0 r0 E Hs)
    as [r [Hsel [Hleg _]]].
  exists t', r. auto.
Qed.

(** *** The plan fields *)

Lemma all_filled_among (values : dict) (lbls : list (string * string)) :
  forallb (fun e => mem e (campo_msgs lbls (map fst values)))
    (all_filled values lbls) = true.
Proof.
  apply forallb_forall. intros e He.
  unfold mem. apply existsb_exists. exists e. split; [|apply String.eqb_refl].
  unfold campo_msgs. apply in_map_iff.
  induction values as [|[k v] r IH]; [contradiction|].
  rewrite all_filled_cons in He. apply in_app_or in He.
  destruct He as [He | He].
  - exists k. split; [|left; reflexivity].
    unfold campo_erro in He.
    destruct (is_none v).
    + destruct He as [He | []]. exact He.
    + destruct v; try contradiction.
      destruct (blank s); [|contradiction].
      destruct He as [He | []]. exact He.
  - destruct (IH He) as [k' [E Hin]]. exists k'. split; [exact E|].
    right. exact Hin.
Qed.

Lemma plan_msg_not_event (payload : dict) (m : string) :
  In m plan_msgs ->
  ~ In m (all_filled (obrig_evento_vals payload) labels).
Proof.
  intros Hm.
  apply (not_in_by
           (fun e => mem e (campo_msgs labels
                              (map fst (obrig_evento_vals payload))))).
  - apply all_filled_among.
  - unfold plan_msgs in Hm. simpl in Hm.
    repeat (destruct Hm as [Hm | Hm]; [subst m; vm_compute; reflexivity|]).
    contradiction.
Qed.

Lemma plan_msg_not_linha (m : string) (linhas : list string) :
  In m plan_msgs -> forallb linha_msg linhas = true -> ~ In m linhas.
Proof.
  intros Hm Hl. apply (not_in_by linha_msg); [exact Hl|].
  unfold plan_msgs in Hm. simpl in Hm.
  repeat (destruct Hm as [Hm | Hm]; [subst m; vm_compute; reflexivity|]).
  contradiction.
Qed.

Lemma plan_msg_not_global (m : string) :
  In m plan_msgs -> m <> msg_whys /\ m <> msg_acoes.
Proof.
  intros Hm. unfold plan_msgs in Hm. simpl in Hm.
  repeat (destruct Hm as [Hm | Hm];
          [subst m; split; intros E; apply String.eqb_eq in E;
           vm_compute in E; discriminate E|]).
  contradiction.
Qed.

(** C5, as amended: when the plan-existence flag is "Não", validation of
    readable input reports no plan field, whatever the plan values are; the
    writer does not clear them: every row it builds holds the payload's own
    plan reference, description, last executor and status, the periodicity
    as [int(value or 0)] and the last-performed date as its text (or NULL),
    and it does build a row for a payload shaped as the form returns it.
    (The form is what hands over empty plan values in that case.) *)
Theorem no_plan_fields_unchecked_and_stored (clk : clock) (payload : dict)
  (whys causas acoes : list pyval) (prazo : pydate) (img : pyval)
  (tag : string) (upd : bool) :
  dict_get payload "existe_plano" = VStr "Não" ->
  forallb row_ok whys = true ->
  forallb is_dict causas = true ->
  forallb acao_ok acoes = true ->
  date_add_days (today clk) 30 = Ok prazo ->
  (exists erros causas' acoes',
     validar_payload clk payload whys causas acoes
     = Ok (erros, causas', acoes')
     /\ forall m, In m plan_msgs -> ~ In m erros)
  /\ (writable payload = true ->
      exists p per,
        _montar_db_payload clk payload img tag upd = Ok p
        /\ (forall k, In k plan_text_fields ->
                      dict_get p k = dict_get payload k)
        /\ py_int (py_or (dict_get payload "periodicidade_dias") (VInt 0))
           = Ok per
        /\ dict_get p "periodicidade_dias" = VInt per
        /\ dict_get p "ultima_realizacao"
           = str_if payload "ultima_realizacao")
  /\ (forall p,
        _montar_db_payload clk payload img tag upd = Ok p ->
        (forall k, In k plan_text_fields ->
                   dict_get p k = dict_get payload k)
        /\ (exists per,
              py_int (py_or (dict_get payload "periodicidade_dias") (VInt 0))
              = Ok per
              /\ dict_get p "periodicidade_dias" = VInt per)
        /\ dict_get p "ultima_realizacao"
           = str_if payload "ultima_realizacao").
Proof.
  intros Hn Hw Hc Ha Hp. split; [|split].
  - destruct (validar_payload_result clk payload whys causas acoes prazo
                Hw Hc Ha (fun _ => Hp)) as [linhas [causas' [E [Hl _]]]].
    eexists. exists causas', (injected payload acoes prazo).
    split; [exact E|].
    intros m Hm Hin. rewrite Hn in Hin.
    change (eq_str (VStr "Não") "Sim") with false in Hin.
    destruct (plan_msg_not_global m Hm) as [N1 N2].
    apply in_app_or in Hin. destruct Hin as [Hin | Hin];
      [exact (plan_msg_not_event payload m Hm Hin)|].
    apply in_app_or in Hin. destruct Hin as [Hin | Hin]; [destruct Hin|].
    apply in_app_or in Hin. destruct Hin as [Hin | Hin];
      [exact (plan_msg_not_linha m linhas Hm Hl Hin)|].
    apply in_app_or in Hin. destruct Hin as [Hin | Hin].
    + destruct (deep_rows whys <? 1); [|destruct Hin].
      destruct Hin as [Hin | []]. congruence.
    + destruct (length (filter valida (injected payload acoes prazo)) <? 1)%nat;
        [|destruct Hin].
      destruct Hin as [Hin | []]. congruence.
  - intros Hwr. destruct (writable_conversions _ Hwr)
      as [tempo [per [ws [acs [cs [Hconv _]]]]]].
    exists (linha_db clk payload img tag upd tempo per ws acs cs), per.
    split; [apply montar_of_conversions; exact Hconv|].
    split; [|split; [apply Hconv | split; reflexivity]].
    intros k Hk. simpl in Hk.
    repeat (destruct Hk as [Hk | Hk]; [subst k; reflexivity|]).
    contradiction.
  - intros p Em.
    destruct (montar_inv _ _ _ _ _ _ Em)
      as [tempo [per [ws [acs [cs [Hconv Ep]]]]]].
    subst p. split; [|split].
    + intros k Hk. simpl in Hk.
      repeat (destruct Hk as [Hk | Hk]; [subst k; reflexivity|]).
      contradiction.
    + exists per. split; [apply Hconv | reflexivity].
    + reflexivity.
Qed.

End PersistFacts.

(** ** Insert, read back, normalise *)

Section RoundTripFacts.

Context {PF : PyFloat} {PL : PyLibs}.

(** *** The row an insert adds *)

Lemma find_row_fresh (rows : list dict) (id : Z) (row : dict) :
  forallb (fun r => negb (eq_int (row_id r) id)) rows = true ->
  row_id row = VInt id ->
  find_row (rows ++ [row]) id = Some row.
Proof.
  intros Hf Hid. unfold find_row. rewrite filter_app.
  assert (E : filter (fun r => eq_int (row_id r) id) rows = []).
  { induction rows as [|x r IH]; [reflexivity|].
    simpl in Hf. apply andb_true_iff in Hf. destruct Hf as [Hx Hr].
    simpl. apply negb_true_iff in Hx. rewrite Hx. apply IH. exact Hr. }
  rewrite E. simpl. rewrite Hid. simpl. rewrite Z.eqb_refl. reflexivity.
Qed.

(** A successful insert: the new row reads back, column by column of
    [DB_COLUMNS], as the bound value of the row [_montar_db_payload]
    built. *)
Lemma inserir_bda_row (clk : clock) (t t' : table) (payload : dict)
  (tag : string) :
  inserir_bda clk t payload tag = Ok t' ->
  fresh_id t = true ->
  exists img tempo per ws acs cs r,
    imagem_do_insert payload = Ok img
    /\ conversions payload tempo per ws acs cs
    /\ select_by_id t' (tbl_seq t + 1) = Some r
    /\ forall k, In k DB_COLUMNS ->
         sql_adapt
           (dict_get (linha_db clk payload img tag false tempo per ws acs cs)
              k)
         = Ok (dict_get r k).
Proof.
  unfold inserir_bda. intros H Hfresh.
  fold (imagem_do_insert payload) in H.
  destruct (imagem_do_insert payload) as [img|] eqn:Ei; [|discriminate].
  rewrite bind_Ok in H.
  destruct (_montar_db_payload clk payload img tag false) as [p|] eqn:Em;
    [|discriminate].
  rewrite bind_Ok in H.
  destruct (montar_inv _ _ _ _ _ _ Em) as [tempo [per [ws [acs [cs [Hc Ep]]]]]].
  unfold sql_insert in H.
  destruct (bind_params t p) as [b|] eqn:Eb; [|discriminate].
  rewrite bind_Ok in H. cbv zeta in H. injection H as H. subst t'.
  destruct (bind_params_inv _ _ _ Eb) as [Hb Hcols].
  assert (Hkeys : map fst p = DB_COLUMNS) by (subst p; apply linha_db_keys).
  set (row0 := [("id", VInt (tbl_seq t + 1));
                ("created_at", VStr (current_timestamp clk))]).
  exists img, tempo, per, ws, acs, cs.
  exists (read_row (tbl_columns t) (dict_update row0 b)).
  split; [reflexivity|]. split; [exact Hc|]. split.
  - rewrite select_by_id_find. simpl tbl_rows. simpl tbl_columns.
    rewrite (find_row_fresh (tbl_rows t) (tbl_seq t + 1)
               (dict_update row0 b)).
    + reflexivity.
    + exact Hfresh.
    + rewrite (dict_update_row_id row0 b p Hb Hkeys). reflexivity.
  - intros k Hk. rewrite read_row_get.
    assert (Hp : has_key p k = true)
      by (apply has_key_In; rewrite Hkeys; exact Hk).
    assert (Hm : mem k (tbl_columns t) = true).
    { rewrite forallb_forall in Hcols.
      apply has_key_In in Hp. apply in_map_iff in Hp.
      destruct Hp as [[k0 v0] [E Hin]]. simpl in E. subst k0.
      apply (Hcols _ Hin). }
    rewrite Hm, dict_update_get.
    + destruct (bound_of_get _ _ k Hb Hp) as [Hbk Hv].
      rewrite Hbk. rewrite <- Ep. exact Hv.
    + rewrite (bound_of_keys _ _ Hb), Hkeys. apply db_columns_nodup.
Qed.

Lemma inserir_bda_ok (clk : clock) (t : table) (payload : dict)
  (tag : string) :
  writable payload = true -> migrated t = true ->
  upload_ready payload = true ->
  exists t', inserir_bda clk t payload tag = Ok t'.
Proof.
  intros Hw Hm Hi. unfold inserir_bda.
  fold (imagem_do_insert payload). unfold upload_ready in Hi.
  destruct (imagem_do_insert payload) as [img|]; [|discriminate].
  rewrite bind_Ok.
  destruct (writable_conversions _ Hw)
    as [tempo [per [ws [acs [cs [Hc Hr]]]]]].
  rewrite (montar_of_conversions clk payload img tag false _ _ _ _ _ Hc).
  rewrite bind_Ok. unfold sql_insert.
  destruct (linha_db_bindable clk t payload img tag false tempo per ws acs cs
              Hw Hm Hi Hr) as [b Eb].
  rewrite Eb, bind_Ok. eexists. reflexivity.
Qed.

(** *** Break times *)

Lemma below_In (n : nat) (z : Z) : 0 <= z < Z.of_nat n -> In z (below n).
Proof.
  intros H. unfold below. apply in_map_iff. exists (Z.to_nat z).
  split; [lia|]. apply in_seq. lia.
Qed.

Lemma pytime_eqb_eq (a b : pytime) : pytime_eqb a b = true -> a = b.
Proof.
  destruct a, b. unfold pytime_eqb. simpl.
  rewrite !andb_true_iff, !Z.eqb_eq. intros [[[-> ->] ->] ->]. reflexivity.
Qed.

Lemma every_whole_second_reads_back (clk : clock) :
  forallb
    (fun h =>
       forallb
         (fun m =>
            forallb (fun s => time_reads_back clk (mktime h m s 0))
              (below 60))
         (below 60))
    (below 24)
  = true.
Proof. vm_cast_no_check (eq_refl true). Qed.

(** [_parse_time] reads [str(t)] back as [t] when [t] is on a whole
    second. *)
Lemma _parse_time_str (clk : clock) (t : pytime) :
  whole_seconds t = true -> _parse_time clk (VStr (str_of_time t)) = t.
Proof.
  destruct t as [h m s u]. unfold whole_seconds. simpl.
  rewrite !andb_true_iff, !Z.leb_le, !Z.ltb_lt, Z.eqb_eq.
  intros [[[[[[H1 H2] H3] H4] H5] H6] ->].
  apply pytime_eqb_eq. fold (time_reads_back clk (mktime h m s 0)).
  pose proof (every_whole_second_reads_back clk) as E.
  rewrite forallb_forall in E.
  assert (Eh := E h (below_In 24 h ltac:(lia))).
  rewrite forallb_forall in Eh.
  assert (Em := Eh m (below_In 60 m ltac:(lia))).
  rewrite forallb_forall in Em.
  exact (Em s (below_In 60 s ltac:(lia))).
Qed.

(** *** What the normalizer reads *)

Lemma assign_get_other (d : dict) (k : string) (F : pyval -> pyval)
  (k' : string) :
  String.eqb k k' = false -> dict_get (assign d k F) k' = dict_get d k'.
Proof. intros E. rewrite assign_get, E. reflexivity. Qed.

Lemma typed_get_other (clk : clock) (dados : dict) (k : string) :
  mem k typed_keys = false ->
  dict_get (typed clk dados) k = dict_get dados k.
Proof.
  intros H. unfold mem, typed_keys in H. simpl in H.
  repeat rewrite (String.eqb_sym k) in H.
  repeat (apply orb_false_iff in H; destruct H as [?E H]).
  unfold typed. repeat (rewrite assign_get_other by assumption).
  reflexivity.
Qed.

(** A text field other than [existe_plano]: [None] becomes the empty
    text, anything else stays. *)
Lemma normalizar_text (clk : clock) (dados : dict) (k : string) :
  dados <> [] -> mem k text_fields = true ->
  String.eqb "existe_plano" k = false ->
  dict_get (normalizar_dados_bda clk dados) k
  = if is_none (dict_get dados k) then VStr "" else dict_get dados k.
Proof.
  intros Hne Hk He. rewrite (normalizar_stages clk Hne).
  rewrite with_existe_plano_get by exact He.
  rewrite fill_text_get, Hk. simpl andb.
  assert (Ht : mem k typed_keys = false).
  { unfold mem in Hk. apply existsb_exists in Hk.
    destruct Hk as [x [Hx E]]. apply String.eqb_eq in E. subst x.
    simpl in Hx.
    repeat (destruct Hx as [Hx | Hx]; [subst k; reflexivity|]).
    contradiction. }
  rewrite (typed_get_other clk dados k Ht). reflexivity.
Qed.

Lemma normalizar_existe_plano (clk : clock) (dados : dict) :
  dados <> [] ->
  eq_str (dict_get dados "existe_plano") "Sim"
  || eq_str (dict_get dados "existe_plano") "Não" = true ->
  dict_get (normalizar_dados_bda clk dados) "existe_plano"
  = dict_get dados "existe_plano".
Proof.
  intros Hne H. rewrite (normalizar_stages clk Hne).
  assert (E : dict_get (fill_text text_fields (typed clk dados))
                "existe_plano" = dict_get dados "existe_plano").
  { rewrite fill_text_get.
    rewrite (typed_get_other clk dados "existe_plano") by reflexivity.
    destruct (dict_get dados "existe_plano"); try discriminate H.
    rewrite andb_false_r. reflexivity. }
  unfold with_existe_plano. rewrite E, H. exact E.
Qed.

(** *** The round trip *)

Lemma adapt_float_inv (f : float) (v : pyval) :
  float_isnan f = false -> sql_adapt (VFloat f) = Ok v -> v = VFloat f.
Proof. intros N H. simpl in H. rewrite N in H. injection H as H. auto. Qed.

Lemma adapt_int_inv (z : Z) (v : pyval) :
  sql_adapt (VInt z) = Ok v -> v = VInt z.
Proof.
  unfold sql_adapt.
  destruct ((- 2 ^ 63 <=? z) && (z <? 2 ^ 63)); [|discriminate].
  intros H. injection H as H. auto.
Qed.

Lemma str_if_date (payload : dict) (k : string) (d : pydate) :
  dict_get payload k = VDate d -> str_if payload k = VStr (str_of_date d).
Proof. intros E. unfold str_if. rewrite E. reflexivity. Qed.

Lemma str_if_time (payload : dict) (k : string) (t : pytime) :
  dict_get payload k = VTime t -> str_if payload k = VStr (str_of_time t).
Proof. intros E. unfold str_if. rewrite E. reflexivity. Qed.

Lemma str_if_none (payload : dict) (k : string) :
  dict_get payload k = VNone -> str_if payload k = VNone.
Proof. intros E. unfold str_if. rewrite E. reflexivity. Qed.

Lemma In_mem (k : string) (l : list string) : In k l -> mem k l = true.
Proof.
  intros H. unfold mem. apply existsb_exists. exists k.
  split; [exact H | apply String.eqb_refl].
Qed.

(** C7, as amended: inserting a canonical record whose values the storage
    formats keep, on a migrated table whose next id is unused, when the
    image step succeeds, succeeds; the row stored under the fresh id,
    normalised, has every scalar field of the event and of the plan equal to
    the inserted one and the three nested lists equal to the inserted ones.
    The image reference and the audit fields are the insert's own: the
    creator is the caller, the updater fields are empty, and the image
    reference is empty when nothing was uploaded and the path
    [salvar_imagem] returned when a file was. *)
Theorem insert_then_normalize (clk clk' : clock) (t : table) (payload : dict)
  (tag : string) :
  writable payload = true ->
  migrated t = true ->
  fresh_id t = true ->
  upload_ready payload = true ->
  canonical payload ->
  exists t' r,
    inserir_bda clk t payload tag = Ok t'
    /\ select_by_id t' (tbl_seq t + 1) = Some r
    /\ (forall k, In k record_fields ->
          dict_get (normalizar_dados_bda clk' r) k = dict_get payload k)
    /\ dict_get (normalizar_dados_bda clk' r) "cinco_porques_grid"
       = nested_of payload "_whys_grid" "cinco_porques_grid"
    /\ dict_get (normalizar_dados_bda clk' r) "acoes_lista"
       = nested_of payload "_acoes_lista" "acoes_lista"
    /\ dict_get (normalizar_dados_bda clk' r) "causas_linhas"
       = nested_of payload "_causas_linhas" "causas_linhas"
    /\ dict_get (normalizar_dados_bda clk' r) "criado_por" = VStr tag
    /\ dict_get (normalizar_dados_bda clk' r) "atualizado_por" = VStr ""
    /\ dict_get (normalizar_dados_bda clk' r) "atualizado_em" = VStr ""
    /\ (dict_get payload "_imagem_upload" = VNone ->
        dict_get (normalizar_dados_bda clk' r) "caminho_imagem" = VStr "")
    /\ (forall n, dict_get payload "_imagem_upload" = VUpload n ->
          exists p, salvar_imagem n = Ok p
                    /\ dict_get (normalizar_dados_bda clk' r) "caminho_imagem"
                       = VStr p).
Proof.
  intros Hw Hm Hf Hu Hc.
  destruct (inserir_bda_ok clk t payload tag Hw Hm Hu) as [t' Hins].
  destruct (inserir_bda_row clk t t' payload tag Hins Hf)
    as [img [tempo [per [ws [acs [cs [r [Hi [Hcv [Hsel Hget]]]]]]]]]].
  exists t', r. split; [exact Hins|]. split; [exact Hsel|].
  set (L := linha_db clk payload img tag false tempo per ws acs cs) in *.
  assert (Hcol : forall k, mem k DB_COLUMNS = true ->
                           sql_adapt (dict_get L k) = Ok (dict_get r k)).
  { intros k Hk. apply Hget. unfold mem in Hk. apply existsb_exists in Hk.
    destruct Hk as [x [Hx E]]. apply String.eqb_eq in E. subst x. exact Hx. }
  assert (Hcriado : dict_get r "criado_por" = VStr tag).
  { apply adapt_str_inv. symmetry.
    rewrite <- (Hcol "criado_por" eq_refl). reflexivity. }
  assert (Hne : r <> []).
  { intros E. rewrite E in Hcriado. discriminate Hcriado. }
  destruct Hc as [Htext Hplano [d [Hd Hdr]] [tm [Htm Hts]] Hult
                    [f [Hfl [Hnan Hnz]]] [z Hz] Hjw Hja Hjc].
  destruct Hcv as [Ctempo Cper Cws Cacs Ccs].
  (* the text a copied field holds is what the row reads back *)
  assert (Hcopied : forall k s,
             mem k DB_COLUMNS = true -> dict_get L k = dict_get payload k ->
             dict_get payload k = VStr s -> dict_get r k = VStr s).
  { intros k s Hk HL Hp. apply adapt_str_inv. rewrite <- Hp, <- HL.
    apply Hcol. exact Hk. }
  split; [|split; [|split; [|split; [|split; [|split; [|split; [|split]]]]]]].
  - intros k Hk. unfold record_fields in Hk. apply in_app_or in Hk.
    destruct Hk as [Hk | Hk].
    + (* text fields *)
      rewrite forallb_forall in Htext. pose proof (Htext k Hk) as Hs.
      destruct (dict_get payload k) as [| | | |s| | | | | |] eqn:Ep;
        try discriminate Hs.
      assert (Hr : dict_get r k = VStr s).
      { apply Hcopied; [| |exact Ep]; simpl in Hk;
          repeat (destruct Hk as [Hk | Hk]; [subst k; reflexivity|]);
          contradiction. }
      rewrite normalizar_text; [rewrite Hr; reflexivity | exact Hne | |];
        simpl in Hk;
        repeat (destruct Hk as [Hk | Hk]; [subst k; reflexivity|]);
        contradiction.
    + simpl in Hk.
      destruct Hk as [Hk | [Hk | [Hk | [Hk | [Hk | [Hk | []]]]]]]; subst k.
      * (* existe_plano *)
        destruct (dict_get payload "existe_plano") as [| | | |s| | | | | |]
          eqn:Ep; try discriminate Hplano.
        assert (Hr : dict_get r "existe_plano" = VStr s)
          by (apply Hcopied; [reflexivity | reflexivity | exact Ep]).
        rewrite normalizar_existe_plano; [exact Hr | exact Hne |].
        rewrite Hr. exact Hplano.
      * (* data_quebra *)
        assert (Hr : dict_get r "data_quebra" = VStr (str_of_date d)).
        { apply adapt_str_inv.
          rewrite <- (str_if_date payload "data_quebra" d Hd).
          apply (Hcol "data_quebra" eq_refl). }
        rewrite (normalizar_data_quebra clk' Hne), Hr, Hd.
        unfold date_reads_back in Hdr. rewrite Hdr. reflexivity.
      * (* hora_quebra *)
        assert (Hr : dict_get r "hora_quebra" = VStr (str_of_time tm)).
        { apply adapt_str_inv.
          rewrite <- (str_if_time payload "hora_quebra" tm Htm).
          apply (Hcol "hora_quebra" eq_refl). }
        rewrite (normalizar_hora_quebra clk' Hne), Hr, Htm.
        rewrite (_parse_time_str clk' tm Hts). reflexivity.
      * (* ultima_realizacao *)
        rewrite (normalizar_ultima_realizacao clk' r Hne).
        destruct Hult as [Hn | [d' [Hd' Hdr']]].
        -- assert (Hr : dict_get r "ultima_realizacao" = VNone).
           { apply adapt_none_inv.
             rewrite <- (str_if_none payload "ultima_realizacao" Hn).
             apply (Hcol "ultima_realizacao" eq_refl). }
           rewrite Hr, Hn. reflexivity.
        -- assert (Hr : dict_get r "ultima_realizacao"
                        = VStr (str_of_date d')).
           { apply adapt_str_inv.
             rewrite <- (str_if_date payload "ultima_realizacao" d' Hd').
             apply (Hcol "ultima_realizacao" eq_refl). }
           rewrite Hr, Hd'. exact Hdr'.
      * (* tempo_reparo_h *)
        rewrite Hfl in Ctempo.
        assert (Et : tempo = f \/ (float_bool f = false /\ tempo = float_zero)).
        { unfold py_or in Ctempo. simpl truthy in Ctempo.
          destruct (float_bool f); simpl in Ctempo;
            injection Ctempo as Ctempo; auto. }
        assert (Ef : tempo = f).
        { destruct Et as [E | [Eb E]]; [exact E|].
          destruct Hnz as [Hb | Hb]; [congruence | congruence]. }
        assert (Hr : dict_get r "tempo_reparo_h" = VFloat f).
        { apply (adapt_float_inv f _ Hnan). rewrite <- Ef.
          apply (Hcol "tempo_reparo_h" eq_refl). }
        rewrite (normalizar_tempo_reparo_h clk' Hne), Hr, Hfl.
        unfold py_or. simpl truthy.
        destruct Hnz as [Hb | Hb].
        -- rewrite Hb. reflexivity.
        -- destruct (float_bool f); [reflexivity|]. simpl. rewrite Hb.
           reflexivity.
      * (* periodicidade_dias *)
        rewrite Hz in Cper.
        assert (Ep : per = z).
        { unfold py_or in Cper. simpl truthy in Cper.
          destruct (Z.eqb_spec z 0) as [E | E]; simpl in Cper;
            injection Cper as Cper; congruence. }
        assert (Hr : dict_get r "periodicidade_dias" = VInt z).
        { apply adapt_int_inv. rewrite <- Ep.
          apply (Hcol "periodicidade_dias" eq_refl). }
        rewrite (normalizar_periodicidade_dias clk' Hne), Hr, Hz.
        unfold py_or. simpl truthy.
        destruct (Z.eqb_spec z 0) as [E | E]; simpl; [|reflexivity].
        rewrite E. reflexivity.
  - assert (Hr : dict_get r "cinco_porques_grid" = VStr ws).
    { apply adapt_str_inv. apply (Hcol "cinco_porques_grid" eq_refl). }
    rewrite (normalizar_cinco_porques_grid clk' r Hne), Hr.
    apply Hjw. exact Cws.
  - assert (Hr : dict_get r "acoes_lista" = VStr acs).
    { apply adapt_str_inv. apply (Hcol "acoes_lista" eq_refl). }
    rewrite (normalizar_acoes_lista clk' r Hne), Hr.
    apply Hja. exact Cacs.
  - assert (Hr : dict_get r "causas_linhas" = VStr cs).
    { apply adapt_str_inv. apply (Hcol "causas_linhas" eq_refl). }
    rewrite (normalizar_causas_linhas clk' r Hne), Hr.
    apply Hjc. exact Ccs.
  - rewrite normalizar_text; [rewrite Hcriado | exact Hne | |]; reflexivity.
  - assert (Hr : dict_get r "atualizado_por" = VNone).
    { apply adapt_none_inv. apply (Hcol "atualizado_por" eq_refl). }
    rewrite normalizar_text; [rewrite Hr | exact Hne | |]; reflexivity.
  - assert (Hr : dict_get r "atualizado_em" = VNone).
    { apply adapt_none_inv. apply (Hcol "atualizado_em" eq_refl). }
    rewrite normalizar_text; [rewrite Hr | exact Hne | |]; reflexivity.
  - intros Hup. unfold imagem_do_insert in Hi. rewrite Hup in Hi.
    simpl in Hi. injection Hi as Hi. subst img.
    assert (Hr : dict_get r "caminho_imagem" = VNone).
    { apply adapt_none_inv. apply (Hcol "caminho_imagem" eq_refl). }
    rewrite normalizar_text; [rewrite Hr | exact Hne | |]; reflexivity.
  - intros n Hup. unfold imagem_do_insert in Hi. rewrite Hup in Hi.
    simpl in Hi.
    destruct (salvar_imagem n) as [p|]; [|discriminate].
    rewrite bind_Ok in Hi. injection Hi as Hi. subst img.
    exists p. split; [reflexivity|].
    assert (Hr : dict_get r "caminho_imagem" = VStr p).
    { apply adapt_str_inv. apply (Hcol "caminho_imagem" eq_refl). }
    rewrite normalizar_text; [rewrite Hr | exact Hne | |]; reflexivity.
Qed.

End RoundTripFacts.

(** ** Schema store: running the migration again *)

Section SchemaAgain.

Context {PF : PyFloat} {PL : PyLibs}.

Lemma mem_app (x : string) (l1 l2 : list string) :
  mem x (l1 ++ l2) = mem x l1 || mem x l2.
Proof. unfold mem. apply existsb_app. Qed.

Lemma mem_filter (x : string) (f : string -> bool) (l : list string) :
  mem x l = true -> f x = true -> mem x (filter f l) = true.
Proof.
  unfold mem. intros H Hf. apply existsb_exists in H.
  destruct H as [y [Hy E]]. apply String.eqb_eq in E. subst y.
  apply existsb_exists. exists x. split; [|apply String.eqb_refl].
  apply filter_In. auto.
Qed.

(** Once the missing columns are there, none is missing. *)
Lemma missing_after (existing : list string) (cols : list (string * string)) :
  missing (existing ++ missing existing cols) cols = [].
Proof.
  unfold missing.
  set (names := map fst cols).
  assert (H : forall l, (forall c, In c l -> In c names) ->
            filter
              (fun c =>
                 negb (mem c (existing
                              ++ filter (fun c0 => negb (mem c0 existing))
                                   names)))
              l = []).
  { induction l as [|c l IH]; intros Hl; [reflexivity|].
    simpl. rewrite mem_app.
    destruct (mem c existing) eqn:E; simpl.
    - apply IH. intros x Hx. apply Hl. right. exact Hx.
    - rewrite mem_filter.
      + simpl. apply IH. intros x Hx. apply Hl. right. exact Hx.
      + apply In_mem. apply Hl. left. reflexivity.
      + rewrite E. reflexivity. }
  apply H. auto.
Qed.

(** The migration loop of [ensure_schema] is idempotent: after a run that
    ended without an exception, another run finds no column missing, so it
    issues no [ALTER TABLE] statement and leaves the columns and the rows as
    they are, whichever [ALTER TABLE] statements the engine would refuse.
    (The statements every run issues, [CREATE TABLE IF NOT EXISTS],
    [PRAGMA table_info] and the commits, are outside this statement:
    [ensure_schema] takes them to succeed.) *)
Theorem ensure_schema_again (refuses refuses' : string -> bool)
  (db : option table) (t' : table) (tried : list string) :
  ensure_schema refuses db = (t', tried, None) ->
  ensure_schema refuses' (Some t') = (t', [], None).
Proof.
  intros H.
  assert (E : ensure_schema refuses db
              = migrate refuses (tbl_columns (table_before db)) new_cols
                  (table_before db) []).
  { unfold ensure_schema, table_before. destruct db; reflexivity. }
  rewrite E, migrate_spec in H.
  injection H as Ht _ He.
  assert (E' : ensure_schema refuses' (Some t')
               = migrate refuses' (tbl_columns t') new_cols t' []).
  { reflexivity. }
  rewrite E', migrate_spec.
  assert (Hm : missing (tbl_columns t') new_cols = []).
  { rewrite <- Ht. simpl tbl_columns.
    destruct (existsb refuses
                (missing (tbl_columns (table_before db)) new_cols)) eqn:Ex;
      [discriminate|].
    rewrite (added_before_all _ _ Ex). apply missing_after. }
  rewrite Hm. simpl. rewrite app_nil_r. destruct t'; reflexivity.
Qed.

Lemma missing_or_there (existing : list string) (names : list string)
  (c : string) :
  mem c names = true ->
  mem c (existing ++ filter (fun c0 => negb (mem c0 existing)) names) = true.
Proof.
  intros H. rewrite mem_app. destruct (mem c existing) eqn:E; [reflexivity|].
  simpl. apply mem_filter; [exact H | rewrite E; reflexivity].
Qed.

(** After a run that ended without an exception the table has every column
    the writer names (given those of [CREATE TABLE]), so that on a new
    database an insert of a payload shaped as the form returns it succeeds
    and stores row 1. *)
Theorem ensure_schema_then_insert (refuses : string -> bool)
  (db : option table) (t' : table) (tried : list string) (clk : clock)
  (payload : dict) (tag : string) :
  ensure_schema refuses db = (t', tried, None) ->
  first_schema_ready (table_before db) = true ->
  writable payload = true ->
  upload_ready payload = true ->
  migrated t' = true
  /\ tbl_rows t' = tbl_rows (table_before db)
  /\ exists t'', inserir_bda clk t' payload tag = Ok t''.
Proof.
  intros H Hf Hw Hu.
  assert (E : ensure_schema refuses db
              = migrate refuses (tbl_columns (table_before db)) new_cols
                  (table_before db) []).
  { unfold ensure_schema, table_before. destruct db; reflexivity. }
  rewrite E, migrate_spec in H.
  injection H as Ht _ He.
  destruct (existsb refuses
              (missing (tbl_columns (table_before db)) new_cols)) eqn:Ex;
    [discriminate|].
  rewrite (added_before_all _ _ Ex) in Ht.
  assert (Hm : migrated t' = true).
  { unfold migrated. rewrite <- Ht. simpl tbl_columns.
    unfold first_schema_ready in Hf. rewrite forallb_forall in Hf.
    apply forallb_forall. intros c Hc. pose proof (Hf c Hc) as Hcc.
    apply orb_true_iff in Hcc. destruct Hcc as [Hcc | Hcc].
    - rewrite mem_app, Hcc. reflexivity.
    - unfold missing. apply missing_or_there. exact Hcc. }
  split; [exact Hm|]. split; [rewrite <- Ht; reflexivity|].
  apply inserir_bda_ok; assumption.
Qed.

End SchemaAgain.

(** ** Persistence: what a write leaves alone *)

Section WriteFrame.

Context {PF : PyFloat} {PL : PyLibs}.

(** The table a successful update returns. *)
Lemma atualizar_bda_inv (clk : clock) (t t' : table) (id : Z)
  (payload : dict) (tag : string) (img0 : pyval) :
  atualizar_bda clk t id payload tag img0 = Ok t' ->
  exists b,
    map fst b = DB_COLUMNS
    /\ t' = mktable (tbl_columns t)
              (map (fun r => if eq_int (row_id r) id
                             then dict_update r b else r)
                 (tbl_rows t))
              (tbl_seq t).
Proof.
  unfold atualizar_bda. intros H.
  fold (imagem_do_update payload img0) in H.
  destruct (imagem_do_update payload img0) as [img|]; [|discriminate].
  rewrite bind_Ok in H.
  destruct (_montar_db_payload clk payload img tag true) as [p|] eqn:Em;
    [|discriminate].
  rewrite bind_Ok in H.
  destruct (montar_inv _ _ _ _ _ _ Em) as [tempo [per [ws [acs [cs [_ Ep]]]]]].
  unfold sql_update in H.
  destruct (bind_params t p) as [b|] eqn:Eb; [|discriminate].
  rewrite bind_Ok in H. injection H as H.
  destruct (bind_params_inv _ _ _ Eb) as [Hb _].
  exists b. split; [|symmetry; exact H].
  rewrite (bound_of_keys _ _ Hb). subst p. apply linha_db_keys.
Qed.

(** The table a successful insert returns. *)
Lemma inserir_bda_inv (clk : clock) (t t' : table) (payload : dict)
  (tag : string) :
  inserir_bda clk t payload tag = Ok t' ->
  exists b,
    map fst b = DB_COLUMNS
    /\ t' = mktable (tbl_columns t)
              (tbl_rows t
               ++ [dict_update [("id", VInt (tbl_seq t + 1));
                                ("created_at", VStr (current_timestamp clk))] b])%list
              (tbl_seq t + 1).
Proof.
  unfold inserir_bda. intros H.
  fold (imagem_do_insert payload) in H.
  destruct (imagem_do_insert payload) as [img|]; [|discriminate].
  rewrite bind_Ok in H.
  destruct (_montar_db_payload clk payload img tag false) as [p|] eqn:Em;
    [|discriminate].
  rewrite bind_Ok in H.
  destruct (montar_inv _ _ _ _ _ _ Em) as [tempo [per [ws [acs [cs [_ Ep]]]]]].
  unfold sql_insert in H.
  destruct (bind_params t p) as [b|] eqn:Eb; [|discriminate].
  rewrite bind_Ok in H. cbv zeta in H. injection H as H.
  destruct (bind_params_inv _ _ _ Eb) as [Hb _].
  exists b. split; [|symmetry; exact H].
  rewrite (bound_of_keys _ _ Hb). subst p. apply linha_db_keys.
Qed.

Lemma keys_no_id (b : dict) (k : string) :
  map fst b = DB_COLUMNS -> mem k DB_COLUMNS = false ->
  has_key b k = false.
Proof.
  intros Hb Hk. destruct (has_key b k) eqn:E; [|reflexivity].
  apply has_key_In in E. rewrite Hb in E.
  exfalso. revert E. apply not_in_by_mem. exact Hk.
Qed.

Lemma dict_update_other (r b : dict) (k : string) :
  map fst b = DB_COLUMNS -> mem k DB_COLUMNS = false ->
  dict_get (dict_update r b) k = dict_get r k.
Proof.
  intros Hb Hk. rewrite dict_update_get.
  - rewrite (keys_no_id b k Hb Hk). reflexivity.
  - rewrite Hb. apply db_columns_nodup.
Qed.

Lemma filter_map_keep (rows : list dict) (id id' : Z) (f : dict -> dict) :
  (forall x, row_id (f x) = row_id x) -> id' <> id ->
  filter (fun r => eq_int (row_id r) id')
    (map (fun x => if eq_int (row_id x) id then f x else x) rows)
  = filter (fun r => eq_int (row_id r) id') rows.
Proof.
  intros Hf Hne. induction rows as [|x rows IH]; [reflexivity|].
  simpl. destruct (eq_int (row_id x) id) eqn:E.
  - rewrite Hf.
    assert (E' : eq_int (row_id x) id' = false).
    { unfold eq_int in *. destruct (row_id x); try discriminate.
      apply Z.eqb_eq in E. subst z. apply Z.eqb_neq. auto. }
    rewrite E'. exact IH.
  - destruct (eq_int (row_id x) id'); [rewrite IH|]; auto.
Qed.

Lemma map_untouched (rows : list dict) (id : Z) (f : dict -> dict) :
  filter (fun r => eq_int (row_id r) id) rows = [] ->
  map (fun x => if eq_int (row_id x) id then f x else x) rows = rows.
Proof.
  induction rows as [|x rows IH]; [reflexivity|].
  simpl. destruct (eq_int (row_id x) id); [discriminate|].
  intros H. rewrite IH; auto.
Qed.

(** An update addressed to an id that no row has writes nothing: it
    returns normally and the table is as before. *)
Theorem atualizar_bda_unknown_id (clk : clock) (t t' : table) (id : Z)
  (payload : dict) (tag : string) (img0 : pyval) :
  select_by_id t id = None ->
  atualizar_bda clk t id payload tag img0 = Ok t' ->
  t' = t.
Proof.
  intros Hs H. destruct (atualizar_bda_inv _ _ _ _ _ _ _ H) as [b [_ E]].
  subst t'. unfold select_by_id in Hs.
  destruct (filter (fun r => eq_int (row_id r) id) (tbl_rows t)) eqn:Ef;
    [|discriminate].
  rewrite (map_untouched _ _ _ Ef). destruct t; reflexivity.
Qed.

(** A successful update keeps the columns, the id counter and the number
    of rows; every row with another id reads as before; the row it
    addresses keeps its [id] and its [created_at]. *)
Theorem atualizar_bda_frame (clk : clock) (t t' : table) (id : Z)
  (payload : dict) (tag : string) (img0 : pyval) :
  atualizar_bda clk t id payload tag img0 = Ok t' ->
  tbl_columns t' = tbl_columns t
  /\ tbl_seq t' = tbl_seq t
  /\ length (tbl_rows t') = length (tbl_rows t)
  /\ (forall id', id' <> id -> select_by_id t' id' = select_by_id t id')
  /\ (forall r0, select_by_id t id = Some r0 ->
        exists r, select_by_id t' id = Some r
                  /\ dict_get r "id" = dict_get r0 "id"
                  /\ dict_get r "created_at" = dict_get r0 "created_at").
Proof.
  intros H. destruct (atualizar_bda_inv _ _ _ _ _ _ _ H) as [b [Hb E]].
  subst t'. simpl.
  assert (Hid : forall x, row_id (dict_update x b) = row_id x).
  { intros x. unfold row_id. apply dict_update_other; [exact Hb|reflexivity]. }
  split; [reflexivity|]. split; [reflexivity|].
  split; [apply length_map|]. split.
  - intros id' Hne. unfold select_by_id. simpl.
    rewrite (filter_map_keep _ id id' (fun x => dict_update x b) Hid Hne).
    reflexivity.
  - intros r0 Hs. rewrite select_by_id_find in Hs.
    destruct (find_row (tbl_rows t) id) as [r1|] eqn:Ef; [|discriminate].
    injection Hs as Hs. subst r0.
    exists (read_row (tbl_columns t) (dict_update r1 b)).
    split.
    + rewrite select_by_id_find. simpl.
      rewrite (find_row_map _ id (fun x => dict_update x b) r1 Hid Ef).
      reflexivity.
    + rewrite !read_row_get.
      rewrite !(dict_update_other r1 b) by (auto; reflexivity).
      split; reflexivity.
Qed.

(** The audit fields after a successful update of a stored row: the creator
    is NULL (the row [_montar_db_payload] builds for an update binds
    [criado_por] to [None], and the statement sets every key of that row),
    the updater is the caller, the update time is the clock's. *)
Theorem atualizar_bda_audit (clk : clock) (t t' : table) (id : Z)
  (payload : dict) (tag : string) (img0 : pyval) (r0 : dict) :
  atualizar_bda clk t id payload tag img0 = Ok t' ->
  select_by_id t id = Some r0 ->
  exists r,
    select_by_id t' id = Some r
    /\ dict_get r "criado_por" = VNone
    /\ dict_get r "atualizado_por" = VStr tag
    /\ dict_get r "atualizado_em" = VStr (now_ts clk).
Proof.
  intros H Hs.
  destruct (atualizar_bda_effect clk t t' id payload tag img0 r0 H Hs)
    as [r [Hsel [_ [H1 [H2 H3]]]]].
  exists r. auto.
Qed.

(** The image reference after a successful update of a stored row: the
    current reference the caller passed when nothing was uploaded, the path
    of the saved file when something was. *)
Theorem atualizar_bda_image (clk : clock) (t t' : table) (id : Z)
  (payload : dict) (tag : string) (img0 : pyval) (r0 : dict) :
  atualizar_bda clk t id payload tag img0 = Ok t' ->
  select_by_id t id = Some r0 ->
  exists r,
    select_by_id t' id = Some r
    /\ (dict_get payload "_imagem_upload" = VNone ->
        text_or_null img0 = true -> dict_get r "caminho_imagem" = img0)
    /\ (forall n, dict_get payload "_imagem_upload" = VUpload n ->
          exists p, salvar_imagem n = Ok p
                    /\ dict_get r "caminho_imagem" = VStr p).
Proof.
  intros H Hs. destruct (select_find _ _ _ Hs) as [r1 Hf].
  destruct (atualizar_bda_row clk t t' id payload tag img0 r1 H Hf)
    as [img [tempo [per [ws [acs [cs [r [Hi [_ [Hsel Hget]]]]]]]]]].
  exists r. split; [exact Hsel|].
  assert (Hc : sql_adapt img = Ok (dict_get r "caminho_imagem")).
  { apply (Hget "caminho_imagem").
    assert (M : mem "caminho_imagem" DB_COLUMNS = true) by reflexivity.
    unfold mem in M. apply existsb_exists in M.
    destruct M as [x [Hx E]]. apply String.eqb_eq in E. subst x. exact Hx. }
  unfold imagem_do_update in Hi. split.
  - intros Hn Ht. rewrite Hn in Hi. simpl in Hi. injection Hi as Hi.
    subst img. destruct img0; try discriminate Ht.
    + apply adapt_none_inv. exact Hc.
    + apply adapt_str_inv. exact Hc.
  - intros n Hn. rewrite Hn in Hi. simpl in Hi.
    destruct (salvar_imagem n) as [p|]; [|discriminate].
    rewrite bind_Ok in Hi. injection Hi as Hi. subst img.
    exists p. split; [reflexivity|]. apply adapt_str_inv. exact Hc.
Qed.

(** A successful insert adds one row under the next id and touches no other
    row: the id counter advances by one, the columns are kept, every other
    id reads as before, and the new row has the fresh id, the caller as
    creator, no updater and no update time. (Its [created_at] is the
    engine's own default, which the writer never binds.) *)
Theorem inserir_bda_frame (clk : clock) (t t' : table) (payload : dict)
  (tag : string) :
  inserir_bda clk t payload tag = Ok t' ->
  fresh_id t = true ->
  tbl_columns t' = tbl_columns t
  /\ tbl_seq t' = tbl_seq t + 1
  /\ length (tbl_rows t') = S (length (tbl_rows t))
  /\ (forall id', id' <> tbl_seq t + 1 ->
        select_by_id t' id' = select_by_id t id')
  /\ exists r,
       select_by_id t' (tbl_seq t + 1) = Some r
       /\ dict_get r "criado_por" = VStr tag
       /\ dict_get r "atualizado_por" = VNone
       /\ dict_get r "atualizado_em" = VNone
       /\ (mem "id" (tbl_columns t) = true ->
           dict_get r "id" = VInt (tbl_seq t + 1)).
Proof.
  intros H Hfresh.
  destruct (inserir_bda_inv _ _ _ _ _ H) as [b [Hb E]].
  destruct (inserir_bda_row clk t t' payload tag H Hfresh)
    as [img [tempo [per [ws [acs [cs [r [_ [_ [Hsel Hget]]]]]]]]]].
  assert (Hcol : forall k, mem k DB_COLUMNS = true ->
             sql_adapt
               (dict_get (linha_db clk payload img tag false tempo per ws
                            acs cs) k) = Ok (dict_get r k)).
  { intros k Hk. apply Hget. unfold mem in Hk. apply existsb_exists in Hk.
    destruct Hk as [x [Hx Ex]]. apply String.eqb_eq in Ex. subst x.
    exact Hx. }
  set (row0 := [("id", VInt (tbl_seq t + 1));
                ("created_at", VStr (current_timestamp clk))]) in *.
  assert (Hid : row_id (dict_update row0 b) = VInt (tbl_seq t + 1)).
  { unfold row_id. rewrite (dict_update_other row0 b) by (auto; reflexivity).
    reflexivity. }
  split; [subst t'; reflexivity|]. split; [subst t'; reflexivity|].
  split; [subst t'; simpl; rewrite length_app; simpl; lia|].
  split.
  - intros id' Hne. subst t'. unfold select_by_id. simpl.
    rewrite filter_app. simpl. rewrite Hid. simpl.
    assert (En : (tbl_seq t + 1 =? id') = false)
      by (apply Z.eqb_neq; auto).
    rewrite En, app_nil_r. reflexivity.
  - exists r. split; [exact Hsel|].
    split; [apply adapt_str_inv; exact (Hcol "criado_por" eq_refl)|].
    split; [apply adapt_none_inv; exact (Hcol "atualizado_por" eq_refl)|].
    split; [apply adapt_none_inv; exact (Hcol "atualizado_em" eq_refl)|].
    assert (Er : r = read_row (tbl_columns t) (dict_update row0 b)).
    { subst t'. rewrite select_by_id_find in Hsel. simpl in Hsel.
      rewrite (find_row_fresh (tbl_rows t) (tbl_seq t + 1)
                 (dict_update row0 b) Hfresh Hid) in Hsel.
      injection Hsel as Hsel. symmetry. exact Hsel. }
    intros Hm. rewrite Er, read_row_get, Hm.
    rewrite (dict_update_other row0 b) by (auto; reflexivity).
    reflexivity.
Qed.

End WriteFrame.

(** ** Normalizer: text fields, plan flag, other keys *)

Section NormalizerMore.

Context {PF : PyFloat} {PL : PyLibs}.

Lemma mem_In (k : string) (l : list string) : mem k l = true -> In k l.
Proof.
  unfold mem. intros H. apply existsb_exists in H.
  destruct H as [x [Hx E]]. apply String.eqb_eq in E. subst x. exact Hx.
Qed.

Lemma text_not_typed (k : string) :
  In k text_fields -> mem k typed_keys = false.
Proof.
  intros Hx. simpl in Hx.
  repeat (destruct Hx as [Hx | Hx]; [subst k; reflexivity|]).
  contradiction.
Qed.

(** On a record that is not empty, none of the 23 text fields is left
    [None]: a missing or [None] value becomes the empty text and any other
    value (other than the plan flag, which is settled separately) is kept as
    it is. *)
Theorem normalizar_text_fields (clk : clock) (dados : dict) (k : string) :
  dados <> [] -> In k text_fields ->
  dict_get (normalizar_dados_bda clk dados) k <> VNone
  /\ (k <> "existe_plano" ->
      dict_get (normalizar_dados_bda clk dados) k
      = if is_none (dict_get dados k) then VStr "" else dict_get dados k).
Proof.
  intros Hne Hk. split.
  - rewrite (normalizar_stages clk Hne).
    assert (H : is_none
                  (dict_get
                     (with_existe_plano
                        (fill_text text_fields (typed clk dados))) k)
                = false).
    { apply with_existe_plano_not_none, fill_text_not_none. exact Hk. }
    intros E. rewrite E in H. discriminate H.
  - intros Hn. apply normalizar_text; [exact Hne | apply In_mem; exact Hk |].
    destruct (String.eqb "existe_plano" k) eqn:E; [|reflexivity].
    apply String.eqb_eq in E. congruence.
Qed.

(** On a record that is not empty the plan flag comes out as "Sim" or
    "Não": the raw flag when it is one of the two, otherwise "Sim" exactly
    when the raw plan reference is truthy. *)
Theorem normalizar_plan_flag (clk : clock) (dados : dict) :
  dados <> [] ->
  (dict_get (normalizar_dados_bda clk dados) "existe_plano" = VStr "Sim"
   \/ dict_get (normalizar_dados_bda clk dados) "existe_plano" = VStr "Não")
  /\ (if eq_str (dict_get dados "existe_plano") "Sim"
         || eq_str (dict_get dados "existe_plano") "Não"
      then dict_get (normalizar_dados_bda clk dados) "existe_plano"
           = dict_get dados "existe_plano"
      else dict_get (normalizar_dados_bda clk dados) "existe_plano"
           = VStr (if truthy (dict_get dados "plano_sap")
                   then "Sim" else "Não")).
Proof.
  intros Hne.
  assert (Hsettled :
            eq_str (dict_get (normalizar_dados_bda clk dados) "existe_plano")
              "Sim"
            || eq_str (dict_get (normalizar_dados_bda clk dados)
                         "existe_plano") "Não" = true).
  { rewrite (normalizar_stages clk Hne). apply with_existe_plano_settled. }
  split.
  - destruct (dict_get (normalizar_dados_bda clk dados) "existe_plano");
      try discriminate Hsettled.
    simpl in Hsettled. apply orb_true_iff in Hsettled.
    destruct Hsettled as [E | E]; apply String.eqb_eq in E; subst s;
      [left | right]; reflexivity.
  - destruct (eq_str (dict_get dados "existe_plano") "Sim"
              || eq_str (dict_get dados "existe_plano") "Não") eqn:E.
    + apply normalizar_existe_plano; assumption.
    + rewrite (normalizar_stages clk Hne). unfold with_existe_plano.
      assert (Ef : dict_get (fill_text text_fields (typed clk dados))
                     "existe_plano"
                   = if is_none (dict_get dados "existe_plano")
                     then VStr "" else dict_get dados "existe_plano").
      { rewrite fill_text_get.
        rewrite (typed_get_other clk dados "existe_plano") by reflexivity.
        reflexivity. }
      assert (Ep : truthy (dict_get (fill_text text_fields (typed clk dados))
                             "plano_sap")
                   = truthy (dict_get dados "plano_sap")).
      { rewrite fill_text_get.
        rewrite (typed_get_other clk dados "plano_sap") by reflexivity.
        change (mem "plano_sap" text_fields) with true. simpl andb.
        destruct (dict_get dados "plano_sap"); reflexivity. }
      rewrite Ef, Ep.
      assert (En : eq_str (if is_none (dict_get dados "existe_plano")
                           then VStr "" else dict_get dados "existe_plano")
                     "Sim"
                   || eq_str (if is_none (dict_get dados "existe_plano")
                              then VStr ""
                              else dict_get dados "existe_plano") "Não"
                   = false).
      { destruct (dict_get dados "existe_plano"); try reflexivity.
        exact E. }
      rewrite En. rewrite dict_get_set. reflexivity.
Qed.

Lemma has_key_typed (clk : clock) (dados : dict) (k : string) :
  has_key dados k = true -> has_key (typed clk dados) k = true.
Proof.
  intros H. unfold typed. repeat rewrite assign_has_key.
  rewrite H. rewrite ?orb_true_r. reflexivity.
Qed.

(** The normalizer drops no key, and a key that is neither one of the eight
    typed fields nor one of the text fields (the [id], [created_at], the
    legacy columns, the form's private keys) keeps its value. *)
Theorem normalizar_other_keys (clk : clock) (dados : dict) (k : string) :
  dados <> [] ->
  (has_key dados k = true ->
   has_key (normalizar_dados_bda clk dados) k = true)
  /\ (mem k typed_keys = false -> mem k text_fields = false ->
      dict_get (normalizar_dados_bda clk dados) k = dict_get dados k).
Proof.
  intros Hne. split.
  - intros H. rewrite (normalizar_stages clk Hne).
    apply with_existe_plano_has_key, fill_text_has_key, has_key_typed.
    exact H.
  - intros Ht Hx. rewrite normalizar_typed_get by assumption.
    apply typed_get_other. exact Ht.
Qed.

End NormalizerMore.

(** ** Break times as text *)

Section TimeText.

Context {PF : PyFloat} {PL : PyLibs}.

Lemma every_short_time_reads_back (clk : clock) :
  forallb
    (fun h => forallb (fun m => short_time_reads_back clk h m) (below 60))
    (below 24)
  = true.
Proof. vm_cast_no_check (eq_refl true). Qed.

(** [_parse_time] reads the three colon-delimited forms: for every hour,
    minute and second of the day, "HH:MM:SS" (the text [str] gives for a
    time on a whole second) comes back as that time, "HH:MM" as that minute
    with second 0 and "HH" as that hour, whatever the clock says. *)
Theorem parse_time_reads_text (clk : clock) (h m s : Z) :
  0 <= h < 24 -> 0 <= m < 60 -> 0 <= s < 60 ->
  _parse_time clk (VStr (str_of_time (mktime h m s 0))) = mktime h m s 0
  /\ _parse_time clk (VStr (pad 2 h ++ ":" ++ pad 2 m)) = mktime h m 0 0
  /\ _parse_time clk (VStr (pad 2 h)) = mktime h 0 0 0.
Proof.
  intros Hh Hm Hs. split.
  - apply _parse_time_str. unfold whole_seconds.
    cbn [hour minute second microsecond].
    repeat (apply andb_true_iff; split);
      first [apply Z.leb_le; lia | apply Z.ltb_lt; lia | reflexivity].
  - pose proof (every_short_time_reads_back clk) as E.
    rewrite forallb_forall in E.
    assert (Eh := E h (below_In 24 h ltac:(lia))).
    rewrite forallb_forall in Eh.
    assert (Em := Eh m (below_In 60 m ltac:(lia))).
    unfold short_time_reads_back in Em. apply andb_true_iff in Em.
    destruct Em as [E1 E2].
    split; apply pytime_eqb_eq; assumption.
Qed.

End TimeText.

(** ** Validator: the field checks *)

Section FieldChecks.

Context {PF : PyFloat} {PL : PyLibs}.

Lemma campo_erro_vazio (lbls : list (string * string)) (k : string)
  (v : pyval) :
  campo_erro lbls k v = if campo_vazio v then [msg_campo lbls k] else [].
Proof.
  unfold campo_erro, campo_vazio, msg_campo.
  destruct v; reflexivity.
Qed.

Lemma str_app_inv (p a b : string) : p ++ a = p ++ b -> a = b.
Proof.
  induction p as [|c p IH]; simpl; intros H; [exact H|].
  injection H as H. auto.
Qed.

(** How often a field's message occurs in what [all_filled] returns, when
    no other key of [values] shares its label. *)
Lemma count_all_filled (values : dict) (lbls : list (string * string))
  (k : string) :
  NoDup (map fst values) ->
  (forall k', In k' (map fst values) ->
              label_of lbls k' = label_of lbls k -> k' = k) ->
  In k (map fst values) ->
  count_occ string_dec (all_filled values lbls) (msg_campo lbls k)
  = if campo_vazio (dict_get values k) then 1%nat else 0%nat.
Proof.
  unfold dict_get.
  induction values as [|[k0 v0] r IH]; intros Hnd Hinj Hin; [contradiction|].
  rewrite all_filled_cons, count_occ_app, campo_erro_vazio.
  simpl dict_get_default. simpl in Hnd, Hin.
  inversion Hnd as [|x l Hnot Hnd']. subst x l.
  destruct (String.eqb k0 k) eqn:E.
  - apply String.eqb_eq in E. subst k0.
    assert (Hr : count_occ string_dec (all_filled r lbls) (msg_campo lbls k)
                 = 0%nat).
    { apply count_occ_not_In. intros Hc.
      pose proof (all_filled_among r lbls) as Ha.
      rewrite forallb_forall in Ha. pose proof (Ha _ Hc) as Hm.
      apply mem_In in Hm. unfold campo_msgs in Hm.
      apply in_map_iff in Hm. destruct Hm as [k' [Ek' Hk']].
      apply str_app_inv in Ek'.
      assert (k' = k) by (apply Hinj; [right; exact Hk' | exact Ek']).
      subst k'. contradiction. }
    rewrite Hr. destruct (campo_vazio v0); [|reflexivity].
    rewrite count_occ_cons_eq by reflexivity. reflexivity.
  - assert (Hk : In k (map fst r)).
    { destruct Hin as [Hin | Hin]; [|exact Hin].
      subst k0. rewrite String.eqb_refl in E. discriminate. }
    rewrite IH; auto.
    + assert (H0 : count_occ string_dec
                     (if campo_vazio v0 then [msg_campo lbls k0] else [])
                     (msg_campo lbls k) = 0%nat).
      { destruct (campo_vazio v0); [|reflexivity].
        rewrite count_occ_cons_neq; [reflexivity|].
        intros Em. apply str_app_inv in Em.
        assert (k0 = k) by (apply Hinj; [left; reflexivity | exact Em]).
        subst k0. rewrite String.eqb_refl in E. discriminate. }
      rewrite H0. reflexivity.
    + intros k' Hk' El. apply Hinj; [right; exact Hk' | exact El].
Qed.

Lemma labels_distinct_spec (lbls : list (string * string))
  (keys : list string) :
  labels_distinct lbls keys = true ->
  forall k' k, In k' keys -> In k keys ->
               label_of lbls k' = label_of lbls k -> k' = k.
Proof.
  unfold labels_distinct. intros H k' k Hk' Hk E.
  rewrite forallb_forall in H. pose proof (H k' Hk') as H1.
  rewrite forallb_forall in H1. pose proof (H1 k Hk) as H2.
  rewrite E, String.eqb_refl in H2. simpl in H2.
  apply String.eqb_eq. exact H2.
Qed.

Lemma nodup_keys (l : list string) :
  nodup string_dec l = l -> NoDup l.
Proof. intros E. rewrite <- E. apply NoDup_nodup. Qed.

Lemma obrig_keys (payload : dict) :
  map fst (obrig_evento_vals payload) = evento_keys.
Proof. reflexivity. Qed.

Lemma plan_vals_keys (payload : dict) :
  map fst (plan_vals payload) = plano_keys.
Proof. reflexivity. Qed.

Lemma evento_keys_nodup : NoDup evento_keys.
Proof. apply nodup_keys. vm_compute. reflexivity. Qed.

Lemma plano_keys_nodup : NoDup plano_keys.
Proof. apply nodup_keys. vm_compute. reflexivity. Qed.

Lemma campo_msg_msg (lbls : list (string * string)) (k : string) :
  campo_msg (msg_campo lbls k) = true.
Proof. reflexivity. Qed.

Lemma linha_not_campo (e : string) : linha_msg e = true -> campo_msg e = false.
Proof.
  intros H. destruct e as [|c e]; [discriminate H|].
  assert (E : "L"%char = c).
  { unfold linha_msg in H. cbn [prefixb] in H.
    apply andb_true_iff in H. destruct H as [H _].
    apply Ascii.eqb_eq in H. exact H. }
  subst c. reflexivity.
Qed.

Lemma count_linhas_campo (linhas : list string) (m : string) :
  forallb linha_msg linhas = true -> campo_msg m = true ->
  count_occ string_dec linhas m = 0%nat.
Proof.
  intros Hl Hm. apply count_occ_not_In. intros Hin.
  rewrite forallb_forall in Hl.
  rewrite (linha_not_campo _ (Hl _ Hin)) in Hm. discriminate.
Qed.

Lemma count_global_campo (b : bool) (g m : string) :
  campo_msg g = false -> campo_msg m = true ->
  count_occ string_dec (if b then [g] else []) m = 0%nat.
Proof.
  intros Hg Hm. destruct b; [|reflexivity].
  rewrite count_occ_cons_neq; [reflexivity|].
  intros E. subst g. congruence.
Qed.

(** How often a field message occurs among all the errors. *)
Lemma count_campo (ev pv linhas : list string) (sim deep none : bool)
  (m : string) :
  campo_msg m = true ->
  forallb linha_msg linhas = true ->
  count_occ string_dec
    (ev ++ (if sim then pv else []) ++ linhas
     ++ (if deep then [msg_whys] else [])
     ++ (if none then [msg_acoes] else []))%list m
  = (count_occ string_dec ev m
     + count_occ string_dec (if sim then pv else []) m)%nat.
Proof.
  intros Hm Hl. rewrite !count_occ_app.
  rewrite (count_linhas_campo linhas m Hl Hm).
  rewrite (count_global_campo deep msg_whys m eq_refl Hm).
  rewrite (count_global_campo none msg_acoes m eq_refl Hm). lia.
Qed.

Lemma count_not_among (values : dict) (lbls : list (string * string))
  (m : string) :
  mem m (campo_msgs lbls (map fst values)) = false ->
  count_occ string_dec (all_filled values lbls) m = 0%nat.
Proof.
  intros H. apply count_occ_not_In.
  apply (not_in_by (fun e => mem e (campo_msgs lbls (map fst values)))).
  - apply all_filled_among.
  - exact H.
Qed.

Lemma str_if_vazio (payload : dict) (k : string) :
  campo_vazio (dict_get payload k) = true ->
  campo_vazio (str_if payload k) = true.
Proof.
  unfold str_if. destruct (dict_get payload k); try discriminate.
  - reflexivity.
  - simpl. destruct s; [reflexivity|]. simpl. auto.
Qed.

Lemma valor_evento_vazio (payload : dict) (k : string) :
  In k evento_keys -> k <> "tempo_reparo_h" ->
  campo_vazio (dict_get payload k) = true ->
  campo_vazio (valor_evento payload k) = true.
Proof.
  intros Hk Hn Hv. unfold valor_evento. simpl in Hk.
  destruct Hk as [Hk | Hk]; [subst k; exact Hv|].
  destruct Hk as [Hk | Hk]; [subst k; exact Hv|].
  destruct Hk as [Hk | Hk]; [subst k; apply str_if_vazio; exact Hv|].
  destruct Hk as [Hk | Hk]; [subst k; apply str_if_vazio; exact Hv|].
  destruct Hk as [Hk | Hk]; [subst k; congruence|].
  destruct Hk as [Hk | Hk]; [subst k; exact Hv|].
  destruct Hk as [Hk | Hk]; [subst k; exact Hv|].
  destruct Hk as [Hk | Hk].
  { subst k. change (dict_get (obrig_evento_vals payload) "turno")
      with (if truthy (dict_get payload "turno")
            then dict_get payload "turno" else VNone).
    destruct (truthy (dict_get payload "turno")); [exact Hv | reflexivity]. }
  repeat (destruct Hk as [Hk | Hk]; [subst k; exact Hv|]).
  contradiction.
Qed.

Lemma valor_plano_vazio (payload : dict) (k : string) :
  In k plano_keys -> k <> "periodicidade_dias" ->
  campo_vazio (dict_get payload k) = true ->
  campo_vazio (valor_plano payload k) = true.
Proof.
  intros Hk Hn Hv. unfold valor_plano. simpl in Hk.
  destruct Hk as [Hk | Hk]; [subst k; exact Hv|].
  destruct Hk as [Hk | Hk]; [subst k; exact Hv|].
  destruct Hk as [Hk | Hk]; [subst k; exact Hv|].
  destruct Hk as [Hk | Hk]; [subst k; congruence|].
  destruct Hk as [Hk | Hk]; [subst k; apply str_if_vazio; exact Hv|].
  destruct Hk as [Hk | Hk]; [subst k; exact Hv|].
  contradiction.
Qed.

Lemma In_mem_false_plan (k : string) :
  In k evento_keys ->
  mem (msg_campo labels k) (campo_msgs plan_labels plano_keys) = false.
Proof.
  intros Hk. simpl in Hk.
  repeat (destruct Hk as [Hk | Hk]; [subst k; vm_compute; reflexivity|]).
  contradiction.
Qed.

Lemma In_mem_false_evento (k : string) :
  In k plano_keys ->
  mem (msg_campo plan_labels k) (campo_msgs labels evento_keys) = false.
Proof.
  intros Hk. simpl in Hk.
  repeat (destruct Hk as [Hk | Hk]; [subst k; vm_compute; reflexivity|]).
  contradiction.
Qed.

(** The check of the mandatory event fields, for every payload: on readable
    input validation returns, and the message of an event field occurs once
    when the value the check looks at is [None] or blank text and not at
    all otherwise. For sixteen of the seventeen fields a payload value that
    is [None] or blank text is reported; for the repair duration the check
    looks at the text of [str], so [None] is never reported. *)
Theorem event_fields_reported (clk : clock) (payload : dict)
  (whys causas acoes : list pyval) (prazo : pydate) (k : string) :
  forallb row_ok whys = true ->
  forallb is_dict causas = true ->
  forallb acao_ok acoes = true ->
  (injects payload acoes = true ->
   date_add_days (today clk) 30 = Ok prazo) ->
  In k evento_keys ->
  exists erros causas' acoes',
    validar_payload clk payload whys causas acoes
    = Ok (erros, causas', acoes')
    /\ count_occ string_dec erros (msg_campo labels k)
       = (if campo_vazio (valor_evento payload k) then 1%nat else 0%nat)
    /\ (k <> "tempo_reparo_h" ->
        campo_vazio (dict_get payload k) = true ->
        count_occ string_dec erros (msg_campo labels k) = 1%nat)
    /\ (dict_get payload "tempo_reparo_h" = VNone ->
        count_occ string_dec erros (msg_campo labels "tempo_reparo_h")
        = 0%nat).
Proof.
  intros Hw Hc Ha Hp Hk.
  destruct (validar_payload_result clk payload whys causas acoes prazo
              Hw Hc Ha Hp) as [linhas [causas' [E [Hl _]]]].
  eexists. exists causas', (injected payload acoes prazo).
  split; [exact E|].
  assert (Hcount : forall k0, In k0 evento_keys ->
            count_occ string_dec
              (all_filled (obrig_evento_vals payload) labels
               ++ (if eq_str (dict_get payload "existe_plano") "Sim"
                   then all_filled (plan_vals payload) plan_labels else [])
               ++ linhas
               ++ (if deep_rows whys <? 1 then [msg_whys] else [])
               ++ (if (length (filter valida
                                 (injected payload acoes prazo)) <? 1)%nat
                   then [msg_acoes] else []))%list (msg_campo labels k0)
            = if campo_vazio (valor_evento payload k0)
              then 1%nat else 0%nat).
  { intros k0 Hk0.
    rewrite (count_campo _ _ linhas _ _ _ _ (campo_msg_msg labels k0) Hl).
    assert (Hpv : count_occ string_dec
                    (if eq_str (dict_get payload "existe_plano") "Sim"
                     then all_filled (plan_vals payload) plan_labels
                     else []) (msg_campo labels k0) = 0%nat).
    { destruct (eq_str (dict_get payload "existe_plano") "Sim");
        [|reflexivity].
      apply count_not_among. rewrite plan_vals_keys.
      apply In_mem_false_plan. exact Hk0. }
    rewrite Hpv, Nat.add_0_r.
    apply count_all_filled.
    - rewrite obrig_keys. apply evento_keys_nodup.
    - rewrite obrig_keys. intros k' Hk' El.
      apply (labels_distinct_spec labels evento_keys); auto.
    - rewrite obrig_keys. exact Hk0. }
  split; [apply Hcount; exact Hk|]. split.
  - intros Hn Hv. rewrite (Hcount k Hk).
    rewrite (valor_evento_vazio payload k Hk Hn Hv). reflexivity.
  - intros Hn. rewrite Hcount.
    + unfold valor_evento.
      change (dict_get (obrig_evento_vals payload) "tempo_reparo_h")
        with (VStr (py_str (dict_get payload "tempo_reparo_h"))).
      rewrite Hn. reflexivity.
    + unfold mem. simpl. tauto.
Qed.

(** The check of the plan fields, for every payload whose plan flag is
    "Sim": the message of a plan field occurs once when the value the check
    looks at is [None] or blank text and not at all otherwise. A payload
    value that is [None] or blank text is reported for five of the six
    fields; for the periodicity the check looks at the text of [str], so
    [None] is never reported. *)
Theorem plan_fields_reported (clk : clock) (payload : dict)
  (whys causas acoes : list pyval) (prazo : pydate) (k : string) :
  dict_get payload "existe_plano" = VStr "Sim" ->
  forallb row_ok whys = true ->
  forallb is_dict causas = true ->
  forallb acao_ok acoes = true ->
  In k plano_keys ->
  exists erros causas' acoes',
    validar_payload clk payload whys causas acoes
    = Ok (erros, causas', acoes')
    /\ count_occ string_dec erros (msg_campo plan_labels k)
       = (if campo_vazio (valor_plano payload k) then 1%nat else 0%nat)
    /\ (k <> "periodicidade_dias" ->
        campo_vazio (dict_get payload k) = true ->
        count_occ string_dec erros (msg_campo plan_labels k) = 1%nat)
    /\ (dict_get payload "periodicidade_dias" = VNone ->
        count_occ string_dec erros
          (msg_campo plan_labels "periodicidade_dias") = 0%nat).
Proof.
  intros Hs Hw Hc Ha Hk.
  assert (Hp : injects payload acoes = true ->
               date_add_days (today clk) 30 = Ok (mkdate 1 1 1)).
  { unfold injects. rewrite Hs. discriminate. }
  destruct (validar_payload_result clk payload whys causas acoes
              (mkdate 1 1 1) Hw Hc Ha Hp) as [linhas [causas' [E [Hl _]]]].
  eexists. exists causas', (injected payload acoes (mkdate 1 1 1)).
  split; [exact E|].
  assert (Hcount : forall k0, In k0 plano_keys ->
            count_occ string_dec
              (all_filled (obrig_evento_vals payload) labels
               ++ (if eq_str (dict_get payload "existe_plano") "Sim"
                   then all_filled (plan_vals payload) plan_labels else [])
               ++ linhas
               ++ (if deep_rows whys <? 1 then [msg_whys] else [])
               ++ (if (length (filter valida
                                 (injected payload acoes (mkdate 1 1 1)))
                       <? 1)%nat
                   then [msg_acoes] else []))%list
              (msg_campo plan_labels k0)
            = if campo_vazio (valor_plano payload k0)
              then 1%nat else 0%nat).
  { intros k0 Hk0.
    rewrite (count_campo _ _ linhas _ _ _ _
               (campo_msg_msg plan_labels k0) Hl).
    rewrite Hs. change (eq_str (VStr "Sim") "Sim") with true. cbv iota.
    rewrite count_not_among
      by (rewrite obrig_keys; apply In_mem_false_evento; exact Hk0).
    rewrite Nat.add_0_l.
    apply count_all_filled.
    - rewrite plan_vals_keys. apply plano_keys_nodup.
    - rewrite plan_vals_keys. intros k' Hk' El.
      apply (labels_distinct_spec plan_labels plano_keys); auto.
    - rewrite plan_vals_keys. exact Hk0. }
  split; [apply Hcount; exact Hk|]. split.
  - intros Hn Hv. rewrite (Hcount k Hk).
    rewrite (valor_plano_vazio payload k Hk Hn Hv). reflexivity.
  - intros Hn. rewrite Hcount.
    + unfold valor_plano.
      change (dict_get (plan_vals payload) "periodicidade_dias")
        with (VStr (py_str (dict_get payload "periodicidade_dias"))).
      rewrite Hn. reflexivity.
    + unfold mem. simpl. tauto.
Qed.

(** The action check: on readable input the message that asks for one
    action occurs once when, after the injection step, no action has both a
    truthy description and a truthy responsible (any text that is not empty
    counts, also text made of spaces only), and not at all otherwise. With
    the plan flag "Não" and no action that already carries the canned phrase
    it never occurs, because the injected action counts. *)
Theorem action_error (clk : clock) (payload : dict)
  (whys causas acoes : list pyval) (prazo : pydate) :
  forallb row_ok whys = true ->
  forallb is_dict causas = true ->
  forallb acao_ok acoes = true ->
  (injects payload acoes = true ->
   date_add_days (today clk) 30 = Ok prazo) ->
  exists erros causas',
    validar_payload clk payload whys causas acoes
    = Ok (erros, causas', injected payload acoes prazo)
    /\ count_occ string_dec erros msg_acoes
       = (if existsb valida (injected payload acoes prazo)
          then 0%nat else 1%nat)
    /\ (injects payload acoes = true ->
        count_occ string_dec erros msg_acoes = 0%nat).
Proof.
  intros Hw Hc Ha Hp.
  destruct (validar_payload_result clk payload whys causas acoes prazo
              Hw Hc Ha Hp) as [linhas [causas' [E [Hl _]]]].
  eexists. exists causas'. split; [exact E|].
  assert (Hcount :
            count_occ string_dec
              (all_filled (obrig_evento_vals payload) labels
               ++ (if eq_str (dict_get payload "existe_plano") "Sim"
                   then all_filled (plan_vals payload) plan_labels else [])
               ++ linhas
               ++ (if deep_rows whys <? 1 then [msg_whys] else [])
               ++ (if (length (filter valida
                                 (injected payload acoes prazo)) <? 1)%nat
                   then [msg_acoes] else []))%list msg_acoes
            = if existsb valida (injected payload acoes prazo)
              then 0%nat else 1%nat).
  { rewrite !count_occ_app.
    rewrite (count_occ_none campo_msg _ msg_acoes (all_filled_campo _ _)
               eq_refl).
    assert (Hpv : count_occ string_dec
                    (if eq_str (dict_get payload "existe_plano") "Sim"
                     then all_filled (plan_vals payload) plan_labels
                     else []) msg_acoes = 0%nat).
    { destruct (eq_str (dict_get payload "existe_plano") "Sim");
        [|reflexivity].
      apply (count_occ_none campo_msg _ msg_acoes (all_filled_campo _ _)
               eq_refl). }
    rewrite Hpv.
    rewrite (count_occ_none linha_msg linhas msg_acoes Hl eq_refl).
    assert (Hwh : count_occ string_dec
                    (if deep_rows whys <? 1 then [msg_whys] else [])
                    msg_acoes = 0%nat).
    { destruct (deep_rows whys <? 1); [|reflexivity]. simpl.
      destruct (string_dec msg_whys msg_acoes) as [Em | Em]; [|reflexivity].
      apply String.eqb_eq in Em. vm_compute in Em. discriminate Em. }
    rewrite Hwh. simpl Nat.add.
    generalize (injected payload acoes prazo) as l. intros l.
    assert (Hf : (length (filter valida l) <? 1)%nat
                 = negb (existsb valida l)).
    { induction l as [|a l IH]; [reflexivity|]. simpl.
      destruct (valida a); simpl; [reflexivity | exact IH]. }
    rewrite Hf. destruct (existsb valida l); simpl; [reflexivity|].
    destruct (string_dec msg_acoes msg_acoes); [reflexivity | congruence]. }
  split; [exact Hcount|].
  intros Hi. rewrite Hcount. unfold injected. unfold injects in Hi.
  rewrite Hi, existsb_app.
  assert (Hx : existsb valida [acao_auto prazo] = true) by reflexivity.
  rewrite Hx, orb_true_r. reflexivity.
Qed.

End FieldChecks.

(** ** Validator: the rows, one by one *)

Section RowChecks.

Context {PF : PyFloat} {PL : PyLibs}.

Lemma scan_dict_shape (kvs : dict) :
  seq_ok (scan_dict kvs) = negb (gap kvs)
  /\ last_idx (scan_dict kvs) = last_filled kvs.
Proof.
  unfold scan_dict, gap, last_filled, filled_at.
  cbn [fold_left existsb]. unfold scan_pos_dict.
  change (2 - 1) with 1. change (3 - 1) with 2.
  change (4 - 1) with 3. change (5 - 1) with 4.
  change (1 <? 1) with false. change (1 <? 2) with true.
  change (1 <? 3) with true. change (1 <? 4) with true.
  change (1 <? 5) with true. cbv iota.
  generalize (truthy (dict_get kvs (pq 1))) as b1.
  generalize (truthy (dict_get kvs (pq 2))) as b2.
  generalize (truthy (dict_get kvs (pq 3))) as b3.
  generalize (truthy (dict_get kvs (pq 4))) as b4.
  generalize (truthy (dict_get kvs (pq 5))) as b5.
  intros [] [] [] [] []; split; reflexivity.
Qed.

Lemma nth_done (done rest : list pyval) (i : nat) :
  at_row i done rest ->
  (i - 1 <? length (done ++ rest))%nat
  = match rest with [] => false | _ :: _ => true end
  /\ (forall c cs, rest = c :: cs ->
        nth (i - 1) (done ++ rest) VNone = c
        /\ forall x, list_set (done ++ rest) (i - 1) x
                     = (done ++ x :: cs)%list).
Proof.
  intros [Hle Hd]. split.
  - rewrite length_app. destruct rest; simpl.
    + apply Nat.ltb_ge. lia.
    + apply Nat.ltb_lt. rewrite <- Hd by discriminate. lia.
  - intros c cs E. subst rest. rewrite <- Hd by discriminate. split.
    + rewrite app_nth2 by lia. rewrite Nat.sub_diag. reflexivity.
    + intros x. clear Hd Hle. induction done as [|d done IH]; simpl.
      * reflexivity.
      * rewrite IH. reflexivity.
Qed.

Lemma py_or_dict (info : pyval) :
  is_dict info = true -> py_or info (VDict []) = VDict (row_dict info).
Proof.
  destruct info; try discriminate. intros _. unfold py_or.
  destruct kvs; reflexivity.
Qed.

(** One row of the loop, on readable input. *)
Lemma check_row_exact (st : whys_state) (i : nat) (row : pyval)
  (done rest : list pyval) :
  row_ok row = true ->
  w_causas st = (done ++ rest)%list ->
  forallb is_dict rest = true ->
  at_row i done rest ->
  check_row st (i, row)
  = Ok (mkwhys (w_erros st ++ row_msgs i row (first_info rest))
          (linhas_validas st
           + (if 4 <=? filled (row_dict row) then 1 else 0))
          (done ++ match rest with
                   | [] => []
                   | c :: cs => causa_after row c :: cs
                   end)).
Proof.
  intros Hrow Hc Hr Hd. unfold check_row.
  rewrite (scan_row_on_dict _ Hrow), bind_Ok.
  rewrite scan_dict_filled.
  destruct (scan_dict_shape (row_dict row)) as [Hs Hl].
  rewrite Hs, Hl, Hc.
  destruct (nth_done done rest i Hd) as [Hin Hnth].
  rewrite Hin. unfold row_msgs, sem_causa.
  assert (Hv : (if 4 <=? filled (row_dict row)
                then linhas_validas st + 1 else linhas_validas st)
               = linhas_validas st
                 + (if 4 <=? filled (row_dict row) then 1 else 0)).
  { destruct (4 <=? filled (row_dict row)); lia. }
  rewrite Hv. clear Hv.
  destruct rest as [|c cs].
  - simpl first_info. simpl py_or. simpl row_dict.
    change (py_get (VDict []) "causa") with (@Ok pyval VNone).
    destruct (gap (row_dict row)); simpl negb;
      destruct (0 <? filled (row_dict row)); simpl;
      rewrite ?app_nil_r, <- ?app_assoc; reflexivity.
  - destruct (Hnth c cs eq_refl) as [En Es]. rewrite En.
    simpl in Hr. apply andb_true_iff in Hr. destruct Hr as [Hcd _].
    simpl first_info. rewrite (py_or_dict c Hcd).
    change (py_get (VDict (row_dict c)) "causa")
      with (@Ok pyval (dict_get (row_dict c) "causa")).
    unfold causa_after, sem_causa.
    destruct c as [| | | | | | | | |kvs|]; try discriminate Hcd.
    simpl row_dict.
    destruct (0 <? filled (row_dict row)); rewrite ?bind_Ok;
      [destruct (truthy (dict_get kvs "causa"))|]; simpl negb; simpl andb;
      cbv iota; simpl py_setitem; rewrite ?bind_Ok, ?Es;
      destruct (gap (row_dict row)); simpl negb; cbv iota;
      rewrite ?app_nil_r, <- ?app_assoc; reflexivity.
Qed.

Lemma causa_after_dict (row c : pyval) :
  is_dict c = true -> is_dict (causa_after row c) = true.
Proof.
  intros H. unfold causa_after.
  destruct (sem_causa (row_dict row) c); [exact H | reflexivity].
Qed.

(** The loop over the rows, on readable input: the messages and the cause
    entries it leaves. *)
Lemma rows_loop_exact (whys : list pyval) :
  forall (i : nat) (st : whys_state) (done rest : list pyval),
    forallb row_ok whys = true ->
    w_causas st = (done ++ rest)%list ->
    forallb is_dict rest = true ->
    (1 <= i)%nat ->
    at_row i done rest ->
    for_each (enumerate_from i whys) check_row st
    = Ok (mkwhys (w_erros st ++ linhas_msgs i whys rest)
            (linhas_validas st + deep_rows whys)
            (done ++ causas_after whys rest)).
Proof.
  induction whys as [|row ws IH]; intros i st done rest Hw Hc Hr Hi Hd.
  - simpl. unfold deep_rows. simpl. rewrite app_nil_r, Z.add_0_r, <- Hc.
    destruct st; reflexivity.
  - simpl in Hw. apply andb_true_iff in Hw. destruct Hw as [Hrow Hws].
    unfold enumerate_from.
    change (for_each (combine (seq i (length (row :: ws))) (row :: ws))
              check_row st)
      with (bind (check_row st (i, row))
              (fun s' => for_each (enumerate_from (S i) ws) check_row s')).
    rewrite (check_row_exact st i row done rest Hrow Hc Hr Hd), bind_Ok.
    assert (Hdeep : forall z,
               z + (if 4 <=? filled (row_dict row) then 1 else 0)
               + deep_rows ws = z + deep_rows (row :: ws)).
    { intros z. unfold deep_rows. simpl filter.
      destruct (4 <=? filled (row_dict row)); simpl length; lia. }
    destruct Hd as [Hle Hd].
    destruct rest as [|c cs].
    + rewrite (IH (S i) _ done []); auto.
      * simpl w_erros. simpl linhas_validas. rewrite Hdeep.
        simpl linhas_msgs. rewrite <- app_assoc.
        replace (causas_after ws []) with (@nil pyval)
          by (destruct ws; reflexivity).
        reflexivity.
      * split; [lia | congruence].
    + simpl in Hr. apply andb_true_iff in Hr. destruct Hr as [Hcd Hcs].
      rewrite (IH (S i) _ (done ++ [causa_after row c])%list cs); auto.
      * simpl w_erros. simpl linhas_validas. rewrite Hdeep.
        simpl linhas_msgs. simpl causas_after.
        rewrite <- !app_assoc. reflexivity.
      * simpl w_causas. rewrite <- app_assoc. reflexivity.
      * pose proof (Hd ltac:(discriminate)) as Hl.
        split; [rewrite length_app; simpl; lia|].
        intros _. rewrite length_app. simpl. lia.
Qed.

Lemma linha_msgs_linha (whys : list pyval) :
  forall i rest, forallb linha_msg (linhas_msgs i whys rest) = true.
Proof.
  induction whys as [|row ws IH]; intros i rest; [reflexivity|].
  simpl. rewrite forallb_app, IH, andb_true_r. unfold row_msgs.
  rewrite forallb_app.
  destruct (gap (row_dict row));
    destruct (sem_causa (row_dict row) (first_info rest)); reflexivity.
Qed.

(** Validation on readable input, in closed form: the field messages, the
    row messages, the two global messages; the cause entries; the
    actions. *)
Lemma validar_payload_exact (clk : clock) (payload : dict)
  (whys causas acoes : list pyval) (prazo : pydate) :
  forallb row_ok whys = true ->
  forallb is_dict causas = true ->
  forallb acao_ok acoes = true ->
  (injects payload acoes = true ->
   date_add_days (today clk) 30 = Ok prazo) ->
  validar_payload clk payload whys causas acoes
  = Ok ((all_filled (obrig_evento_vals payload) labels
         ++ (if eq_str (dict_get payload "existe_plano") "Sim"
             then all_filled (plan_vals payload) plan_labels else [])
         ++ linhas_msgs 1 whys causas
         ++ (if deep_rows whys <? 1 then [msg_whys] else [])
         ++ (if (length (filter valida (injected payload acoes prazo))
                 <? 1)%nat
             then [msg_acoes] else []))%list,
        causas_after whys causas, injected payload acoes prazo).
Proof.
  intros Hw Hc Ha Hp.
  rewrite validar_payload_phases.
  rewrite (rows_loop_exact whys 1 (mkwhys (erros_campos payload) 0 causas)
             [] causas Hw eq_refl Hc (le_n 1)).
  2: { split; [simpl; lia | reflexivity]. }
  rewrite bind_Ok.
  rewrite (filter_m_dicts _ Ha), bind_Ok.
  rewrite (fase_acoes_ok clk payload _ prazo Ha Hp), bind_Ok.
  cbv beta iota delta [fst snd w_erros linhas_validas w_causas].
  rewrite Z.add_0_l. unfold erros_campos.
  rewrite errors_regroup. reflexivity.
Qed.

(** *** When validation accepts *)

Lemma all_filled_nil (values : dict) (lbls : list (string * string)) :
  all_filled values lbls = [] <-> campos_ok values = true.
Proof.
  induction values as [|[k v] r IH]; [simpl; tauto|].
  rewrite all_filled_cons, campo_erro_vazio. simpl campos_ok.
  destruct (campo_vazio v); simpl.
  - split; discriminate.
  - exact IH.
Qed.

Lemma linhas_msgs_nil (whys : list pyval) :
  forall i rest, linhas_msgs i whys rest = [] <-> linhas_ok whys rest = true.
Proof.
  induction whys as [|row ws IH]; intros i rest; [simpl; tauto|].
  simpl. unfold row_msgs.
  destruct (gap (row_dict row)); simpl; [split; discriminate|].
  destruct (sem_causa (row_dict row) (first_info rest)); simpl;
    [split; discriminate|].
  apply IH.
Qed.

Lemma app_nil_iff (a b : list string) :
  (a ++ b)%list = [] <-> a = [] /\ b = [].
Proof.
  split.
  - apply app_eq_nil.
  - intros [-> ->]. reflexivity.
Qed.

(** What validation accepts: on readable input it returns, and the list of
    errors is empty exactly when none of the values the field checks look
    at is [None] or blank text (the plan fields only when the plan flag is
    "Sim"), no row has a filled position right after an empty one, every row
    with a filled position has a truthy cause, some row has at least four
    filled positions, and after the injection step some action has both a
    description and a responsible. *)
Theorem validar_payload_accepts (clk : clock) (payload : dict)
  (whys causas acoes : list pyval) (prazo : pydate) :
  forallb row_ok whys = true ->
  forallb is_dict causas = true ->
  forallb acao_ok acoes = true ->
  (injects payload acoes = true ->
   date_add_days (today clk) 30 = Ok prazo) ->
  exists erros causas',
    validar_payload clk payload whys causas acoes
    = Ok (erros, causas', injected payload acoes prazo)
    /\ (erros = [] <-> aceita payload whys causas acoes prazo = true).
Proof.
  intros Hw Hc Ha Hp.
  eexists. exists (causas_after whys causas).
  split; [apply validar_payload_exact; assumption|].
  unfold aceita. rewrite !app_nil_iff, !andb_true_iff.
  rewrite all_filled_nil, linhas_msgs_nil.
  assert (H1 : (if eq_str (dict_get payload "existe_plano") "Sim"
                then all_filled (plan_vals payload) plan_labels else [])
               = []
               <-> (if eq_str (dict_get payload "existe_plano") "Sim"
                    then campos_ok (plan_vals payload) else true) = true).
  { destruct (eq_str (dict_get payload "existe_plano") "Sim");
      [apply all_filled_nil | tauto]. }
  assert (H2 : (if deep_rows whys <? 1 then [msg_whys] else []) = []
               <-> (1 <=? deep_rows whys) = true).
  { destruct (Z.ltb_spec (deep_rows whys) 1);
      destruct (Z.leb_spec 1 (deep_rows whys)); try lia;
      split; try discriminate; auto. }
  assert (H3 : (if (length (filter valida (injected payload acoes prazo))
                    <? 1)%nat
                then [msg_acoes] else []) = []
               <-> existsb valida (injected payload acoes prazo) = true).
  { generalize (injected payload acoes prazo) as l. intros l.
    assert (Hf : (length (filter valida l) <? 1)%nat
                 = negb (existsb valida l)).
    { induction l as [|a l IH]; [reflexivity|]. simpl.
      destruct (valida a); simpl; [reflexivity | exact IH]. }
    rewrite Hf. destruct (existsb valida l); simpl;
      split; try discriminate; auto. }
  rewrite H1, H2, H3. tauto.
Qed.

(** *** The cause entries after validation *)

Lemma last_filled_spec (kvs : dict) :
  (forall j, In j [1; 2; 3; 4; 5] -> last_filled kvs < j ->
             filled_at kvs j = false)
  /\ (last_filled kvs = 0
      \/ (In (last_filled kvs) [1; 2; 3; 4; 5]
          /\ filled_at kvs (last_filled kvs) = true)).
Proof.
  unfold last_filled. cbn [fold_left].
  destruct (filled_at kvs 1) eqn:E1; destruct (filled_at kvs 2) eqn:E2;
    destruct (filled_at kvs 3) eqn:E3; destruct (filled_at kvs 4) eqn:E4;
    destruct (filled_at kvs 5) eqn:E5;
    (split;
     [ intros j Hj Hlt; simpl in Hj;
       repeat (destruct Hj as [Hj | Hj]; [subst j; try lia; assumption|]);
       contradiction
     | first [ left; reflexivity
             | right; split; [simpl; tauto | assumption] ] ]).
Qed.

Lemma causas_after_length (whys : list pyval) :
  forall rest, length (causas_after whys rest) = length rest.
Proof.
  induction whys as [|row ws IH]; intros [|c cs]; simpl; auto.
Qed.

Lemma causas_after_nth (whys : list pyval) :
  forall rest k c,
    nth_error rest k = Some c ->
    nth_error (causas_after whys rest) k
    = Some (match nth_error whys k with
            | Some row => causa_after row c
            | None => c
            end).
Proof.
  induction whys as [|row ws IH]; intros rest k c H.
  - destruct rest; simpl; destruct k; simpl in *; auto.
  - destruct rest as [|c0 cs]; [destruct k; discriminate|].
    destruct k; simpl in *.
    + injection H as H. subst c0. reflexivity.
    + apply IH. exact H.
Qed.

(** Validation rewrites the cause entries in place, and only their key
    [ultimo_por_que]: on readable input the list keeps its length; the entry
    of a row that has a filled position and no cause, and every entry beyond
    the rows, is left as it is; any other entry gets [ultimo_por_que] set to
    the row's last filled position (0 for an empty row) and keeps its other
    keys. *)
Theorem causas_after_validation (clk : clock) (payload : dict)
  (whys causas acoes : list pyval) (prazo : pydate) :
  forallb row_ok whys = true ->
  forallb is_dict causas = true ->
  forallb acao_ok acoes = true ->
  (injects payload acoes = true ->
   date_add_days (today clk) 30 = Ok prazo) ->
  exists erros causas' acoes',
    validar_payload clk payload whys causas acoes
    = Ok (erros, causas', acoes')
    /\ length causas' = length causas
    /\ forall k c,
         nth_error causas k = Some c ->
         exists c',
           nth_error causas' k = Some c'
           /\ (forall key, key <> "ultimo_por_que" ->
                 dict_get (row_dict c') key = dict_get (row_dict c) key)
           /\ (nth_error whys k = None -> c' = c)
           /\ (forall row, nth_error whys k = Some row ->
                 if sem_causa (row_dict row) c then c' = c
                 else dict_get (row_dict c') "ultimo_por_que"
                      = VInt (last_filled (row_dict row))).
Proof.
  intros Hw Hc Ha Hp.
  eexists. exists (causas_after whys causas), (injected payload acoes prazo).
  split; [apply validar_payload_exact; assumption|].
  split; [apply causas_after_length|].
  intros k c Hk. rewrite (causas_after_nth whys causas k c Hk).
  eexists. split; [reflexivity|].
  destruct (nth_error whys k) as [row|].
  - unfold causa_after.
    destruct (sem_causa (row_dict row) c) eqn:Es.
    + split; [reflexivity|]. split; [discriminate|].
      intros row' E. injection E as E. subst row'. rewrite Es. reflexivity.
    + split.
      * intros key Hkey. simpl row_dict. rewrite dict_get_set.
        destruct (String.eqb "ultimo_por_que" key) eqn:E; [|reflexivity].
        apply String.eqb_eq in E. congruence.
      * split; [discriminate|].
        intros row' E. injection E as E. subst row'. rewrite Es.
        simpl row_dict. rewrite dict_get_set, String.eqb_refl. reflexivity.
  - split; [reflexivity|]. split; [reflexivity | discriminate].
Qed.

End RowChecks.

(** ** JSON text read back *)

(** *** Text *)

Lemma str_length_app (a b : string) :
  String.length (a ++ b) = (String.length a + String.length b)%nat.
Proof. induction a as [|c a IH]; simpl; [reflexivity | rewrite IH; reflexivity]. Qed.

Lemma str_app_assoc (a b c : string) : (a ++ b) ++ c = a ++ (b ++ c).
Proof. induction a as [|x a IH]; simpl; [reflexivity | rewrite IH; reflexivity]. Qed.

Lemma substring_all (s : string) (m : nat) :
  (String.length s <= m)%nat -> substring 0 m s = s.
Proof.
  revert m. induction s as [|c s IH]; intros m H; destruct m; simpl in *;
    try reflexivity; try lia.
  rewrite IH by lia. reflexivity.
Qed.

Lemma plain_not_space2 (c c2 : ascii) : plain c = true -> is_space2 c c2 = false.
Proof.
  unfold plain, is_space2. intros H. apply andb_true_iff in H.
  destruct H as [H _]. apply N.ltb_lt in H.
  destruct (N.eqb_spec (byte_of c) 194); [lia | reflexivity].
Qed.

Lemma plain_not_space3 (c c2 c3 : ascii) :
  plain c = true -> is_space3 c c2 c3 = false.
Proof.
  unfold plain, is_space3. intros H. apply andb_true_iff in H.
  destruct H as [H _]. apply N.ltb_lt in H.
  destruct (N.eqb_spec (byte_of c) 225); [lia|].
  destruct (N.eqb_spec (byte_of c) 226); [lia|].
  destruct (N.eqb_spec (byte_of c) 227); [lia|]. reflexivity.
Qed.

Lemma plain_not_space2_last (c c1 : ascii) :
  plain c = true -> is_space2 c1 c = false.
Proof.
  unfold plain, is_space2. intros H. apply andb_true_iff in H.
  destruct H as [H _]. apply N.ltb_lt in H.
  destruct (N.eqb_spec (byte_of c) 133); [lia|].
  destruct (N.eqb_spec (byte_of c) 160); [lia|].
  apply andb_false_r.
Qed.

Lemma plain_not_space3_last (c c1 c2 : ascii) :
  plain c = true -> is_space3 c1 c2 c = false.
Proof.
  unfold plain, is_space3. intros H. apply andb_true_iff in H.
  destruct H as [H _]. apply N.ltb_lt in H.
  destruct (N.eqb_spec (byte_of c) 128); [lia|].
  destruct (N.eqb_spec (byte_of c) 168); [lia|].
  destruct (N.eqb_spec (byte_of c) 169); [lia|].
  destruct (N.eqb_spec (byte_of c) 175); [lia|].
  destruct (N.eqb_spec (byte_of c) 159); [lia|].
  destruct (N.leb_spec 128 (byte_of c)); [lia|].
  simpl. rewrite !andb_false_r. reflexivity.
Qed.

Lemma lstrip_l_plain (c : ascii) (r : list ascii) :
  plain c = true -> lstrip_l (c :: r) = c :: r.
Proof.
  intros H. simpl.
  assert (H1 : is_space1 c = false).
  { unfold plain in H. apply andb_true_iff in H. destruct H as [_ H].
    apply negb_true_iff in H. exact H. }
  rewrite H1. destruct r as [|c2 r2]; [reflexivity|].
  rewrite (plain_not_space2 c c2 H). destruct r2 as [|c3 r3]; [reflexivity|].
  rewrite (plain_not_space3 c c2 c3 H). reflexivity.
Qed.

Lemma rstrip_rev_plain (c : ascii) (r : list ascii) :
  plain c = true -> rstrip_rev (c :: r) = c :: r.
Proof.
  intros H. simpl.
  assert (H1 : is_space1 c = false).
  { unfold plain in H. apply andb_true_iff in H. destruct H as [_ H].
    apply negb_true_iff in H. exact H. }
  rewrite H1. destruct r as [|c2 r2]; [reflexivity|].
  rewrite (plain_not_space2_last c c2 H).
  destruct r2 as [|c3 r3]; [reflexivity|].
  rewrite (plain_not_space3_last c c3 c2 H). reflexivity.
Qed.

Lemma list_ascii_app (a b : string) :
  list_ascii_of_string (a ++ b)
  = (list_ascii_of_string a ++ list_ascii_of_string b)%list.
Proof.
  induction a as [|c a IH]; simpl; [reflexivity | rewrite IH; reflexivity].
Qed.

(** [strip] leaves a text alone when its first and last bytes are plain. *)
Lemma strip_ends (c d : ascii) (m : string) :
  plain c = true -> plain d = true ->
  strip (String c (m ++ String d "")) = String c (m ++ String d "").
Proof.
  intros Hc Hd. unfold strip.
  set (s := String c (m ++ String d "")).
  assert (E : list_ascii_of_string s
              = c :: (list_ascii_of_string m ++ [d])%list).
  { unfold s. simpl. rewrite list_ascii_app. reflexivity. }
  rewrite E, (lstrip_l_plain c _ Hc).
  assert (Er : rev (c :: (list_ascii_of_string m ++ [d])%list)
               = d :: rev (c :: list_ascii_of_string m)).
  { simpl. rewrite rev_app_distr. reflexivity. }
  rewrite Er, (rstrip_rev_plain d _ Hd), <- Er, rev_involutive, <- E.
  apply string_of_list_ascii_of_string.
Qed.

Lemma strip_single (c : ascii) :
  plain c = true -> strip (String c "") = String c "".
Proof.
  intros Hc. unfold strip. simpl list_ascii_of_string.
  rewrite (lstrip_l_plain c [] Hc). change (rev [c]) with [c].
  rewrite (rstrip_rev_plain c [] Hc). reflexivity.
Qed.

Lemma all_plain_ends (s : string) (c : ascii) :
  all_plain (String c s) = true ->
  s = "" \/ exists m d, s = m ++ String d "" /\ plain d = true.
Proof.
  revert c. induction s as [|x s IH]; intros c H; [left; reflexivity|].
  right. simpl in H. apply andb_true_iff in H. destruct H as [_ H].
  destruct (IH x H) as [E | [m [d [E Hd]]]].
  - subst s. exists "", x. split; [reflexivity|].
    simpl in H. apply andb_true_iff in H. apply H.
  - exists (String x m), d. split; [rewrite E; reflexivity | exact Hd].
Qed.

Lemma strip_all_plain (s : string) :
  all_plain s = true -> strip s = s.
Proof.
  destruct s as [|c s]; [reflexivity|]. intros H.
  assert (Hc : plain c = true).
  { simpl in H. apply andb_true_iff in H. apply H. }
  destruct (all_plain_ends s c H) as [E | [m [d [E Hd]]]]; subst s.
  - apply strip_single. exact Hc.
  - apply strip_ends; assumption.
Qed.

Lemma all_plain_app (a b : string) :
  all_plain (a ++ b) = all_plain a && all_plain b.
Proof.
  induction a as [|c a IH]; simpl; [reflexivity|].
  rewrite IH, andb_assoc. reflexivity.
Qed.

(** *** Decimal digits *)

Lemma of_uint_acc_value (d : Decimal.uint) (acc : positive) :
  Z.pos (Pos.of_uint_acc d acc) = uint_value d (Z.pos acc).
Proof.
  revert acc. induction d; intros acc;
    cbn [Pos.of_uint_acc uint_value]; try reflexivity;
    rewrite IHd; f_equal; lia.
Qed.

Lemma of_uint_value (d : Decimal.uint) :
  Z.of_N (Pos.of_uint d) = uint_value d 0.
Proof.
  induction d; cbn [Pos.of_uint uint_value]; try reflexivity;
    try exact IHd; rewrite N2Z.inj_pos, of_uint_acc_value; reflexivity.
Qed.

Lemma digits_value_step (c : ascii) (k : Z) (r : string) (acc : Z)
  (b : bool) :
  digit_of c = Some k ->
  digits_value (String c r) acc b = digits_value r (acc * 10 + k) true.
Proof. intros H. cbn [digits_value]. rewrite H. reflexivity. Qed.

Lemma digits_value_uint_true (d : Decimal.uint) (acc : Z) :
  digits_value (NilEmpty.string_of_uint d) acc true
  = Some (uint_value d acc).
Proof.
  revert acc. induction d; intros acc;
    cbn [NilEmpty.string_of_uint uint_value]; [reflexivity | ..];
    (erewrite digits_value_step by reflexivity);
    rewrite IHd; f_equal; f_equal;
    match goal with
    | |- _ * 10 + ?k = _ =>
        let k' := eval vm_compute in k in change k with k'
    end; lia.
Qed.

Lemma digits_value_uint (d : Decimal.uint) (acc : Z) (b : bool) :
  d <> Decimal.Nil ->
  digits_value (NilEmpty.string_of_uint d) acc b
  = Some (uint_value d acc).
Proof.
  intros H. rewrite <- digits_value_uint_true.
  destruct d; [congruence | ..]; cbn [NilEmpty.string_of_uint];
    (erewrite !digits_value_step by reflexivity); reflexivity.
Qed.

Lemma to_uint_nonnil (n : N) : N.to_uint n <> Decimal.Nil.
Proof.
  destruct n; [discriminate|]. apply DecimalPos.Unsigned.to_uint_nonnil.
Qed.

(** [int] reads the decimal text of a natural number back. *)
Lemma digits_value_str_of_N (n : N) (b : bool) :
  digits_value (str_of_N n) 0 b = Some (Z.of_N n).
Proof.
  unfold str_of_N, NilZero.string_of_uint.
  pose proof (to_uint_nonnil n) as Hn.
  destruct (N.to_uint n) eqn:E; [congruence | ..];
    rewrite <- E; rewrite digits_value_uint by (apply to_uint_nonnil);
    rewrite <- of_uint_value;
    change (Pos.of_uint (N.to_uint n)) with (N.of_uint (N.to_uint n));
    rewrite DecimalN.Unsigned.of_to; reflexivity.
Qed.

Lemma uint_digits (d : Decimal.uint) :
  all_digits (NilEmpty.string_of_uint d) = true.
Proof. induction d; cbn [NilEmpty.string_of_uint all_digits]; auto. Qed.

Lemma nzhead_not_D0 (d u : Decimal.uint) : Decimal.nzhead d <> Decimal.D0 u.
Proof. induction d; simpl; try discriminate. exact IHd. Qed.

Lemma to_uint_unorm (n : N) : Decimal.unorm (N.to_uint n) = N.to_uint n.
Proof.
  rewrite <- DecimalN.Unsigned.to_of, DecimalN.Unsigned.of_to. reflexivity.
Qed.

(** The decimal text of a natural number: digits, at least one, and no
    leading zero unless it is "0". *)
Lemma str_of_N_shape (n : N) :
  all_digits (str_of_N n) = true
  /\ exists c r, str_of_N n = String c r
                 /\ (Ascii.eqb c "0" = true -> r = "").
Proof.
  unfold str_of_N, NilZero.string_of_uint.
  pose proof (to_uint_nonnil n) as Hn. pose proof (to_uint_unorm n) as Hu.
  destruct (N.to_uint n) as [|u|u|u|u|u|u|u|u|u|u] eqn:E; [congruence | ..];
    (split; [apply (uint_digits (_ u))|]);
    cbn [NilEmpty.string_of_uint]; eexists; eexists;
    (split; [reflexivity|]); try discriminate.
  intros _. unfold Decimal.unorm in Hu. simpl Decimal.nzhead in Hu.
  destruct (Decimal.nzhead u) eqn:Ez.
  - destruct u; try reflexivity; injection Hu as Hu; discriminate Hu.
  - exfalso. exact (nzhead_not_D0 u _ Ez).
  - discriminate Hu.
  - discriminate Hu.
  - discriminate Hu.
  - discriminate Hu.
  - discriminate Hu.
  - discriminate Hu.
  - discriminate Hu.
  - discriminate Hu.
  - discriminate Hu.
Qed.

Lemma span_digits_app (ds r : string) :
  all_digits ds = true ->
  match r with EmptyString => true | String c _ => negb (is_digit c) end
  = true ->
  span_digits (ds ++ r) = (ds, r).
Proof.
  intros Hd Hr. induction ds as [|c ds IH].
  - simpl. destruct r as [|c r]; [reflexivity|]. simpl.
    apply negb_true_iff in Hr. rewrite Hr. reflexivity.
  - simpl in Hd. apply andb_true_iff in Hd. destruct Hd as [Hc Hds].
    simpl. rewrite Hc, (IH Hds). reflexivity.
Qed.

Lemma digit_plain (c : ascii) : is_digit c = true -> plain c = true.
Proof.
  unfold is_digit, digit_of, plain, is_space1.
  destruct ((48 <=? byte_of c)%N && (byte_of c <=? 57)%N) eqn:E;
    [|discriminate].
  intros _. apply andb_true_iff in E. destruct E as [E1 E2].
  apply N.leb_le in E1. apply N.leb_le in E2.
  apply andb_true_iff. split; [apply N.ltb_lt; lia|].
  apply negb_true_iff. apply orb_false_iff. split; apply andb_false_iff.
  - right. apply N.leb_gt. lia.
  - right. apply N.leb_gt. lia.
Qed.

Lemma all_digits_plain (s : string) :
  all_digits s = true -> all_plain s = true.
Proof.
  induction s as [|c s IH]; [reflexivity|]. simpl. intros H.
  apply andb_true_iff in H. destruct H as [Hc Hs].
  rewrite (digit_plain c Hc), (IH Hs). reflexivity.
Qed.

Lemma digit_not_sign (c : ascii) (r : string) :
  is_digit c = true ->
  after "-" (String c r) = None /\ after "+" (String c r) = None.
Proof.
  unfold after. intros H. split.
  - destruct (Ascii.eqb_spec c "-") as [-> | _];
      [vm_compute in H; discriminate H | reflexivity].
  - destruct (Ascii.eqb_spec c "+") as [-> | _];
      [vm_compute in H; discriminate H | reflexivity].
Qed.

(** [int(str(z)) = z] *)
Lemma int_of_str_of_Z (z : Z) : int_of_str (str_of_Z z) = Ok z.
Proof.
  unfold int_of_str, str_of_Z.
  destruct (Z.ltb_spec z 0) as [Hneg | Hpos].
  - destruct (str_of_N_shape (Z.to_N (- z))) as [Hd _].
    rewrite strip_all_plain.
    + change (after "-" ("-" ++ str_of_N (Z.to_N (- z))))
        with (Some (str_of_N (Z.to_N (- z)))).
      cbv iota. rewrite digits_value_str_of_N. f_equal. lia.
    + change (all_plain ("-" ++ str_of_N (Z.to_N (- z))))
        with (plain "-" && all_plain (str_of_N (Z.to_N (- z)))).
      rewrite (all_digits_plain _ Hd). reflexivity.
  - destruct (str_of_N_shape (Z.to_N z)) as [Hd [c [r [E _]]]].
    rewrite strip_all_plain by (apply all_digits_plain; exact Hd).
    assert (Hc : is_digit c = true).
    { rewrite E in Hd. simpl in Hd. apply andb_true_iff in Hd. apply Hd. }
    rewrite E. destruct (digit_not_sign c r Hc) as [E1 E2].
    rewrite E1, E2. rewrite <- E, digits_value_str_of_N. f_equal. lia.
Qed.

(** *** Quoted text *)

(** One character: the decoder undoes what the encoder wrote for it. *)
Lemma scanstring_escape_char (c : ascii) (f : nat) (r : string) :
  scanstring (S f) (json_escape_char c ++ r)
  = ('(t, rest) <- scanstring f r ;; Ok (String c t, rest)).
Proof.
  destruct c as [[] [] [] [] [] [] [] []]; reflexivity.
Qed.

Lemma escape_char_length (c : ascii) :
  (1 <= String.length (json_escape_char c))%nat.
Proof.
  destruct c as [[] [] [] [] [] [] [] []]; vm_compute; lia.
Qed.

(** The string scanner reads an escaped text up to its closing quote. *)
Lemma scanstring_escape (s : string) :
  forall (f : nat) (rest : string),
    (String.length s < f)%nat ->
    scanstring f (json_escape s ++ quote ++ rest) = Ok (s, rest).
Proof.
  induction s as [|c s IH]; intros f rest Hf.
  - destruct f; [simpl in Hf; lia|]. reflexivity.
  - destruct f; [simpl in Hf; lia|].
    cbn [json_escape]. rewrite str_app_assoc, scanstring_escape_char.
    rewrite IH by (simpl in Hf; lia). reflexivity.
Qed.

Lemma json_escape_length (s : string) :
  (String.length s <= String.length (json_escape s))%nat.
Proof.
  induction s as [|c s IH]; [reflexivity|].
  cbn [json_escape]. rewrite str_length_app.
  pose proof (escape_char_length c). simpl. lia.
Qed.

(** *** The decoder on the encoder's text *)

Section JsonBack.

Context {PF : PyFloat} {PL : PyLibs}.

Lemma after_number_parts (rest : string) :
  after_number rest = true ->
  match rest with EmptyString => true | String c _ => negb (is_digit c) end
  = true
  /\ after "." rest = None
  /\ match rest with
     | String e _ => Ascii.eqb e "e" || Ascii.eqb e "E"
     | EmptyString => false
     end = false.
Proof.
  destruct rest as [|c r]; [auto|]. unfold after_number, after.
  rewrite !andb_true_iff, !negb_true_iff. intros [[[H1 H2] H3] H4].
  rewrite H1, H3, H4. rewrite Ascii.eqb_sym in H2. 
  rewrite Ascii.eqb_sym, H2. auto.
Qed.

(** The number scanner on the digits of a natural number. *)
Lemma scan_digits (neg : string) (n : N) (rest : string) :
  after_number rest = true ->
  match str_of_N n ++ rest with
  | String c r =>
      if is_digit c then
        let '(ipart, s2) :=
          if Ascii.eqb c "0" then ("0", r)
          else span_digits (str_of_N n ++ rest) in
        let '(frac, s3) :=
          match after "." s2 with
          | Some r' =>
              let '(ds, t) := span_digits r' in
              if str_empty ds then ("", s2) else ("." ++ ds, t)
          | None => ("", s2)
          end in
        let '(ex, s4) :=
          match s3 with
          | String e r' =>
              if Ascii.eqb e "e" || Ascii.eqb e "E" then
                let '(sg, r2) :=
                  match after "-" r', after "+" r' with
                  | Some t, _ => ("-", t)
                  | None, Some t => ("+", t)
                  | None, None => ("", r')
                  end in
                let '(ds, t) := span_digits r2 in
                if str_empty ds then ("", s3)
                else (String e sg ++ ds, t)
              else ("", s3)
          | EmptyString => ("", s3)
          end in
        if str_empty frac && str_empty ex then
          z <- int_of_str (neg ++ ipart) ;; Ok (VInt z, s4)
        else
          f <- float_of_str (neg ++ ipart ++ frac ++ ex) ;; Ok (VFloat f, s4)
      else Raise JSONDecodeError
  | EmptyString => Raise JSONDecodeError
  end
  = (z <- int_of_str (neg ++ str_of_N n) ;; Ok (VInt z, rest)).
Proof.
  intros Hr. destruct (after_number_parts rest Hr) as [R1 [R2 R3]].
  destruct (str_of_N_shape n) as [Hd [c [r0 [E Hz]]]].
  assert (Hc : is_digit c = true).
  { rewrite E in Hd. simpl in Hd. apply andb_true_iff in Hd. apply Hd. }
  assert (Hsp : (if Ascii.eqb c "0" then ("0", r0 ++ rest)
                 else span_digits (str_of_N n ++ rest))
                = (str_of_N n, rest)).
  { destruct (Ascii.eqb c "0") eqn:E0.
    - rewrite (Hz eq_refl) in *. apply Ascii.eqb_eq in E0. subst c.
      rewrite E. reflexivity.
    - apply span_digits_app; assumption. }
  rewrite E at 1. cbn [append]. rewrite Hc, Hsp, R2.
  destruct rest as [|e r']; [reflexivity|].
  rewrite R3. reflexivity.
Qed.

(** The number scanner reads the text of an int back. *)
Lemma scan_number_int (z : Z) (rest : string) :
  after_number rest = true ->
  scan_number (str_of_Z z ++ rest) = Ok (VInt z, rest).
Proof.
  intros Hr. unfold scan_number.
  pose proof (int_of_str_of_Z z) as Hi. unfold str_of_Z in *.
  destruct (z <? 0).
  - change (after "-" (("-" ++ str_of_N (Z.to_N (- z))) ++ rest))
      with (Some (str_of_N (Z.to_N (- z)) ++ rest)).
    cbv iota. rewrite (scan_digits "-" _ rest Hr), Hi. reflexivity.
  - destruct (str_of_N_shape (Z.to_N z)) as [Hd [c [r0 [E _]]]].
    assert (Hc : is_digit c = true).
    { rewrite E in Hd. simpl in Hd. apply andb_true_iff in Hd. apply Hd. }
    assert (Ea : after "-" (str_of_N (Z.to_N z) ++ rest) = None).
    { rewrite E. apply (digit_not_sign c (r0 ++ rest) Hc). }
    rewrite Ea. cbv iota.
    rewrite (scan_digits "" _ rest Hr). cbn [append]. rewrite Hi.
    reflexivity.
Qed.

(** One unfolding of the three scanners. *)
Lemma scan_once_eq (f : nat) (c : ascii) (r : string) :
  scan_once (S f) (String c r)
  = (let s := String c r in
     let n := byte_of c in
     if (n =? 34)%N then
       '(t, rest) <- scanstring (String.length r) r ;; Ok (VStr t, rest)
     else if Ascii.eqb c "{" then
       match after "}" (skip_ws r) with
       | Some r' => Ok (VDict [], r')
       | None =>
           '(kvs, rest) <- scan_object f (skip_ws r) [] ;;
           Ok (VDict kvs, rest)
       end
     else if Ascii.eqb c "[" then
       match after "]" (skip_ws r) with
       | Some r' => Ok (VList [], r')
       | None =>
           '(vs, rest) <- scan_array f (skip_ws r) ;;
           Ok (VList vs, rest)
       end
     else if Ascii.eqb c "n" then literal "null" (Ok VNone) s
     else if Ascii.eqb c "t" then literal "true" (Ok (VBool true)) s
     else if Ascii.eqb c "f" then literal "false" (Ok (VBool false)) s
     else if Ascii.eqb c "N" then
       literal "NaN" (x <- float_of_str "nan" ;; Ok (VFloat x)) s
     else if Ascii.eqb c "I" then
       literal "Infinity" (x <- float_of_str "inf" ;; Ok (VFloat x)) s
     else if prefixb "-Infinity" s then
       literal "-Infinity" (x <- float_of_str "-inf" ;; Ok (VFloat x)) s
     else scan_number s).
Proof. reflexivity. Qed.

Lemma scan_array_eq (f : nat) (s : string) :
  scan_array (S f) s
  = ('(v, r) <- scan_once f s ;;
     match after "]" (skip_ws r), after "," (skip_ws r) with
     | Some r', _ => Ok ([v], r')
     | None, Some r' =>
         '(vs, rest) <- scan_array f (skip_ws r') ;; Ok (v :: vs, rest)
     | None, None => Raise JSONDecodeError
     end).
Proof. reflexivity. Qed.

Lemma scan_object_eq (f : nat) (q : ascii) (r : string) (acc : dict) :
  scan_object (S f) (String q r) acc
  = (if (byte_of q =? 34)%N then
       '(k, r1) <- scanstring (String.length r) r ;;
       match after ":" (skip_ws r1) with
       | Some r2 =>
           '(v, r3) <- scan_once f (skip_ws r2) ;;
           let acc' := dict_set acc k v in
           match after "}" (skip_ws r3), after "," (skip_ws r3) with
           | Some r4, _ => Ok (acc', r4)
           | None, Some r4 => scan_object f (skip_ws r4) acc'
           | None, None => Raise JSONDecodeError
           end
       | None => Raise JSONDecodeError
       end
     else Raise JSONDecodeError).
Proof. reflexivity. Qed.

(** The first character of a number's text is none of the characters the
    scanner tests before it tries a number. *)
Lemma scan_once_number (f : nat) (z : Z) (rest : string) :
  after_number rest = true ->
  scan_once (S f) (str_of_Z z ++ rest) = Ok (VInt z, rest).
Proof.
  intros Hr. rewrite <- (scan_number_int z rest Hr).
  unfold str_of_Z. destruct (z <? 0).
  - destruct (str_of_N_shape (Z.to_N (- z))) as [Hd [c [r0 [E _]]]].
    assert (Hc : is_digit c = true).
    { rewrite E in Hd. simpl in Hd. apply andb_true_iff in Hd. apply Hd. }
    rewrite E.
    change (("-" ++ String c r0) ++ rest)
      with (String "-" (String c (r0 ++ rest))).
    rewrite scan_once_eq.
    assert (Hi : prefixb "-Infinity" (String "-" (String c (r0 ++ rest)))
                 = false).
    { cbn [prefixb]. destruct (Ascii.eqb_spec "I" c) as [<- | _];
        [vm_compute in Hc; discriminate Hc | reflexivity]. }
    cbv zeta. rewrite Hi. reflexivity.
  - destruct (str_of_N_shape (Z.to_N z)) as [Hd [c [r0 [E _]]]].
    assert (Hc : is_digit c = true).
    { rewrite E in Hd. simpl in Hd. apply andb_true_iff in Hd. apply Hd. }
    rewrite E. change (String c r0 ++ rest) with (String c (r0 ++ rest)).
    rewrite scan_once_eq. cbv zeta.
    assert (Hq : (byte_of c =? 34)%N = false).
    { destruct (N.eqb_spec (byte_of c) 34) as [Eq | _]; [|reflexivity].
      unfold is_digit, digit_of in Hc. rewrite Eq in Hc.
      vm_compute in Hc. discriminate Hc. }
    rewrite Hq.
    assert (Hne : forall x : ascii, is_digit x = false ->
                                    Ascii.eqb c x = false).
    { intros x Hx. destruct (Ascii.eqb_spec c x) as [<- | _];
        [congruence | reflexivity]. }
    rewrite !Hne by reflexivity.
    assert (Hi : prefixb "-Infinity" (String c (r0 ++ rest)) = false).
    { cbn [prefixb]. rewrite Ascii.eqb_sym, Hne by reflexivity.
      reflexivity. }
    rewrite Hi. reflexivity.
Qed.

(** *** Values the round trip keeps *)

Lemma json_plain_list (l : list pyval) :
  json_plain (VList l) = all_json_plain l.
Proof. reflexivity. Qed.

Lemma json_plain_dict (kvs : list (string * pyval)) :
  json_plain (VDict kvs)
  = all_values_json_plain kvs && distinct (map fst kvs).
Proof. reflexivity. Qed.

Lemma cost_list (l : list pyval) : cost (VList l) = S (cost_items l).
Proof. reflexivity. Qed.

Lemma cost_dict (kvs : list (string * pyval)) :
  cost (VDict kvs) = S (cost_pairs kvs).
Proof. reflexivity. Qed.

Lemma opens_skip_ws (c : ascii) (r : string) :
  opens c = true -> skip_ws (String c r) = String c r.
Proof.
  unfold opens, plain. rewrite !andb_true_iff, !negb_true_iff.
  intros [[[Hb Hs] _] _]. cbn [skip_ws].
  assert (E : skip_json_ws_char c = false).
  { unfold skip_json_ws_char. unfold is_space1 in Hs.
    apply orb_false_iff in Hs. destruct Hs as [H1 H2].
    destruct (N.eqb_spec (byte_of c) 32) as [E | _];
      [rewrite E in H2; discriminate H2|].
    destruct (N.eqb_spec (byte_of c) 9) as [E | _];
      [rewrite E in H1; discriminate H1|].
    destruct (N.eqb_spec (byte_of c) 10) as [E | _];
      [rewrite E in H1; discriminate H1|].
    destruct (N.eqb_spec (byte_of c) 13) as [E | _];
      [rewrite E in H1; discriminate H1|].
    reflexivity. }
  rewrite E. reflexivity.
Qed.

Lemma digit_opens (c : ascii) : is_digit c = true -> opens c = true.
Proof.
  intros H. unfold opens. rewrite (digit_plain c H).
  destruct (Ascii.eqb_spec c "]") as [-> | _];
    [vm_compute in H; discriminate H|].
  destruct (Ascii.eqb_spec c "}") as [-> | _];
    [vm_compute in H; discriminate H|].
  reflexivity.
Qed.

(** The text of a value starts with such a character. *)
Lemma json_dumps_opens (v : pyval) (s : string) :
  json_plain v = true -> json_dumps v = Ok s ->
  exists c t, s = String c t /\ opens c = true.
Proof.
  destruct v; try discriminate; intros _ H.
  - injection H as <-. eexists. eexists. split; reflexivity.
  - injection H as <-. destruct b; eexists; eexists; split; reflexivity.
  - injection H as <-. unfold str_of_Z. destruct (z <? 0).
    + eexists. eexists. split; reflexivity.
    + destruct (str_of_N_shape (Z.to_N z)) as [Hd [c [r0 [E _]]]].
      exists c, r0. split; [exact E|]. apply digit_opens.
      rewrite E in Hd. simpl in Hd. apply andb_true_iff in Hd. apply Hd.
  - injection H as <-. eexists. eexists. split; reflexivity.
  - rewrite json_dumps_list in H.
    destruct (dumps_items l) as [items|]; [|discriminate].
    rewrite bind_Ok in H. injection H as <-.
    eexists. eexists. split; reflexivity.
  - rewrite json_dumps_dict in H.
    destruct (dumps_pairs kvs) as [items|]; [|discriminate].
    rewrite bind_Ok in H. injection H as <-.
    eexists. eexists. split; reflexivity.
Qed.

(** Induction on values, through lists and dicts. *)
Lemma pyval_nested_ind (P : pyval -> Prop) :
  P VNone -> (forall b, P (VBool b)) -> (forall z, P (VInt z)) ->
  (forall f, P (VFloat f)) -> (forall s, P (VStr s)) ->
  (forall d, P (VDate d)) -> (forall t, P (VTime t)) ->
  (forall d t, P (VDatetime d t)) ->
  (forall l, Forall P l -> P (VList l)) ->
  (forall kvs, Forall (fun kv : string * pyval => P (snd kv)) kvs ->
               P (VDict kvs)) ->
  (forall n, P (VUpload n)) ->
  forall v, P v.
Proof.
  intros H1 H2 H3 H4 H5 H6 H7 H8 H9 H10 H11.
  fix IH 1. intros v.
  destruct v as [|b|z|f|s|d|t|d t|l|kvs|n];
    [ apply H1 | apply H2 | apply H3 | apply H4 | apply H5 | apply H6
    | apply H7 | apply H8 | | | apply H11 ].
  - apply H9. induction l as [|x r IHl]; constructor; [apply IH | exact IHl].
  - apply H10. induction kvs as [|[k x] r IHl]; constructor;
      [apply IH | exact IHl].
Qed.

Lemma join_cons2 (sep x y : string) (r : list string) :
  join sep (x :: y :: r) = x ++ sep ++ join sep (y :: r).
Proof. reflexivity. Qed.

Lemma dumps_items_cons (x : pyval) (r : list pyval) (items : list string) :
  dumps_items (x :: r) = Ok items ->
  exists sx sr, json_dumps x = Ok sx /\ dumps_items r = Ok sr
                /\ items = sx :: sr.
Proof.
  simpl. destruct (json_dumps x) as [sx|]; [|discriminate].
  rewrite bind_Ok. destruct (dumps_items r) as [sr|]; [|discriminate].
  rewrite bind_Ok. intros H. injection H as <-. eauto.
Qed.

Lemma dumps_pairs_cons (k : string) (x : pyval)
  (r : list (string * pyval)) (items : list string) :
  dumps_pairs ((k, x) :: r) = Ok items ->
  exists sx sr, json_dumps x = Ok sx /\ dumps_pairs r = Ok sr
                /\ items = (json_quote k ++ ": " ++ sx) :: sr.
Proof.
  simpl. destruct (json_dumps x) as [sx|]; [|discriminate].
  rewrite bind_Ok. destruct (dumps_pairs r) as [sr|]; [|discriminate].
  rewrite bind_Ok. intros H. injection H as <-. eauto.
Qed.

(** The elements of a list that is not empty. *)
Lemma scan_items (l : list pyval) :
  Forall reads_back l -> all_json_plain l = true ->
  forall items fuel rest,
    dumps_items l = Ok items -> l <> [] ->
    (cost_items l <= fuel)%nat ->
    scan_array fuel (join ", " items ++ "]" ++ rest) = Ok (l, rest).
Proof.
  induction l as [|x r IHl]; intros HF Hp items fuel rest Hd Hne Hfuel;
    [congruence|].
  inversion HF as [|x0 r0 Hx Hr]. subst x0 r0.
  simpl in Hp. apply andb_true_iff in Hp. destruct Hp as [Hpx Hpr].
  destruct (dumps_items_cons x r items Hd) as [sx [sr [Ex [Er Ei]]]].
  subst items. simpl in Hfuel.
  destruct fuel as [|f]; [lia|]. rewrite scan_array_eq.
  destruct r as [|y r'].
  - injection Er as <-. cbn [join].
    rewrite (Hx Hpx sx f ("]" ++ rest) Ex) by (try lia; reflexivity).
    reflexivity.
  - destruct (dumps_items_cons y r' sr Er) as [sy [sr' [Ey [Er' Ei]]]].
    subst sr. rewrite join_cons2, !str_app_assoc.
    rewrite (Hx Hpx sx f _ Ex) by (try lia; reflexivity).
    rewrite bind_Ok.
    simpl in Hpr. pose proof Hpr as Hpr2.
    apply andb_true_iff in Hpr2. destruct Hpr2 as [Hpy _].
    destruct (json_dumps_opens y sy Hpy Ey) as [c [t [Es Ho]]].
    assert (Ej : exists t', join ", " (sy :: sr') ++ "]" ++ rest
                            = String c t').
    { subst sy. destruct sr'; cbn [join append]; eexists; reflexivity. }
    destruct Ej as [t' Ej].
    change (skip_ws (", " ++ join ", " (sy :: sr') ++ "]" ++ rest))
      with (skip_ws (String "," (String " " (join ", " (sy :: sr')
                                              ++ "]" ++ rest)))).
    cbn [skip_ws]. change (skip_json_ws_char ",") with false. cbv iota.
    change (after "]" (String "," ?x)) with (@None string).
    cbn [after]. change (Ascii.eqb "," "]") with false.
    change (Ascii.eqb "," ",") with true. cbv iota.
    cbn [skip_ws]. change (skip_json_ws_char " ") with true. cbv iota.
    rewrite Ej, (opens_skip_ws c t' Ho), <- Ej.
    rewrite (IHl Hr Hpr (sy :: sr') f rest Er) by (try discriminate; lia).
    reflexivity.
Qed.

Lemma dict_set_fresh (acc : dict) (k : string) (x : pyval) :
  has_key acc k = false -> dict_set acc k x = (acc ++ [(k, x)])%list.
Proof.
  induction acc as [|[k0 v0] r IH]; simpl; intros H; [reflexivity|].
  apply orb_false_iff in H. destruct H as [H0 Hr].
  rewrite H0, (IH Hr). reflexivity.
Qed.

Lemma has_key_app (a b : dict) (k : string) :
  has_key (a ++ b)%list k = has_key a k || has_key b k.
Proof. unfold has_key. apply existsb_app. Qed.

(** One entry of a dict: the key, the colon, the value. *)
Lemma scan_entry (f : nat) (k sx : string) (x : pyval) (tail : string)
  (acc : dict) :
  reads_back x -> json_plain x = true -> json_dumps x = Ok sx ->
  (cost x <= f)%nat -> after_number tail = true ->
  scan_object (S f) ((json_quote k ++ ": " ++ sx) ++ tail) acc
  = (let acc' := dict_set acc k x in
     match after "}" (skip_ws tail), after "," (skip_ws tail) with
     | Some r4, _ => Ok (acc', r4)
     | None, Some r4 => scan_object f (skip_ws r4) acc'
     | None, None => Raise JSONDecodeError
     end).
Proof.
  intros Hx Hp Ex Hf Ht.
  destruct (json_dumps_opens x sx Hp Ex) as [c [t [Es Ho]]].
  unfold json_quote.
  assert (E : (String (ascii_of_N 34) (json_escape k)
               ++ String (ascii_of_N 34) "" ++ ": " ++ sx) ++ tail
              = String (ascii_of_N 34)
                  (json_escape k ++ quote
                   ++ String ":" (String " " (sx ++ tail)))).
  { cbn [append]. f_equal. rewrite !str_app_assoc. reflexivity. }
  assert (E0 : (String (ascii_of_N 34) (json_escape k)
                ++ String (ascii_of_N 34) "") ++ ": " ++ sx
               = String (ascii_of_N 34) (json_escape k)
                 ++ String (ascii_of_N 34) "" ++ ": " ++ sx).
  { rewrite str_app_assoc. reflexivity. }
  rewrite E0, E, scan_object_eq.
  change (byte_of (ascii_of_N 34) =? 34)%N with true. cbv iota.
  rewrite scanstring_escape.
  2: { rewrite str_length_app. pose proof (json_escape_length k).
       simpl. lia. }
  rewrite bind_Ok. cbv iota beta.
  cbn [skip_ws]. change (skip_json_ws_char ":") with false. cbv iota.
  cbn [after]. change (Ascii.eqb ":" ":") with true. cbv iota.
  cbn [skip_ws]. change (skip_json_ws_char " ") with true. cbv iota.
  rewrite Es. change (String c t ++ tail) with (String c (t ++ tail)).
  rewrite (opens_skip_ws c _ Ho).
  change (String c (t ++ tail)) with (String c t ++ tail). rewrite <- Es.
  rewrite (Hx Hp sx f tail Ex Hf Ht), bind_Ok. reflexivity.
Qed.

(** The entries of a dict that is not empty. *)
Lemma scan_pairs (kvs : list (string * pyval)) :
  Forall (fun kv : string * pyval => reads_back (snd kv)) kvs ->
  all_values_json_plain kvs = true ->
  forall items fuel rest acc,
    dumps_pairs kvs = Ok items -> kvs <> [] ->
    distinct (map fst kvs) = true ->
    (forall k, In k (map fst kvs) -> has_key acc k = false) ->
    (cost_pairs kvs <= fuel)%nat ->
    scan_object fuel (join ", " items ++ "}" ++ rest) acc
    = Ok ((acc ++ kvs)%list, rest).
Proof.
  induction kvs as [|[k x] r IHl];
    intros HF Hp items fuel rest acc Hd Hne Hdis Hacc Hfuel; [congruence|].
  inversion HF as [|x0 r0 Hx Hr]. subst x0 r0. simpl in Hx.
  simpl in Hp. apply andb_true_iff in Hp. destruct Hp as [Hpx Hpr].
  destruct (dumps_pairs_cons k x r items Hd) as [sx [sr [Ex [Er Ei]]]].
  subst items. simpl in Hfuel.
  simpl in Hdis. apply andb_true_iff in Hdis. destruct Hdis as [Hk Hdr].
  apply negb_true_iff in Hk.
  assert (Hset : dict_set acc k x = (acc ++ [(k, x)])%list).
  { apply dict_set_fresh. apply Hacc. left. reflexivity. }
  destruct fuel as [|f]; [lia|].
  destruct r as [|[k' y] r'].
  - injection Er as <-. cbn [join].
    rewrite (scan_entry f k sx x ("}" ++ rest) acc Hx Hpx Ex)
      by (try lia; reflexivity).
    cbv zeta. rewrite Hset. reflexivity.
  - destruct (dumps_pairs_cons k' y r' sr Er) as [sy [sr' [Ey [Er' Ei]]]].
    subst sr. rewrite join_cons2.
    rewrite (str_app_assoc (json_quote k ++ ": " ++ sx)).
    rewrite (scan_entry f k sx x _ acc Hx Hpx Ex)
      by (try lia; reflexivity).
    cbv zeta. rewrite Hset.
    change (skip_ws ((", " ++ join ", " ((json_quote k' ++ ": " ++ sy)
                                           :: sr'))
                     ++ "}" ++ rest))
      with (skip_ws (String "," (String " "
              (join ", " ((json_quote k' ++ ": " ++ sy) :: sr')
               ++ "}" ++ rest)))).
    cbn [skip_ws]. change (skip_json_ws_char ",") with false. cbv iota.
    change (after "}" (String "," ?z)) with (@None string).
    cbn [after]. change (Ascii.eqb "," "}") with false.
    change (Ascii.eqb "," ",") with true. cbv iota.
    cbn [skip_ws]. change (skip_json_ws_char " ") with true. cbv iota.
    assert (Ej : exists t', join ", " ((json_quote k' ++ ": " ++ sy) :: sr')
                            ++ "}" ++ rest
                            = String (ascii_of_N 34) t').
    { destruct sr'; cbn [join append json_quote]; eexists; reflexivity. }
    destruct Ej as [t' Ej].
    rewrite Ej, (opens_skip_ws (ascii_of_N 34) t' eq_refl), <- Ej.
    rewrite (IHl Hr Hpr _ f rest (acc ++ [(k, x)])%list Er);
      try discriminate; try lia; auto.
    + rewrite <- app_assoc. reflexivity.
    + intros k0 Hk0. rewrite has_key_app.
      rewrite (Hacc k0) by (right; exact Hk0). simpl.
      rewrite orb_false_r.
      destruct (String.eqb k k0) eqn:E; [|reflexivity].
      apply String.eqb_eq in E. subst k0.
      apply In_mem in Hk0. congruence.
Qed.

Lemma prefixb_app (w rest : string) : prefixb w (w ++ rest) = true.
Proof.
  induction w as [|c w IH]; [reflexivity|]. simpl.
  rewrite Ascii.eqb_refl. exact IH.
Qed.

Lemma substring_skip (w rest : string) (m : nat) :
  (String.length rest <= m)%nat ->
  substring (String.length w) m (w ++ rest) = rest.
Proof.
  intros H. induction w as [|c w IH]; simpl.
  - apply substring_all. exact H.
  - exact IH.
Qed.

Lemma literal_app (w : string) (v : pyval) (rest : string) :
  literal w (Ok v) (w ++ rest) = Ok (v, rest).
Proof.
  unfold literal. rewrite prefixb_app, bind_Ok, substring_skip.
  - reflexivity.
  - rewrite str_length_app. lia.
Qed.

(** The decoder reads back the text the encoder writes for a plain value,
    whatever follows it. *)
Lemma scan_once_dumps (v : pyval) : reads_back v.
Proof.
  induction v as [|b|z|f|t|d|t|d t|l IHl|kvs IHk|n]
    using pyval_nested_ind;
    unfold reads_back; intros Hp s fuel rest Hd Hf Hr;
    try discriminate Hp.
  - injection Hd as <-. destruct fuel; [simpl in Hf; lia|].
    rewrite <- (literal_app "null" VNone rest). reflexivity.
  - injection Hd as <-. destruct fuel; [simpl in Hf; lia|].
    destruct b.
    + rewrite <- (literal_app "true" (VBool true) rest). reflexivity.
    + rewrite <- (literal_app "false" (VBool false) rest). reflexivity.
  - injection Hd as <-. destruct fuel; [simpl in Hf; lia|].
    apply scan_once_number. exact Hr.
  - injection Hd as <-. destruct fuel; [simpl in Hf; lia|].
    unfold json_quote.
    change ((String (ascii_of_N 34) (json_escape t)
             ++ String (ascii_of_N 34) "") ++ rest)
      with (String (ascii_of_N 34)
              ((json_escape t ++ String (ascii_of_N 34) "") ++ rest)).
    rewrite scan_once_eq. cbv zeta.
    change (byte_of (ascii_of_N 34) =? 34)%N with true. cbv iota.
    rewrite str_app_assoc.
    change (String (ascii_of_N 34) "" ++ rest) with (quote ++ rest).
    rewrite scanstring_escape.
    + reflexivity.
    + rewrite str_length_app. pose proof (json_escape_length t).
      simpl. lia.
  - rewrite json_dumps_list in Hd.
    destruct (dumps_items l) as [items|] eqn:Ei; [|discriminate].
    rewrite bind_Ok in Hd. injection Hd as <-.
    rewrite cost_list in Hf. destruct fuel as [|f0]; [lia|].
    change (String "[" (join ", " items ++ "]") ++ rest)
      with (String "[" ((join ", " items ++ "]") ++ rest)).
    rewrite scan_once_eq. cbv zeta.
    change (byte_of "[" =? 34)%N with false.
    change (Ascii.eqb "[" "{") with false.
    change (Ascii.eqb "[" "[") with true. cbv iota.
    rewrite str_app_assoc.
    destruct l as [|x r].
    + injection Ei as <-. reflexivity.
    + rewrite json_plain_list in Hp.
      pose proof Hp as Hp2. simpl in Hp2.
      apply andb_true_iff in Hp2. destruct Hp2 as [Hpx _].
      destruct (dumps_items_cons x r items Ei) as [sx [sr [Ex [Er E]]]].
      destruct (json_dumps_opens x sx Hpx Ex) as [c [t [Es Ho]]].
      assert (Ej : exists t', join ", " items ++ "]" ++ rest = String c t').
      { subst items sx. destruct sr; cbn [join append]; eexists;
          reflexivity. }
      destruct Ej as [t' Ej].
      rewrite Ej, (opens_skip_ws c t' Ho).
      assert (Ea : after "]" (String c t') = None).
      { unfold after. unfold opens in Ho.
        rewrite !andb_true_iff, !negb_true_iff in Ho.
        destruct Ho as [[_ Ho] _]. rewrite Ho. reflexivity. }
      rewrite Ea, <- Ej.
      rewrite (scan_items (x :: r) IHl Hp items f0 rest Ei)
        by (try discriminate; lia).
      reflexivity.
  - rewrite json_dumps_dict in Hd.
    destruct (dumps_pairs kvs) as [items|] eqn:Ei; [|discriminate].
    rewrite bind_Ok in Hd. injection Hd as <-.
    rewrite cost_dict in Hf. destruct fuel as [|f0]; [lia|].
    change (String "{" (join ", " items ++ "}") ++ rest)
      with (String "{" ((join ", " items ++ "}") ++ rest)).
    rewrite scan_once_eq. cbv zeta.
    change (byte_of "{" =? 34)%N with false.
    change (Ascii.eqb "{" "{") with true. cbv iota.
    rewrite str_app_assoc.
    rewrite json_plain_dict in Hp. apply andb_true_iff in Hp.
    destruct Hp as [Hpv Hdis].
    destruct kvs as [|[k x] r].
    + injection Ei as <-. reflexivity.
    + destruct (dumps_pairs_cons k x r items Ei) as [sx [sr [Ex [Er E]]]].
      assert (Ej : exists t', join ", " items ++ "}" ++ rest
                              = String (ascii_of_N 34) t').
      { subst items. destruct sr; cbn [join append json_quote]; eexists;
          reflexivity. }
      destruct Ej as [t' Ej].
      rewrite Ej, (opens_skip_ws (ascii_of_N 34) t' eq_refl).
      change (after "}" (String (ascii_of_N 34) t')) with (@None string).
      cbv iota. rewrite <- Ej.
      rewrite (scan_pairs ((k, x) :: r) IHk Hpv items f0 rest [] Ei)
        by (try discriminate; auto; lia).
      reflexivity.
Qed.

(** *** Enough fuel *)

Lemma cost_items_bound (l : list pyval) :
  Forall cost_bounded l -> all_json_plain l = true ->
  forall items, dumps_items l = Ok items ->
                (cost_items l <= 2 * String.length (join ", " items) + 1)%nat.
Proof.
  induction l as [|x r IHl]; intros HF Hp items Hd.
  - simpl. lia.
  - inversion HF as [|x0 r0 Hx Hr]. subst x0 r0.
    simpl in Hp. apply andb_true_iff in Hp. destruct Hp as [Hpx Hpr].
    destruct (dumps_items_cons x r items Hd) as [sx [sr [Ex [Er Ei]]]].
    subst items. destruct (Hx Hpx sx Ex) as [_ Hcx].
    pose proof (IHl Hr Hpr sr Er) as Hcr.
    destruct r as [|y r'].
    + injection Er as <-. simpl. lia.
    + destruct (dumps_items_cons y r' sr Er) as [sy [sr' [_ [_ Ei]]]].
      subst sr. rewrite join_cons2.
      set (J := join ", " (sy :: sr')) in *.
      rewrite !str_length_app. change (String.length ", ") with 2%nat.
      cbn [cost_items] in *. lia.
Qed.

Lemma cost_pairs_bound (kvs : list (string * pyval)) :
  Forall (fun kv : string * pyval => cost_bounded (snd kv)) kvs ->
  all_values_json_plain kvs = true ->
  forall items, dumps_pairs kvs = Ok items ->
                (cost_pairs kvs <= 2 * String.length (join ", " items) + 1)%nat.
Proof.
  induction kvs as [|[k x] r IHl]; intros HF Hp items Hd.
  - simpl. lia.
  - inversion HF as [|x0 r0 Hx Hr]. subst x0 r0. simpl in Hx.
    simpl in Hp. apply andb_true_iff in Hp. destruct Hp as [Hpx Hpr].
    destruct (dumps_pairs_cons k x r items Hd) as [sx [sr [Ex [Er Ei]]]].
    subst items. destruct (Hx Hpx sx Ex) as [_ Hcx].
    pose proof (IHl Hr Hpr sr Er) as Hcr.
    destruct r as [|[k' y] r'].
    + injection Er as <-. cbn [join cost_pairs].
      rewrite !str_length_app. lia.
    + destruct (dumps_pairs_cons k' y r' sr Er) as [sy [sr' [_ [_ Ei]]]].
      subst sr. rewrite join_cons2.
      set (J := join ", " (sy :: sr')) in *.
      rewrite !str_length_app. change (String.length ", ") with 2%nat.
      cbn [cost_pairs] in *. lia.
Qed.

Lemma str_of_N_length (n : N) : (1 <= String.length (str_of_N n))%nat.
Proof.
  destruct (str_of_N_shape n) as [_ [c [r [E _]]]]. rewrite E. simpl. lia.
Qed.

Lemma cost_bound (v : pyval) : cost_bounded v.
Proof.
  induction v as [|b|z|f|t|d|t|d t|l IHl|kvs IHk|n]
    using pyval_nested_ind;
    unfold cost_bounded; intros Hp s Hd; try discriminate Hp.
  - injection Hd as <-. simpl. lia.
  - injection Hd as <-. destruct b; simpl; lia.
  - injection Hd as <-. unfold str_of_Z. simpl cost.
    destruct (z <? 0); [rewrite str_length_app|];
      pose proof (str_of_N_length (Z.to_N z));
      pose proof (str_of_N_length (Z.to_N (- z))); simpl; lia.
  - injection Hd as <-. unfold json_quote. simpl. lia.
  - rewrite json_dumps_list in Hd.
    destruct (dumps_items l) as [items|] eqn:Ei; [|discriminate].
    rewrite bind_Ok in Hd. injection Hd as <-.
    rewrite json_plain_list in Hp.
    pose proof (cost_items_bound l IHl Hp items Ei).
    rewrite cost_list. cbn [String.length]. rewrite !str_length_app.
    cbn [String.length]. lia.
  - rewrite json_dumps_dict in Hd.
    destruct (dumps_pairs kvs) as [items|] eqn:Ei; [|discriminate].
    rewrite bind_Ok in Hd. injection Hd as <-.
    rewrite json_plain_dict in Hp. apply andb_true_iff in Hp.
    destruct Hp as [Hp _].
    pose proof (cost_pairs_bound kvs IHk Hp items Ei).
    rewrite cost_dict. cbn [String.length]. rewrite !str_length_app.
    cbn [String.length]. lia.
Qed.

(** *** The whole text *)

Lemma str_of_Z_plain (z : Z) : all_plain (str_of_Z z) = true.
Proof.
  unfold str_of_Z. destruct (z <? 0).
  - destruct (str_of_N_shape (Z.to_N (- z))) as [Hd _].
    change (all_plain ("-" ++ str_of_N (Z.to_N (- z))))
      with (plain "-" && all_plain (str_of_N (Z.to_N (- z)))).
    rewrite (all_digits_plain _ Hd). reflexivity.
  - destruct (str_of_N_shape (Z.to_N z)) as [Hd _].
    apply all_digits_plain. exact Hd.
Qed.

(** The text of a plain value has no whitespace at either end. *)
Lemma json_dumps_strip (v : pyval) (s : string) :
  json_plain v = true -> json_dumps v = Ok s -> strip s = s.
Proof.
  destruct v; try discriminate; intros _ H.
  - injection H as <-. reflexivity.
  - injection H as <-. destruct b; reflexivity.
  - injection H as <-. apply strip_all_plain, str_of_Z_plain.
  - injection H as <-. unfold json_quote.
    change (String (ascii_of_N 34) (json_escape s0)
            ++ String (ascii_of_N 34) "")
      with (String (ascii_of_N 34)
              (json_escape s0 ++ String (ascii_of_N 34) "")).
    apply strip_ends; reflexivity.
  - rewrite json_dumps_list in H.
    destruct (dumps_items l) as [items|]; [|discriminate].
    rewrite bind_Ok in H. injection H as <-.
    change ("[" ++ join ", " items ++ "]")
      with (String "[" (join ", " items ++ String "]" "")).
    apply strip_ends; reflexivity.
  - rewrite json_dumps_dict in H.
    destruct (dumps_pairs kvs) as [items|]; [|discriminate].
    rewrite bind_Ok in H. injection H as <-.
    change ("{" ++ join ", " items ++ "}")
      with (String "{" (join ", " items ++ String "}" "")).
    apply strip_ends; reflexivity.
Qed.

Lemma append_nil_r (s : string) : s ++ "" = s.
Proof. induction s as [|c s IH]; simpl; [reflexivity | rewrite IH; reflexivity]. Qed.

(** [json.loads(json.dumps(v)) = v] for a plain value. *)
Lemma json_loads_dumps (v : pyval) (s : string) :
  json_plain v = true -> json_dumps v = Ok s ->
  json_loads (VStr s) = Ok v.
Proof.
  intros Hp Hd.
  destruct (json_dumps_opens v s Hp Hd) as [c [t [Es Ho]]].
  destruct (cost_bound v Hp s Hd) as [_ Hc].
  unfold json_loads.
  assert (Hb : prefixb (utf8 65279) s = false).
  { rewrite Es. change (utf8 65279)
      with (String (ascii_of_N 239)
              (String (ascii_of_N 187) (String (ascii_of_N 191) ""))).
    cbn [prefixb].
    destruct (Ascii.eqb_spec (ascii_of_N 239) c) as [<- | _];
      [vm_compute in Ho; discriminate Ho | reflexivity]. }
  rewrite Hb. unfold json_decode.
  assert (Hs : skip_ws s = s) by (rewrite Es; apply opens_skip_ws; exact Ho).
  rewrite Hs. rewrite <- (append_nil_r s) at 2.
  rewrite (scan_once_dumps v Hp s _ "" Hd) by (try reflexivity; lia).
  reflexivity.
Qed.

Lemma json_plain_serializable (v : pyval) :
  json_plain v = true -> serializable v = true.
Proof.
  induction v as [|b|z|f|t|d|t|d t|l IHl|kvs IHk|n]
    using pyval_nested_ind; intros Hp; try discriminate Hp; try reflexivity.
  - rewrite json_plain_list in Hp. rewrite serializable_list.
    induction l as [|x r IHr]; [reflexivity|].
    inversion IHl as [|x0 r0 Hx Hr]. subst x0 r0.
    simpl in Hp. apply andb_true_iff in Hp. destruct Hp as [Hpx Hpr].
    simpl. rewrite (Hx Hpx), (IHr Hr Hpr). reflexivity.
  - rewrite json_plain_dict in Hp. apply andb_true_iff in Hp.
    destruct Hp as [Hp _]. rewrite serializable_dict.
    induction kvs as [|[k x] r IHr]; [reflexivity|].
    inversion IHk as [|x0 r0 Hx Hr]. subst x0 r0. simpl in Hx.
    simpl in Hp. apply andb_true_iff in Hp. destruct Hp as [Hpx Hpr].
    simpl. rewrite (Hx Hpx), (IHr Hr Hpr). reflexivity.
Qed.

Lemma blank_strip_false (s : string) :
  strip s = s -> (1 <= String.length s)%nat -> blank s = false.
Proof.
  intros E H. unfold blank. rewrite E.
  destruct s; [simpl in H; lia | reflexivity].
Qed.

Lemma safe_loads_dumps (v default : pyval) (s : string) :
  json_plain v = true -> json_dumps v = Ok s ->
  _safe_json_loads (VStr s) default = v.
Proof.
  intros Hp Hd. unfold _safe_json_loads.
  rewrite (blank_strip_false s (json_dumps_strip v s Hp Hd)
             (proj1 (cost_bound v Hp s Hd))).
  rewrite (json_loads_dumps v s Hp Hd). reflexivity.
Qed.

(** [json.dumps] writes every plain value, and [json.loads], hence
    [_safe_json_loads] whatever its default, reads the text back as the
    value. *)
Theorem json_round_trip (v default : pyval) :
  json_plain v = true ->
  exists s,
    json_dumps v = Ok s
    /\ json_loads (VStr s) = Ok v
    /\ _safe_json_loads (VStr s) default = v.
Proof.
  intros Hp.
  destruct (json_dumps_ok v (json_plain_serializable v Hp)) as [s Hd].
  exists s. split; [exact Hd|].
  split; [exact (json_loads_dumps v s Hp Hd)|].
  exact (safe_loads_dumps v default s Hp Hd).
Qed.

(** The three nested fields of a normalised record: an absent or blank
    column gives the empty list, a list or a dict is kept, and the JSON text
    of a plain value gives the value. *)
Theorem normalizar_nested_fields (clk : clock) (dados : dict) (k : string) :
  dados <> [] ->
  In k ["cinco_porques_grid"; "acoes_lista"; "causas_linhas"] ->
  let lido := dict_get (normalizar_dados_bda clk dados) k in
  (dict_get dados k = VNone -> lido = VList [])
  /\ (forall s, dict_get dados k = VStr s -> blank s = true ->
                lido = VList [])
  /\ (forall l, dict_get dados k = VList l -> lido = VList l)
  /\ (forall kvs, dict_get dados k = VDict kvs -> lido = VDict kvs)
  /\ (forall v s, json_plain v = true -> json_dumps v = Ok s ->
                  dict_get dados k = VStr s -> lido = v).
Proof.
  intros Hne Hk lido.
  assert (E : lido = _safe_json_loads (dict_get dados k) (VList [])).
  { subst lido. simpl in Hk.
    destruct Hk as [<- | [<- | [<- | []]]];
      [ apply normalizar_cinco_porques_grid
      | apply normalizar_acoes_lista
      | apply normalizar_causas_linhas ]; exact Hne. }
  rewrite E. repeat split.
  - intros ->. reflexivity.
  - intros s -> Hb. simpl. rewrite Hb. reflexivity.
  - intros l ->. reflexivity.
  - intros kvs ->. reflexivity.
  - intros v s Hp Hd ->.
    exact (safe_loads_dumps v (VList []) s Hp Hd).
Qed.

(** The periodicity of a normalised record: an absent column gives [0], an
    integer is kept, and the decimal text of an integer gives the
    integer. *)
Theorem normalizar_periodicidade (clk : clock) (dados : dict) (z : Z) :
  dados <> [] ->
  let lido := dict_get (normalizar_dados_bda clk dados) "periodicidade_dias" in
  (dict_get dados "periodicidade_dias" = VNone -> lido = VInt 0)
  /\ (dict_get dados "periodicidade_dias" = VInt z -> lido = VInt z)
  /\ (dict_get dados "periodicidade_dias" = VStr (str_of_Z z) ->
      lido = VInt z).
Proof.
  intros Hne lido. subst lido.
  rewrite (normalizar_periodicidade_dias clk Hne).
  repeat split; intros ->.
  - reflexivity.
  - unfold py_or, truthy. destruct (Z.eqb_spec z 0) as [-> | _]; reflexivity.
  - assert (T : truthy (VStr (str_of_Z z)) = true).
    { pose proof (str_of_Z_plain z) as _.
      unfold truthy, str_of_Z.
      destruct (z <? 0); [reflexivity|].
      destruct (str_of_N_shape (Z.to_N z)) as [_ [c [r [E _]]]].
      rewrite E. reflexivity. }
    unfold py_or. rewrite T. unfold py_int.
    rewrite int_of_str_of_Z. reflexivity.
Qed.

End JsonBack.

(** ** Break times with a fraction of a second *)

Lemma pad2_two_digits :
  forallb (fun x => two_digits (pad 2 x)) (below 60) = true.
Proof. vm_compute. reflexivity. Qed.

Lemma pad2_shape (x : Z) :
  0 <= x < 60 ->
  exists a b, pad 2 x = String a (String b "")
              /\ is_digit a = true /\ is_digit b = true.
Proof.
  intros H. pose proof pad2_two_digits as E.
  rewrite forallb_forall in E.
  specialize (E x (below_In 60 x ltac:(lia))).
  unfold two_digits in E.
  destruct (pad 2 x) as [|a [|b [|c r]]]; try discriminate E.
  apply andb_true_iff in E. exists a, b. split; [reflexivity | exact E].
Qed.

Lemma all_digits_app (a b : string) :
  all_digits (a ++ b) = all_digits a && all_digits b.
Proof.
  induction a as [|c a IH]; simpl; [reflexivity|].
  rewrite IH, andb_assoc. reflexivity.
Qed.

Lemma zeros_digits (k : nat) : all_digits (zeros k) = true.
Proof. induction k as [|k IH]; [reflexivity | exact IH]. Qed.

Lemma pad_digits (w : nat) (z : Z) : all_digits (pad w z) = true.
Proof.
  unfold pad. cbv zeta. rewrite all_digits_app, zeros_digits.
  apply (proj1 (str_of_N_shape (Z.to_N z))).
Qed.

Lemma digit_not_colon (c : ascii) :
  is_digit c = true -> Ascii.eqb c ":" = false.
Proof.
  intros H. destruct (Ascii.eqb_spec c ":") as [-> | _];
    [vm_compute in H; discriminate H | reflexivity].
Qed.

Lemma str_app_nil (s : string) : s ++ "" = s.
Proof.
  induction s as [|c s IH]; simpl; [reflexivity | rewrite IH; reflexivity].
Qed.

(** Text made of digits has no colon to split at. *)
Lemma split_on_digits (f cur : string) :
  all_digits f = true -> split_on ":" f cur = [cur ++ f].
Proof.
  revert cur. induction f as [|c f IH]; intros cur H.
  - simpl. rewrite str_app_nil. reflexivity.
  - simpl in H. apply andb_true_iff in H. destruct H as [Hc Hf].
    cbn [split_on]. rewrite (digit_not_colon c Hc), (IH _ Hf).
    rewrite str_app_assoc. reflexivity.
Qed.

Lemma int_of_two_digits (a b : ascii) :
  is_digit a = true -> is_digit b = true ->
  exists z, int_of_str (String a (String b "")) = Ok z.
Proof.
  intros Ha Hb. unfold int_of_str. cbv zeta.
  rewrite strip_all_plain
    by (cbn [all_plain]; rewrite (digit_plain a Ha), (digit_plain b Hb);
        reflexivity).
  destruct (digit_not_sign a (String b "") Ha) as [-> ->].
  cbn [digits_value]. unfold is_digit in Ha, Hb.
  destruct (digit_of a) as [x|]; [|discriminate Ha].
  destruct (digit_of b) as [y|]; [|discriminate Hb].
  eexists. reflexivity.
Qed.

(** [int] refuses seconds followed by a fraction. *)
Lemma int_of_fraction (e f : ascii) (frac : string) :
  is_digit e = true -> is_digit f = true -> all_digits frac = true ->
  int_of_str (String e (String f (String "." frac))) = Raise ValueError.
Proof.
  intros He Hf Hfrac. unfold int_of_str. cbv zeta.
  rewrite strip_all_plain.
  - destruct (digit_not_sign e (String f (String "." frac)) He) as [-> ->].
    cbn [digits_value]. unfold is_digit in He, Hf.
    destruct (digit_of e) as [x|]; [|discriminate He].
    destruct (digit_of f) as [y|]; [|discriminate Hf].
    reflexivity.
  - cbn [all_plain].
    rewrite (digit_plain e He), (digit_plain f Hf),
      (all_digits_plain frac Hfrac).
    reflexivity.
Qed.

Section TimeFraction.

Context {PF : PyFloat} {PL : PyLibs}.

(** A time of day with a fraction of a second, written as text by [str], is
    not read back by [_parse_time]: the seconds part is no integer, and the
    reader answers with the reading of the clock. *)
Theorem parse_time_drops_fraction (clk : clock) (h m s us : Z) :
  0 <= h < 24 -> 0 <= m < 60 -> 0 <= s < 60 -> 0 < us < 1000000 ->
  _parse_time clk (VStr (str_of_time (mktime h m s us))) = now_time clk.
Proof.
  intros Hh Hm Hs Hus.
  unfold str_of_time, str_of_time_seconds.
  cbn [hour minute second microsecond].
  destruct (Z.eqb_spec us 0) as [E | _]; [lia|].
  destruct (pad2_shape h ltac:(lia)) as [a [b [-> [Ha Hb]]]].
  destruct (pad2_shape m Hm) as [c [d [-> [Hc Hd]]]].
  destruct (pad2_shape s Hs) as [e [f [-> [He Hf]]]].
  pose proof (pad_digits 6 us) as Hfrac.
  set (frac := pad 6 us) in *.
  cbn [append].
  unfold _parse_time. cbn [is_none is_nan_float orb].
  rewrite strip_all_plain.
  - cbn [str_empty]. unfold split. cbn [split_on].
    rewrite (digit_not_colon a Ha), (digit_not_colon b Hb),
      (digit_not_colon c Hc), (digit_not_colon d Hd),
      (digit_not_colon e He), (digit_not_colon f Hf).
    change (Ascii.eqb ":" ":") with true. cbv iota.
    change (Ascii.eqb "." ":") with false. cbv iota.
    rewrite (split_on_digits frac _ Hfrac).
    cbn [append length nth Nat.ltb Nat.leb].
    destruct (int_of_two_digits a b Ha Hb) as [hh ->].
    destruct (int_of_two_digits c d Hc Hd) as [mm ->].
    rewrite (int_of_fraction e f frac He Hf Hfrac).
    reflexivity.
  - cbn [all_plain].
    rewrite (digit_plain a Ha), (digit_plain b Hb), (digit_plain c Hc),
      (digit_plain d Hd), (digit_plain e He), (digit_plain f Hf),
      (all_digits_plain frac Hfrac).
    reflexivity.
Qed.

End TimeFraction.

(** ** Worked cases of the statements *)

(** C1: a technician inserts a record and a manager updates it with the
    same values: the creator the insert stored is replaced by NULL, while
    the updater and the update timestamp are set from the caller and the
    clock. The source binds [criado_por = None] in every update and its
    [UPDATE] sets every key of the row it built. *)
Theorem update_erases_creator :
  exists t1 r1 t2 r2,
    inserir_bda clk0 tabela0 registro "ana@jde.com (TECNICO)" = Ok t1
    /\ select_by_id t1 1 = Some r1
    /\ dict_get r1 "criado_por" = VStr "ana@jde.com (TECNICO)"
    /\ atualizar_bda clk1 t1 1 registro "rui@jde.com (GESTOR)"
         (dict_get r1 "caminho_imagem") = Ok t2
    /\ select_by_id t2 1 = Some r2
    /\ dict_get r2 "criado_por" = VNone
    /\ dict_get r2 "atualizado_por" = VStr "rui@jde.com (GESTOR)"
    /\ dict_get r2 "atualizado_em" = VStr "2024-01-16 09:00:00"
    /\ dict_get r2 "equipamento" = dict_get r1 "equipamento".
Proof.
  pose (t1 := try_except
                (inserir_bda clk0 tabela0 registro "ana@jde.com (TECNICO)")
                tabela0).
  pose (r1 := match select_by_id t1 1 with Some r => r | None => [] end).
  pose (t2 := try_except
                (atualizar_bda clk1 t1 1 registro "rui@jde.com (GESTOR)"
                   (dict_get r1 "caminho_imagem"))
                tabela0).
  pose (r2 := match select_by_id t2 1 with Some r => r | None => [] end).
  exists t1, r1, t2, r2. repeat split; reflexivity.
Qed.



(** C3, witness: the worked record (no plan) validated with no action on
    2024-01-15, and again the day after; validated with an action whose
    description carries the phrase in capitals inside a longer text
    (nothing is appended); and validated with an action that does not carry
    it (the synthetic action is appended). *)
Lemma injection_once_witness :
  dict_get registro "existe_plano" = VStr "Não"
  /\ date_add_days (today clk0) 30 = Ok (mkdate 2024 2 14)
  /\ (exists erros causas',
        validar_payload clk0 registro whys0 causas0 []
        = Ok (erros, causas', [acao_auto (mkdate 2024 2 14)])
        /\ exists erros2 causas2,
             validar_payload clk1 registro whys0 causas'
               [acao_auto (mkdate 2024 2 14)]
             = Ok (erros2, causas2, [acao_auto (mkdate 2024 2 14)]))
  /\ (exists erros causas',
        validar_payload clk0 registro whys0 causas0 acoes_caixa
        = Ok (erros, causas', acoes_caixa))
  /\ (exists erros causas',
        validar_payload clk0 registro whys0 causas0 acoes0
        = Ok (erros, causas',
              (acoes0 ++ [acao_auto (mkdate 2024 2 14)])%list)).
Proof.
  split; [reflexivity|]. split; [reflexivity|].
  assert (H1 : dict_get registro "existe_plano" = VStr "Não")
    by reflexivity.
  assert (H2 : forallb row_ok whys0 = true) by reflexivity.
  assert (H3 : forallb is_dict causas0 = true) by reflexivity.
  assert (H4 : date_add_days (today clk0) 30 = Ok (mkdate 2024 2 14))
    by reflexivity.
  destruct (injection_once clk0 clk1 registro whys0 causas0
              (mkdate 2024 2 14) H1 H2 H3 H4) as [H0 G].
  split; [exact H0|]. split.
  - destruct (G acoes_caixa eq_refl) as [erros [causas' [E _]]].
    exists erros, causas'. exact E.
  - destruct (G acoes0 eq_refl) as [erros [causas' [E _]]].
    exists erros, causas'. exact E.
Defined.

(** C4, witness: a table of the first schema, and an engine that refuses
    the second registry column. *)
Lemma ensure_schema_stops_witness :
  ensure_schema (String.eqb "dono_bda") (Some tabela_legada)
  = (mktable (tbl_columns tabela_legada ++ ["time_bda"])
       (tbl_rows tabela_legada) (tbl_seq tabela_legada),
     ["time_bda"; "dono_bda"], Some OperationalError).
Proof.
  apply (proj1 (ensure_schema_stops_at_first_failure
                  (String.eqb "dono_bda") (Some tabela_legada) ["time_bda"]
                  [ "categoria_evento"; "cinco_porques_grid"; "acoes_lista";
                    "ultimo_executante"; "status_plano"; "existe_plano";
                    "principio_funcionamento"; "causas_linhas"; "criado_por";
                    "atualizado_por"; "atualizado_em" ]
                  "dono_bda"));
    reflexivity.
Defined.

(** C4, counterexample: on a new database the engine refuses [criado_por]:
    [ensure_schema] ends with the exception, and the statement for the two
    columns after it, [atualizado_por] and [atualizado_em], is never
    issued. *)
Lemma migration_skips_columns_after_failure :
  missing base_columns new_cols
  = ["criado_por"; "atualizado_por"; "atualizado_em"]
  /\ ensure_schema (String.eqb "criado_por") None
     = (mktable base_columns [] 0, ["criado_por"], Some OperationalError).
Proof. split; reflexivity. Qed.

(** C5, witness: the record with the plan flag "Não" and filled plan
    fields, and the one whose plan values are not what the form returns. *)
Lemma no_plan_fields_unchecked_and_stored_witness :
  dict_get registro_sem_plano "existe_plano" = VStr "Não"
  /\ dict_get registro_sem_plano "plano_sap" = VStr "PM-77"
  /\ (exists erros causas' acoes',
        validar_payload clk0 registro_sem_plano whys0 causas0 acoes0
        = Ok (erros, causas', acoes')
        /\ forall m, In m plan_msgs -> ~ In m erros)
  /\ (exists p,
        _montar_db_payload clk0 registro_sem_plano VNone "ana@jde.com" false
        = Ok p
        /\ dict_get p "plano_sap" = VStr "PM-77")
  /\ writable registro_livre = false
  /\ (exists erros causas' acoes',
        validar_payload clk0 registro_livre whys0 causas0 acoes0
        = Ok (erros, causas', acoes')
        /\ forall m, In m plan_msgs -> ~ In m erros).
Proof.
  split; [reflexivity|]. split; [reflexivity|].
  destruct (no_plan_fields_unchecked_and_stored clk0 registro_sem_plano
              whys0 causas0 acoes0 (mkdate 2024 2 14) VNone "ana@jde.com"
              false eq_refl eq_refl eq_refl eq_refl eq_refl)
    as [Hv [Hst _]].
  destruct (Hst eq_refl) as [p [per [Hp [Hk _]]]].
  split; [exact Hv|].
  split.
  { exists p. split; [exact Hp|].
    rewrite (Hk "plano_sap"); [reflexivity | left; reflexivity]. }
  split; [reflexivity|].
  exact (proj1 (no_plan_fields_unchecked_and_stored clk0 registro_livre
                  whys0 causas0 acoes0 (mkdate 2024 2 14) VNone
                  "ana@jde.com" false eq_refl eq_refl eq_refl eq_refl
                  eq_refl)).
Defined.

(** C5, counterexample: with the plan flag "Não" the plan reference, the
    description, the periodicity and the status supplied in the input are
    what the insert stores. *)
Lemma plan_fields_stored_when_no_plan :
  exists t r,
    dict_get registro_sem_plano "existe_plano" = VStr "Não"
    /\ inserir_bda clk0 tabela0 registro_sem_plano "ana@jde.com (TECNICO)"
       = Ok t
    /\ select_by_id t 1 = Some r
    /\ dict_get r "plano_sap" = VStr "PM-77"
    /\ dict_get r "descricao_plano" = VStr "Lubrificar mancais"
    /\ dict_get r "periodicidade_dias" = VInt 90
    /\ dict_get r "status_plano" = VStr "Atrasado".
Proof.
  pose (t := try_except
               (inserir_bda clk0 tabela0 registro_sem_plano
                  "ana@jde.com (TECNICO)")
               tabela0).
  pose (r := match select_by_id t 1 with Some r => r | None => [] end).
  exists t, r. repeat split; reflexivity.
Qed.

(** C6: with every other field filled, a null repair duration is not
    reported ([str(None)] is the text "None", which is neither [None] nor
    blank), while a null break date is. *)
Theorem null_repair_duration_not_reported :
  exists causas acoes causas' acoes',
    dict_get (dict_set registro "tempo_reparo_h" VNone) "tempo_reparo_h"
    = VNone
    /\ validar_payload clk0 (dict_set registro "tempo_reparo_h" VNone)
         whys0 causas0 acoes0
       = Ok ([], causas, acoes)
    /\ validar_payload clk0 (dict_set registro "data_quebra" VNone)
         whys0 causas0 acoes0
       = Ok (["Preencha o campo: Data da quebra"], causas', acoes').
Proof.
  pose (v1 := try_except
                (validar_payload clk0
                   (dict_set registro "tempo_reparo_h" VNone)
                   whys0 causas0 acoes0)
                ([], [], [])).
  pose (v2 := try_except
                (validar_payload clk0 (dict_set registro "data_quebra" VNone)
                   whys0 causas0 acoes0)
                ([], [], [])).
  exists (snd (fst v1)), (snd v1), (snd (fst v2)), (snd v2).
  repeat split; reflexivity.
Qed.

(** C7, witness: the worked record inserted into a new database and read
    back the day after, without and with an uploaded file. *)
Lemma insert_then_normalize_witness :
  (exists t r,
     inserir_bda clk0 tabela0 registro "ana@jde.com (TECNICO)" = Ok t
     /\ select_by_id t 1 = Some r
     /\ (forall k, In k record_fields ->
           dict_get (normalizar_dados_bda clk1 r) k = dict_get registro k)
     /\ dict_get (normalizar_dados_bda clk1 r) "cinco_porques_grid"
        = VList whys0
     /\ dict_get (normalizar_dados_bda clk1 r) "acoes_lista" = VList acoes0
     /\ dict_get (normalizar_dados_bda clk1 r) "causas_linhas"
        = VList causas0
     /\ dict_get (normalizar_dados_bda clk1 r) "caminho_imagem" = VStr "")
  /\ (exists t r,
        inserir_bda clk0 tabela0 registro_com_upload "ana@jde.com (TECNICO)"
        = Ok t
        /\ select_by_id t 1 = Some r
        /\ dict_get (normalizar_dados_bda clk1 r) "caminho_imagem"
           = VStr "uploads/bda_foto.png").
Proof.
  assert (Hj : forall v : pyval,
             _safe_json_loads (VStr (try_except (json_dumps v) ""))
               (VList []) = v ->
             json_reads_back v).
  { intros v H s Hs. rewrite Hs in H. exact H. }
  assert (Hc : canonical registro).
  { constructor.
    - reflexivity.
    - reflexivity.
    - exists (mkdate 2024 1 10). split; reflexivity.
    - exists (mktime 14 5 0 0). split; reflexivity.
    - left. reflexivity.
    - exists (DFin 15 1). split; [reflexivity|]. split; [reflexivity|].
      left. reflexivity.
    - exists 0. reflexivity.
    - apply Hj. reflexivity.
    - apply Hj. reflexivity.
    - apply Hj. reflexivity. }
  assert (Hc' : canonical registro_com_upload).
  { constructor.
    - reflexivity.
    - reflexivity.
    - exists (mkdate 2024 1 10). split; reflexivity.
    - exists (mktime 14 5 0 0). split; reflexivity.
    - left. reflexivity.
    - exists (DFin 15 1). split; [reflexivity|]. split; [reflexivity|].
      left. reflexivity.
    - exists 0. reflexivity.
    - apply Hj. reflexivity.
    - apply Hj. reflexivity.
    - apply Hj. reflexivity. }
  split.
  - destruct (insert_then_normalize clk0 clk1 tabela0 registro
                "ana@jde.com (TECNICO)" eq_refl eq_refl eq_refl eq_refl Hc)
      as [t [r [H1 [H2 [H3 [H4 [H5 [H6 [_ [_ [_ [H10 _]]]]]]]]]]]].
    exists t, r. repeat split; try assumption.
    apply H10. reflexivity.
  - assert (Hu : upload_ready registro_com_upload = true) by reflexivity.
    destruct (insert_then_normalize clk0 clk1 tabela0 registro_com_upload
                "ana@jde.com (TECNICO)" eq_refl eq_refl eq_refl Hu Hc')
      as [t [r [H1 [H2 [_ [_ [_ [_ [_ [_ [_ [_ H11]]]]]]]]]]]].
    exists t, r. split; [exact H1|]. split; [exact H2|].
    destruct (H11 "foto.png" eq_refl) as [p [Hp Hr]].
    injection Hp as Hp. rewrite <- Hp in Hr. exact Hr.
Defined.

(** C7, counterexample: a canonical record that carries an image reference
    comes back without it, and one whose break time is the reading of the
    clock (the normalizer's fallback, between two whole seconds) comes back
    with the time of the read. *)
Lemma insert_then_normalize_differs :
  exists t r t' r',
    inserir_bda clk0 tabela0 registro_com_imagem "ana@jde.com (TECNICO)"
    = Ok t
    /\ select_by_id t 1 = Some r
    /\ dict_get registro_com_imagem "caminho_imagem"
       = VStr "uploads/bda_1f0c.png"
    /\ dict_get (normalizar_dados_bda clk1 r) "caminho_imagem" = VStr ""
    /\ inserir_bda clk0 tabela0 registro_agora "ana@jde.com (TECNICO)"
       = Ok t'
    /\ select_by_id t' 1 = Some r'
    /\ dict_get registro_agora "hora_quebra"
       = VTime (mktime 8 30 0 250000)
    /\ dict_get r' "hora_quebra" = VStr "08:30:00.250000"
    /\ dict_get (normalizar_dados_bda clk1 r') "hora_quebra"
       = VTime (mktime 9 0 0 0).
Proof.
  pose (t := try_except
               (inserir_bda clk0 tabela0 registro_com_imagem
                  "ana@jde.com (TECNICO)")
               tabela0).
  pose (r := match select_by_id t 1 with Some r => r | None => [] end).
  pose (t' := try_except
                (inserir_bda clk0 tabela0 registro_agora
                   "ana@jde.com (TECNICO)")
                tabela0).
  pose (r' := match select_by_id t' 1 with Some r => r | None => [] end).
  exists t, r, t', r'. repeat split; reflexivity.
Qed.

(** C8, witness: five rows with exactly three filled positions each. *)
Lemma whys_depth_error_witness :
  all_filled_to 3 whys3 = true
  /\ exists erros causas' acoes',
       validar_payload clk0 registro whys3 causas3 acoes0
       = Ok (erros, causas', acoes')
       /\ count_occ string_dec erros msg_whys = 1%nat.
Proof.
  split; [reflexivity|].
  destruct (whys_depth_error clk0 registro whys3 causas3 acoes0
              (mkdate 2024 2 14) eq_refl eq_refl eq_refl
              (fun _ => eq_refl))
    as [erros [causas' [acoes' [E [H3 _]]]]].
  exists erros, causas', acoes'. split; [exact E|].
  apply H3. reflexivity.
Defined.

(** C9, witness: the row of the first schema, updated after the
    migration. *)
Lemma atualizar_bda_nulls_legacy_witness :
  select_by_id tabela_migrada 1 <> None
  /\ (exists r0, select_by_id tabela_migrada 1 = Some r0
                 /\ dict_get r0 "centro_custo" = VStr "CC-100")
  /\ exists t' r,
       atualizar_bda clk1 tabela_migrada 1 registro "rui@jde.com (GESTOR)"
         VNone = Ok t'
       /\ select_by_id t' 1 = Some r
       /\ forall c, In c legacy_columns -> dict_get r c = VNone.
Proof.
  pose (r0 := match select_by_id tabela_migrada 1 with
              | Some r => r
              | None => []
              end).
  assert (H0 : select_by_id tabela_migrada 1 = Some r0) by reflexivity.
  split; [rewrite H0; discriminate|].
  split; [exists r0; split; reflexivity|].
  apply (atualizar_bda_nulls_legacy clk1 tabela_migrada 1 registro
           "rui@jde.com (GESTOR)" VNone r0);
    reflexivity.
Defined.

(** C10, counterexample: the stored text [null] decodes to [None], which the
    second pass replaces by the empty list. *)
Lemma normalizar_twice_differs :
  let d := [("acoes_lista", VStr "null")] in
  dict_get (normalizar_dados_bda clk0 d) "acoes_lista" = VNone
  /\ dict_get (normalizar_dados_bda clk0 (normalizar_dados_bda clk0 d))
       "acoes_lista" = VList []
  /\ normalizar_dados_bda clk0 (normalizar_dados_bda clk0 d)
     <> normalizar_dados_bda clk0 d.
Proof.
  intros d. split; [|split].
  - reflexivity.
  - reflexivity.
  - intros H.
    apply (f_equal (fun x => is_none (dict_get x "acoes_lista"))) in H.
    vm_compute in H. discriminate H.
Qed.

(** C10, witness: a stored row with text dates, a text time, text numbers
    and JSON text in the nested fields. *)
Lemma normalizar_twice_witness :
  let dados :=
    [ ("equipamento", VStr "Moinho 2"); ("data_quebra", VStr "2024-03-05");
      ("hora_quebra", VStr "14:05"); ("tempo_reparo_h", VStr "1.5");
      ("periodicidade_dias", VInt 30); ("ultima_realizacao", VNone);
      ("cinco_porques_grid", VStr "[{}]"); ("acoes_lista", VStr "oops");
      ("plano_sap", VStr "PM-1") ] in
  normalizar_dados_bda clk0 (normalizar_dados_bda clk0 dados)
  = normalizar_dados_bda clk0 dados.
Proof.
  intros dados.
  apply (normalizar_twice clk0 clk0 dados).
  - left. eexists. reflexivity.
  - left. eexists. reflexivity.
  - left. eexists. reflexivity.
  - right. eexists. reflexivity.
  - left. reflexivity.
  - left. reflexivity.
Defined.

(** ** Worked cases of the further properties *)

(** The migrated table of the first schema, migrated again by an engine
    that would refuse every statement. *)
Lemma ensure_schema_again_witness :
  ensure_schema (fun _ => true) (Some tabela_migrada)
  = (tabela_migrada, [], None).
Proof.
  pose proof (ensure_schema_again (fun _ => false) (fun _ => true)
                (Some tabela_legada)) as H.
  assert (Hn : snd (ensure_schema (fun _ => false) (Some tabela_legada))
               = None) by reflexivity.
  unfold tabela_migrada.
  destruct (ensure_schema (fun _ => false) (Some tabela_legada))
    as [[t' tried] e].
  cbn [fst snd] in *. subst e. exact (H t' tried eq_refl).
Defined.

(** The table of the first schema, migrated, takes the worked record and
    keeps the row it had. *)
Lemma ensure_schema_then_insert_witness :
  migrated tabela_migrada = true
  /\ tbl_rows tabela_migrada = tbl_rows tabela_legada
  /\ exists t'',
       inserir_bda clk0 tabela_migrada registro "ana@jde.com (TECNICO)"
       = Ok t''.
Proof.
  pose proof (fun t' tried H =>
                ensure_schema_then_insert (fun _ => false)
                  (Some tabela_legada) t' tried clk0 registro
                  "ana@jde.com (TECNICO)" H eq_refl eq_refl eq_refl) as H.
  assert (Hn : snd (ensure_schema (fun _ => false) (Some tabela_legada))
               = None) by reflexivity.
  unfold tabela_migrada.
  destruct (ensure_schema (fun _ => false) (Some tabela_legada))
    as [[t' tried] e].
  cbn [fst snd] in *. subst e. exact (H t' tried eq_refl).
Defined.

(** An update addressed to row 7 of a table that has no row. *)
Lemma atualizar_bda_unknown_id_witness :
  select_by_id tabela0 7 = None
  /\ exists t',
       atualizar_bda clk1 tabela0 7 registro "rui@jde.com (GESTOR)" VNone
       = Ok t'
       /\ t' = tabela0.
Proof.
  split; [reflexivity|].
  pose (t' := try_except
                (atualizar_bda clk1 tabela0 7 registro
                   "rui@jde.com (GESTOR)" VNone)
                (mktable [] [] 0)).
  exists t'. split; [reflexivity|].
  apply (atualizar_bda_unknown_id clk1 tabela0 t' 7 registro
           "rui@jde.com (GESTOR)" VNone);
    reflexivity.
Defined.

(** The row of the first schema, updated after the migration: the table
    keeps its shape and the row its id and creation time. *)
Lemma atualizar_bda_frame_witness :
  exists t' r,
    atualizar_bda clk1 tabela_migrada 1 registro "rui@jde.com (GESTOR)"
      VNone = Ok t'
    /\ tbl_columns t' = tbl_columns tabela_migrada
    /\ tbl_seq t' = 1
    /\ length (tbl_rows t') = 1%nat
    /\ select_by_id t' 2 = None
    /\ select_by_id t' 1 = Some r
    /\ dict_get r "id" = VInt 1
    /\ dict_get r "created_at" = VStr "2022-05-02 10:00:00".
Proof.
  pose (t' := try_except
                (atualizar_bda clk1 tabela_migrada 1 registro
                   "rui@jde.com (GESTOR)" VNone)
                (mktable [] [] 0)).
  pose (r0 := match select_by_id tabela_migrada 1 with
              | Some r => r
              | None => []
              end).
  destruct (atualizar_bda_frame clk1 tabela_migrada t' 1 registro
              "rui@jde.com (GESTOR)" VNone eq_refl)
    as [Hc [Hs [Hl [Ho Hr]]]].
  destruct (Hr r0 eq_refl) as [r [Hsel [Hid Hcr]]].
  exists t', r.
  split; [reflexivity|]. split; [exact Hc|]. split; [exact Hs|].
  split; [exact Hl|].
  split; [rewrite (Ho 2) by discriminate; reflexivity|].
  split; [exact Hsel|]. split; [exact Hid | exact Hcr].
Defined.

(** The same update: who and when. *)
Lemma atualizar_bda_audit_witness :
  exists t' r,
    atualizar_bda clk1 tabela_migrada 1 registro "rui@jde.com (GESTOR)"
      VNone = Ok t'
    /\ select_by_id t' 1 = Some r
    /\ dict_get r "criado_por" = VNone
    /\ dict_get r "atualizado_por" = VStr "rui@jde.com (GESTOR)"
    /\ dict_get r "atualizado_em" = VStr "2024-01-16 09:00:00".
Proof.
  pose (t' := try_except
                (atualizar_bda clk1 tabela_migrada 1 registro
                   "rui@jde.com (GESTOR)" VNone)
                (mktable [] [] 0)).
  pose (r0 := match select_by_id tabela_migrada 1 with
              | Some r => r
              | None => []
              end).
  destruct (atualizar_bda_audit clk1 tabela_migrada t' 1 registro
              "rui@jde.com (GESTOR)" VNone r0 eq_refl eq_refl)
    as [r [Hsel [H1 [H2 H3]]]].
  exists t', r.
  split; [reflexivity|]. split; [exact Hsel|]. split; [exact H1|].
  split; [exact H2 | exact H3].
Defined.

(** The same update, the caller passing the reference of the image stored
    earlier: the reference is kept. *)
Lemma atualizar_bda_image_witness :
  exists t' r,
    atualizar_bda clk1 tabela_migrada 1 registro "rui@jde.com (GESTOR)"
      (VStr "uploads/bda_1f0c.png") = Ok t'
    /\ select_by_id t' 1 = Some r
    /\ dict_get r "caminho_imagem" = VStr "uploads/bda_1f0c.png".
Proof.
  pose (t' := try_except
                (atualizar_bda clk1 tabela_migrada 1 registro
                   "rui@jde.com (GESTOR)" (VStr "uploads/bda_1f0c.png"))
                (mktable [] [] 0)).
  pose (r0 := match select_by_id tabela_migrada 1 with
              | Some r => r
              | None => []
              end).
  destruct (atualizar_bda_image clk1 tabela_migrada t' 1 registro
              "rui@jde.com (GESTOR)" (VStr "uploads/bda_1f0c.png") r0
              eq_refl eq_refl)
    as [r [Hsel [H1 _]]].
  exists t', r.
  split; [reflexivity|]. split; [exact Hsel|].
  apply H1; reflexivity.
Defined.

(** The worked record inserted beside the row of the first schema. *)
Lemma inserir_bda_frame_witness :
  exists t' r,
    inserir_bda clk0 tabela_migrada registro "ana@jde.com (TECNICO)" = Ok t'
    /\ tbl_seq t' = 2
    /\ length (tbl_rows t') = 2%nat
    /\ select_by_id t' 1 = select_by_id tabela_migrada 1
    /\ select_by_id t' 2 = Some r
    /\ dict_get r "criado_por" = VStr "ana@jde.com (TECNICO)"
    /\ dict_get r "atualizado_por" = VNone
    /\ dict_get r "id" = VInt 2.
Proof.
  pose (t' := try_except
                (inserir_bda clk0 tabela_migrada registro
                   "ana@jde.com (TECNICO)")
                (mktable [] [] 0)).
  destruct (inserir_bda_frame clk0 tabela_migrada t' registro
              "ana@jde.com (TECNICO)" eq_refl eq_refl)
    as [_ [Hs [Hl [Ho [r [Hsel [H1 [H2 [_ H4]]]]]]]]].
  assert (Eseq : tbl_seq tabela_migrada = 1) by reflexivity.
  assert (Elen : length (tbl_rows tabela_migrada) = 1%nat) by reflexivity.
  rewrite Eseq in Hs, Ho, Hsel, H4. rewrite Elen in Hl.
  change (1 + 1) with 2 in Hs, Ho, Hsel, H4.
  exists t', r.
  split; [reflexivity|]. split; [exact Hs|]. split; [exact Hl|].
  split; [apply Ho; discriminate|].
  split; [exact Hsel|]. split; [exact H1|]. split; [exact H2|].
  apply H4; reflexivity.
Defined.

(** A stored row with a NULL equipment. *)
Lemma normalizar_text_fields_witness :
  let dados := [("equipamento", VNone); ("secao", VStr "Linha 2")] in
  dict_get (normalizar_dados_bda clk0 dados) "equipamento" = VStr ""
  /\ dict_get (normalizar_dados_bda clk0 dados) "secao" = VStr "Linha 2".
Proof.
  intros dados.
  assert (Hne : dados <> []) by discriminate.
  split.
  - apply (proj2 (normalizar_text_fields clk0 dados "equipamento" Hne
                    (or_introl eq_refl))).
    discriminate.
  - apply (proj2 (normalizar_text_fields clk0 dados "secao" Hne
                    (or_intror (or_introl eq_refl)))).
    discriminate.
Defined.

(** A stored row with no plan flag and a plan reference. *)
Lemma normalizar_plan_flag_witness :
  let dados := [("plano_sap", VStr "PM-1")] in
  dict_get (normalizar_dados_bda clk0 dados) "existe_plano" = VStr "Sim".
Proof.
  intros dados.
  assert (Hne : dados <> []) by discriminate.
  exact (proj2 (normalizar_plan_flag clk0 dados Hne)).
Defined.

(** A stored row with an id and a column of the first schema. *)
Lemma normalizar_other_keys_witness :
  let dados := [("id", VInt 7); ("centro_custo", VStr "CC-100")] in
  has_key (normalizar_dados_bda clk0 dados) "centro_custo" = true
  /\ dict_get (normalizar_dados_bda clk0 dados) "id" = VInt 7.
Proof.
  intros dados.
  assert (Hne : dados <> []) by discriminate.
  split.
  - apply (proj1 (normalizar_other_keys clk0 dados "centro_custo" Hne)).
    reflexivity.
  - apply (proj2 (normalizar_other_keys clk0 dados "id" Hne)); reflexivity.
Defined.

(** Five past two in the afternoon, and nine seconds. *)
Lemma parse_time_reads_text_witness :
  _parse_time clk0 (VStr "14:05:09") = mktime 14 5 9 0
  /\ _parse_time clk0 (VStr "14:05") = mktime 14 5 0 0
  /\ _parse_time clk0 (VStr "14") = mktime 14 0 0 0.
Proof.
  apply (parse_time_reads_text clk0 14 5 9); lia.
Defined.

(** The worked record with a blank section. *)
Lemma event_fields_reported_witness :
  exists erros causas' acoes',
    validar_payload clk0 (dict_set registro "secao" (VStr "  "))
      whys0 causas0 acoes0
    = Ok (erros, causas', acoes')
    /\ count_occ string_dec erros "Preencha o campo: Seção/Local" = 1%nat.
Proof.
  destruct (event_fields_reported clk0
              (dict_set registro "secao" (VStr "  "))
              whys0 causas0 acoes0 (mkdate 2024 2 14) "secao"
              eq_refl eq_refl eq_refl (fun _ => eq_refl)
              (or_intror (or_introl eq_refl)))
    as [erros [causas' [acoes' [E [_ [H _]]]]]].
  exists erros, causas', acoes'. split; [exact E|].
  apply H; [discriminate | reflexivity].
Defined.

(** The worked record with the plan flag "Sim" and no plan reference. *)
Lemma plan_fields_reported_witness :
  let payload :=
    dict_set (dict_set registro "existe_plano" (VStr "Sim"))
      "plano_sap" (VStr "") in
  exists erros causas' acoes',
    validar_payload clk0 payload whys0 causas0 acoes0
    = Ok (erros, causas', acoes')
    /\ count_occ string_dec erros "Preencha o campo: Plano SAP" = 1%nat.
Proof.
  intros payload.
  destruct (plan_fields_reported clk0 payload whys0 causas0 acoes0
              (mkdate 2024 2 14) "plano_sap"
              eq_refl eq_refl eq_refl eq_refl (or_introl eq_refl))
    as [erros [causas' [acoes' [E [_ [H _]]]]]].
  exists erros, causas', acoes'. split; [exact E|].
  apply H; [discriminate | reflexivity].
Defined.

(** The worked record (no plan) with no action. *)
Lemma action_error_witness :
  exists erros causas',
    validar_payload clk0 registro whys0 causas0 []
    = Ok (erros, causas', [acao_auto (mkdate 2024 2 14)])
    /\ count_occ string_dec erros msg_acoes = 0%nat.
Proof.
  destruct (action_error clk0 registro whys0 causas0 [] (mkdate 2024 2 14)
              eq_refl eq_refl eq_refl (fun _ => eq_refl))
    as [erros [causas' [E [_ H]]]].
  exists erros, causas'. split; [exact E|].
  apply H. reflexivity.
Defined.

(** The worked record is accepted. *)
Lemma validar_payload_accepts_witness :
  exists causas' acoes',
    validar_payload clk0 registro whys0 causas0 acoes0
    = Ok ([], causas', acoes').
Proof.
  destruct (validar_payload_accepts clk0 registro whys0 causas0 acoes0
              (mkdate 2024 2 14) eq_refl eq_refl eq_refl (fun _ => eq_refl))
    as [erros [causas' [E H]]].
  exists causas', (injected registro acoes0 (mkdate 2024 2 14)).
  rewrite E. rewrite (proj2 H eq_refl). reflexivity.
Defined.

(** The cause entries of the worked record, the first one carrying a stale
    depth. *)
Lemma causas_after_validation_witness :
  let causas :=
    VDict [ ("linha", VInt 1); ("causa", VStr "Falta de inspeção");
            ("ultimo_por_que", VInt 2) ] :: tl causas0 in
  exists erros causas' acoes' c',
    validar_payload clk0 registro whys0 causas acoes0
    = Ok (erros, causas', acoes')
    /\ length causas' = 5%nat
    /\ nth_error causas' 0 = Some c'
    /\ dict_get (row_dict c') "causa" = VStr "Falta de inspeção"
    /\ dict_get (row_dict c') "ultimo_por_que" = VInt 4.
Proof.
  intros causas.
  destruct (causas_after_validation clk0 registro whys0 causas acoes0
              (mkdate 2024 2 14) eq_refl eq_refl eq_refl (fun _ => eq_refl))
    as [erros [causas' [acoes' [E [Hl H]]]]].
  destruct (H 0%nat (hd VNone causas) eq_refl) as [c' [Hn [Hk [_ Hr]]]].
  exists erros, causas', acoes', c'.
  split; [exact E|]. split; [exact Hl|]. split; [exact Hn|].
  split; [apply (Hk "causa"); discriminate|].
  exact (Hr (hd VNone whys0) eq_refl).
Defined.

(** The actions of the worked record. *)
Lemma json_round_trip_witness :
  exists s,
    json_dumps (VList acoes0) = Ok s
    /\ json_loads (VStr s) = Ok (VList acoes0)
    /\ _safe_json_loads (VStr s) (VList []) = VList acoes0.
Proof.
  exact (json_round_trip (VList acoes0) (VList []) eq_refl).
Defined.

(** A stored row whose why-chain column holds JSON text. *)
Lemma normalizar_nested_fields_witness :
  let dados := [("cinco_porques_grid", VStr "[[1, true], null, 7]")] in
  dict_get (normalizar_dados_bda clk0 dados) "cinco_porques_grid"
  = VList [VList [VInt 1; VBool true]; VNone; VInt 7]
  /\ dict_get (normalizar_dados_bda clk0 dados) "acoes_lista" = VList [].
Proof.
  intros dados.
  assert (Hne : dados <> []) by discriminate.
  split.
  - apply (proj2 (proj2 (proj2 (proj2
             (normalizar_nested_fields clk0 dados "cinco_porques_grid" Hne
                (or_introl eq_refl)))))
             (VList [VList [VInt 1; VBool true]; VNone; VInt 7])
             "[[1, true], null, 7]");
      reflexivity.
  - apply (proj1 (normalizar_nested_fields clk0 dados "acoes_lista" Hne
                    (or_intror (or_introl eq_refl)))).
    reflexivity.
Defined.

(** A stored row whose periodicity is text. *)
Lemma normalizar_periodicidade_witness :
  let dados := [("periodicidade_dias", VStr "-30")] in
  dict_get (normalizar_dados_bda clk0 dados) "periodicidade_dias"
  = VInt (-30).
Proof.
  intros dados.
  assert (Hne : dados <> []) by discriminate.
  apply (proj2 (proj2 (normalizar_periodicidade clk0 dados (-30) Hne))).
  reflexivity.
Defined.

(** A quarter of a second past half past eight, read at nine. *)
Lemma parse_time_drops_fraction_witness :
  _parse_time clk1 (VStr "08:30:00.250000") = mktime 9 0 0 0.
Proof.
  apply (parse_time_drops_fraction clk1 8 30 0 250000); lia.
Defined.
